(** * PyCharm projects / configuration backup: a shallow embedding

  The development follows the two scripts of the repository:

  - [pycharm_project_backup.py]: [FilePatternMatcher], [ProjectUtils],
    [PyCharmBackupRestoreManager.backup] and [.restore];
  - [pycharm_config_backup.py]: [create_backup], [verify_backup],
    [clean_old_backups], [list_backups], [list_projects_in_backup],
    [restore_project], [restore_projects].

  Python [str] values are [string]s, [pathlib] paths are lists of
  parts (POSIX flavour), the [stats] dictionary is a record of
  integers, the file system a finite tree, a zip container the list
  of the entries written to it, in order.  Calls that may raise
  ([stat], [ZipFile.write], [ZipFile.extract], opening a container)
  are given by the environment, and the handlers of the source decide
  what happens then. *)

From Stdlib Require Import List Bool Arith ZArith Lia.
From Stdlib Require Import Ascii String.
From Stdlib Require Import Sorted Permutation.
Import ListNotations.

Local Open Scope string_scope.
Local Open Scope list_scope.

(* ================================================================== *)
(** ** Python strings *)

Module PyStr.

(** [s.startswith(p)] *)
Definition startswith (s p : string) : bool := String.prefix p s.

(** [p in s] on strings: [p] occurs somewhere in [s]. *)
Fixpoint contains (s p : string) : bool :=
  String.prefix p s ||
  match s with
  | EmptyString => false
  | String _ s' => contains s' p
  end.

(** [s.replace(a, b)] for single characters. *)
Fixpoint replace_char (a b : ascii) (s : string) : string :=
  match s with
  | EmptyString => EmptyString
  | String c s' =>
      String (if Ascii.eqb c a then b else c) (replace_char a b s')
  end.

(** [s.split(sep)] for a single-character separator. *)
Fixpoint split (sep : ascii) (s : string) : list string :=
  match s with
  | EmptyString => [EmptyString]
  | String c s' =>
      if Ascii.eqb c sep then EmptyString :: split sep s'
      else match split sep s' with
           | [] => [String c EmptyString]
           | h :: t => String c h :: t
           end
  end.

(** [sep.join(l)] *)
Definition join (sep : string) (l : list string) : string :=
  String.concat sep l.

Definition lower_char (c : ascii) : ascii :=
  let n := nat_of_ascii c in
  if (65 <=? n)%nat && (n <=? 90)%nat then ascii_of_nat (n + 32) else c.

(** [s.lower()], on the ASCII letters. *)
Fixpoint lower (s : string) : string :=
  match s with
  | EmptyString => EmptyString
  | String c s' => String (lower_char c) (lower s')
  end.

(** [s.rfind(c)]: index of the last occurrence, [None] for -1. *)
Fixpoint rfind (c : ascii) (s : string) : option nat :=
  match s with
  | EmptyString => None
  | String a s' =>
      match rfind c s' with
      | Some i => Some (S i)
      | None => if Ascii.eqb a c then Some 0%nat else None
      end
  end.

(** [s[i:]] *)
Fixpoint drop (i : nat) (s : string) : string :=
  match i, s with
  | O, _ => s
  | S i', String _ s' => drop i' s'
  | S _, EmptyString => EmptyString
  end.

(** [x in l] for a list or set of strings. *)
Definition mem (x : string) (l : list string) : bool :=
  existsb (String.eqb x) l.

Definition is_digit (c : ascii) : bool :=
  let n := nat_of_ascii c in (48 <=? n)%nat && (n <=? 57)%nat.

End PyStr.

(* ================================================================== *)
(** ** pathlib paths (POSIX flavour) *)

Definition path := list string.

Module PurePath.

Definition slash : ascii := "/"%char.

Definition keep_part (x : string) : bool :=
  negb (String.eqb x "") && negb (String.eqb x ".").

(** The root of a path string: ["//"] for exactly two leading
    slashes, ["/"] for any other number of them, none otherwise. *)
Definition root_of (s : string) : list string :=
  if PyStr.startswith s "/" then
    if PyStr.startswith s "//" && negb (PyStr.startswith s "///")
    then ["//"] else ["/"]
  else [].

(** [Path(s).parts] *)
Definition parts (s : string) : path :=
  root_of s ++ filter keep_part (PyStr.split slash s).

Definition is_root (x : string) : bool :=
  String.eqb x "/" || String.eqb x "//".

(** [str(p)] *)
Definition to_str (p : path) : string :=
  match p with
  | [] => "."
  | r :: rest =>
      if is_root r then String.append r (PyStr.join "/" rest)
      else PyStr.join "/" p
  end.

(** [p / name] for a single component. *)
Definition joinpath (p : path) (name : string) : path := p ++ [name].

(** [p.name] *)
Definition name (p : path) : string :=
  match rev p with
  | [] => ""
  | x :: _ => if is_root x then "" else x
  end.

(** [p.suffix]: the part of the name from its last dot on, unless
    the dot is the first or the last character of the name. *)
Definition suffix (p : path) : string :=
  let n := name p in
  match PyStr.rfind "."%char n with
  | Some i =>
      if (0 <? i)%nat && (i <? String.length n - 1)%nat
      then PyStr.drop i n else ""
  | None => ""
  end.

(** [fnmatch.fnmatchcase(s, pat)] for patterns made of literal
    characters, [*] and [?]. *)
Fixpoint fnmatchcase (pat s : string) : bool :=
  match pat with
  | EmptyString => match s with EmptyString => true | _ => false end
  | String c pat' =>
      if Ascii.eqb c "*"%char then
        (fix star (t : string) : bool :=
           fnmatchcase pat' t ||
           match t with
           | EmptyString => false
           | String _ t' => star t'
           end) s
      else
        match s with
        | EmptyString => false
        | String d s' =>
            (Ascii.eqb c "?"%char || Ascii.eqb c d) && fnmatchcase pat' s'
        end
  end.

Fixpoint match_parts (ps pats : list string) : bool :=
  match pats with
  | [] => true
  | q :: pats' =>
      match ps with
      | [] => false
      | x :: ps' => fnmatchcase q x && match_parts ps' pats'
      end
  end.

(** [p.match(pattern)] for a relative pattern: the pattern's parts
    are matched against the last parts of [p], from the right. *)
Definition path_match (p : path) (pattern : string) : bool :=
  match_parts (rev p) (rev (parts pattern)).

End PurePath.

(* ================================================================== *)
(** ** The file system and [os.walk] *)

Module Os.

(** A regular file: its name, the result of [stat().st_size] ([None]
    when [stat] raises) and whether [ZipFile.write] can read it. *)
Record file_entry : Type := mkFile {
  f_name : string;
  st_size : option Z;
  zip_write_ok : bool
}.

#[warnings="-register-all"] Inductive fs_tree : Type :=
| Dir (files : list file_entry) (subdirs : list (string * fs_tree)).

(** [os.walk(top)], top-down.  Each visited directory yields
    [(root, dirs, files)]; the caller prunes [dirs] in place before
    the walk descends, which [keep root d] stands for.  [dirs] is
    reported as listed, before pruning. *)
Fixpoint walk (keep : path -> string -> bool) (root : path) (t : fs_tree)
  : list (path * list string * list file_entry) :=
  match t with
  | Dir files subdirs =>
      (root, map fst subdirs, files) ::
      (fix descend (l : list (string * fs_tree)) :=
         match l with
         | [] => []
         | (d, sub) :: l' =>
             (if keep root d then walk keep (root ++ [d]) sub else [])
               ++ descend l'
         end) subdirs
  end.

End Os.

(* ================================================================== *)
(** ** FilePatternMatcher *)

Module FilePatternMatcher.

Definition important_extensions : list string :=
  [".py"; ".json"; ".yml"; ".yaml"; ".md"; ".txt"; ".ini"; ".cfg";
   ".toml"; ".html"; ".css"; ".js"; ".xml"; ".iml"; ".gitignore";
   ".sql"; ".rst"; ".sh"; ".bat"; ".ps1"; ".ipynb"; ".java"; ".properties";
   ".gradle"; ".dart"; ".kt"; ".kts"; ".tsx"; ".ts"; ".jsx"].

Definition important_filenames : list string :=
  ["requirements.txt"; "Pipfile"; "Pipfile.lock"; "pyproject.toml";
   "setup.py"; "setup.cfg"; "README.md"; ".env.example"; ".gitignore";
   "Dockerfile"; "docker-compose.yml"; "Makefile"; "LICENSE"; ".flake8";
   "poetry.lock"; "package.json"; "package-lock.json"; "tsconfig.json";
   ".prettierrc"; ".eslintrc"; "tox.ini"; ".coveragerc"; ".babelrc";
   "webpack.config.js"; "vue.config.js"; "angular.json"; "build.gradle"].

Definition is_important_file (filepath : path) (include_venv : bool) : bool :=
  if PyStr.mem (PyStr.lower (PurePath.suffix filepath)) important_extensions
  then true
  else if PyStr.mem (PurePath.name filepath) important_filenames
  then true
  else false.

Definition excluded_dirs : list string :=
  ["__pycache__"; ".git"; ".idea"; "dist"; "build"; "node_modules";
   "data"; "logs"; "temp"; "tmp"; ".pytest_cache"; ".mypy_cache";
   ".ipynb_checkpoints"; "output"; "downloads"; "coverage"; "htmlcov"].

Definition venv_dirs : list string :=
  ["venv"; ".venv"; "env"; ".env"; "virtualenv"].

Definition is_excluded_dir (dirname : string) (include_venv : bool)
           (custom_excludes : list string) : bool :=
  let excluded :=
    if negb include_venv then excluded_dirs ++ venv_dirs else excluded_dirs in
  if PyStr.mem dirname excluded then true
  else existsb (fun exclude_pattern => PyStr.contains dirname exclude_pattern)
               custom_excludes.

Definition should_exclude_file (filepath : path)
           (custom_excludes : list string) : bool :=
  existsb (fun exclude_pattern =>
             PyStr.contains (PurePath.to_str filepath) exclude_pattern)
          custom_excludes.

Definition is_in_include_paths (rel_path : path)
           (include_paths : list string) : bool :=
  match include_paths with
  | [] => false
  | _ =>
      let str_path :=
        PyStr.replace_char "\"%char "/"%char (PurePath.to_str rel_path) in
      existsb (fun include_path =>
                 PyStr.startswith str_path
                   (PyStr.replace_char "\"%char "/"%char include_path))
              include_paths
  end.

Definition module_marker : string := "__init__.py".

(** [is_module_directory]: [(directory / "__init__.py").exists()],
    on the listing of the directory. *)
Definition is_module_directory (dirs : list string)
           (files : list Os.file_entry) : bool :=
  PyStr.mem module_marker (map Os.f_name files) ||
  PyStr.mem module_marker dirs.

Definition module_walk_skip : list string :=
  ["__pycache__"; ".git"; ".idea"; "dist"; "build"; "node_modules";
   "data"; "logs"; "temp"; "tmp"; ".pytest_cache"; ".mypy_cache";
   ".ipynb_checkpoints"; "output"; "downloads"; "coverage"; "htmlcov";
   "venv"; ".venv"; "env"; ".env"; "virtualenv"].

(** [find_all_modules(project_dir)]; paths are kept relative to the
    directory [project_dir] is given relative to. *)
Definition find_all_modules (project_dir : path) (t : Os.fs_tree)
  : list path :=
  map (fun e => fst (fst e))
      (filter (fun e => is_module_directory (snd (fst e)) (snd e))
              (Os.walk (fun _ d => negb (PyStr.mem d module_walk_skip))
                       project_dir t)).

End FilePatternMatcher.

(* ================================================================== *)
(** ** pycharm_project_backup.py: backup and restore *)

Module ProjectBackup.
Import Os FilePatternMatcher.

(** The [stats] dictionary of [backup]. *)
Record stats : Type := mkStats {
  included_files : Z;
  excluded_size : Z;
  excluded_count : Z;
  included_custom_paths : Z;
  included_modules : Z
}.

Definition stats0 : stats := mkStats 0 0 0 0 0.

(** The arguments of [backup] that the scan depends on. *)
Record args : Type := mkArgs {
  include_venv : bool;
  custom_excludes : list string;
  max_size_bytes : Z;
  include_paths : list string;
  include_projects : list string;
  exclude_projects : list string;
  dry_run : bool;
  auto_include_modules : bool
}.

(** What [backup] finds on disk: the projects directory, whether it
    exists, its sub-directories, and whether the output container
    can be opened for writing. *)
Record world : Type := mkWorld {
  pycharm_dir : path;
  pycharm_dir_exists : bool;
  projects : list (string * fs_tree);
  zip_open_ok : bool
}.

(** An archive entry: [(file_path, zip_path)], the two arguments of
    [zipf.write]. *)
Definition zip_entry : Type := path * path.

(** The loop state: the statistics, the module prefixes found so
    far and the container ([None] under [nullcontext], in a dry
    run; entries are appended in the order written). *)
Record scan : Type := mkScan {
  sc_stats : stats;
  module_paths : list string;
  zipf : option (list zip_entry)
}.

Definition venv_important_files : list path :=
  [["pyvenv.cfg"]; ["requirements.txt"];
   ["Scripts"; "activate"]; ["Scripts"; "activate.bat"];
   ["Scripts"; "Activate.ps1"]; ["bin"; "activate"]].

Definition in_venv_names : list string := ["venv"; ".venv"; "env"; ".env"].

(** [ProjectUtils.get_project_dirs] *)
Definition get_project_dirs (w : world) (a : args)
  : list (string * fs_tree) :=
  if negb (pycharm_dir_exists w) then []
  else
    filter (fun item =>
              let project_name := fst item in
              if match include_projects a with [] => false | _ => true end
                 && negb (PyStr.mem project_name (include_projects a))
              then false
              else if PyStr.mem project_name (exclude_projects a) then false
              else true)
           (projects w).

(** [zipf.write(file_path, zip_path)]: [None] when it raises.  The
    entry is appended whatever the names already in the container
    ([zipfile] warns of a duplicate name and writes it). *)
Definition zip_write (z : option (list zip_entry)) (f : file_entry)
           (file_path zip_path : path) : option (list zip_entry) :=
  match z with
  | None => None
  | Some entries =>
      if zip_write_ok f then Some (entries ++ [(file_path, zip_path)])
      else None
  end.

Definition add_excluded (s : stats) (file_size : Z) : stats :=
  mkStats (included_files s) (excluded_size s + file_size)
          (excluded_count s + 1) (included_custom_paths s)
          (included_modules s).

Definition add_included (s : stats) : stats :=
  mkStats (included_files s + 1) (excluded_size s) (excluded_count s)
          (included_custom_paths s) (included_modules s).

Definition add_custom (s : stats) : stats :=
  mkStats (included_files s + 1) (excluded_size s) (excluded_count s)
          (included_custom_paths s + 1) (included_modules s).

Definition add_module (s : stats) : stats :=
  mkStats (included_files s) (excluded_size s) (excluded_count s)
          (included_custom_paths s) (included_modules s + 1).

Definition with_stats (st : scan) (s : stats) : scan :=
  mkScan s (module_paths st) (zipf st).

(** "Add file to zip" followed by the counters: nothing is written
    in a dry run; a write that raises is logged and the file is not
    counted. *)
Definition add_file (a : args) (st : scan) (f : file_entry)
           (file_path zip_path : path) (count : stats -> stats) : scan :=
  if negb (dry_run a) then
    match zip_write (zipf st) f file_path zip_path with
    | Some z => mkScan (count (sc_stats st)) (module_paths st) (Some z)
    | None => st
    end
  else with_stats st (count (sc_stats st)).

(** The loop over [venv_important_files]: the first pattern that
    matches decides, then [break]. *)
Fixpoint venv_loop (a : args) (st : scan) (f : file_entry)
         (file_path zip_path : path) (l : list path) : scan :=
  match l with
  | [] => st
  | venv_file :: l' =>
      if PurePath.path_match file_path
           (String.append "*"
              (String.append (PurePath.to_str venv_file) "*"))
      then add_file a st f file_path zip_path add_included
      else venv_loop a st f file_path zip_path l'
  end.

(** The body of [for file in files]. *)
Definition process_file (a : args) (w : world) (rel_path : path)
           (path_explicitly_included in_venv : bool)
           (st : scan) (f : file_entry) : scan :=
  let file := f_name f in
  let file_path := PurePath.joinpath (pycharm_dir w ++ rel_path) file in
  let zip_path := PurePath.joinpath rel_path file in
  if path_explicitly_included then
    if should_exclude_file file_path (custom_excludes a) then st
    else
      match st_size f with
      | None => st
      | Some file_size =>
          if (file_size >? max_size_bytes a)%Z
          then with_stats st (add_excluded (sc_stats st) file_size)
          else add_file a st f file_path zip_path add_custom
      end
  else
    if should_exclude_file file_path (custom_excludes a) then st
    else
      match st_size f with
      | None => st
      | Some file_size =>
          if (file_size >? max_size_bytes a)%Z
          then with_stats st (add_excluded (sc_stats st) file_size)
          else if in_venv && include_venv a
          then venv_loop a st f file_path zip_path venv_important_files
          else if is_important_file (PurePath.parts file) (include_venv a)
          then add_file a st f file_path zip_path add_included
          else st
      end.

Definition path_explicitly_included (a : args) (mods : list string)
           (rel_path : path) : bool :=
  is_in_include_paths rel_path (include_paths a) ||
  is_in_include_paths rel_path mods.

(** The in-place filter of [dirs]. *)
Definition keep_dir (a : args) (mods : list string)
           (rel_path : path) (d : string) : bool :=
  if negb (path_explicitly_included a mods rel_path) then
    negb (is_excluded_dir d (include_venv a) (custom_excludes a)) ||
    is_in_include_paths (PurePath.joinpath rel_path d) (include_paths a) ||
    is_in_include_paths (PurePath.joinpath rel_path d) mods
  else true.

Definition in_venv (w : world) (rel_path : path) : bool :=
  existsb (fun venv_dir => PyStr.mem venv_dir (pycharm_dir w ++ rel_path))
          in_venv_names.

(** One step of [for root, dirs, files in os.walk(project_dir)]. *)
Definition process_dir (a : args) (w : world) (st : scan)
           (e : path * list string * list file_entry) : scan :=
  let rel_path := fst (fst e) in
  fold_left
    (process_file a w rel_path
       (path_explicitly_included a (module_paths st) rel_path)
       (in_venv w rel_path))
    (snd e) st.

(** Module auto-detection for one project. *)
Definition detect_modules (a : args) (st : scan)
           (project_dir : path) (t : fs_tree) : scan :=
  if auto_include_modules a then
    fold_left
      (fun st rel_path =>
         mkScan (add_module (sc_stats st))
                (module_paths st ++ [PurePath.to_str rel_path])
                (zipf st))
      (find_all_modules project_dir t) st
  else st.

(** The body of [for project_name, project_dir in
    project_dirs.items()]. *)
Definition process_project (a : args) (w : world) (st : scan)
           (p : string * fs_tree) : scan :=
  let st1 := detect_modules a st [fst p] (snd p) in
  fold_left (process_dir a w)
            (walk (keep_dir a (module_paths st1)) [fst p] (snd p))
            st1.

(** What a call of [backup] leaves behind: its return value, the
    statistics of the summary (when the summary is reached) and the
    container on disk (when one was created). *)
Record outcome : Type := mkOutcome {
  ret : bool;
  summary : option stats;
  container : option (list zip_entry)
}.

Definition backup (a : args) (w : world) : outcome :=
  if negb (pycharm_dir_exists w) then mkOutcome false None None
  else if negb (dry_run a) && negb (zip_open_ok w)
  then mkOutcome false None None
  else
    let st0 := mkScan stats0 []
                 (if negb (dry_run a) then Some [] else None) in
    let st := fold_left (process_project a w) (get_project_dirs w a) st0 in
    mkOutcome true (Some (sc_stats st)) (zipf st).

End ProjectBackup.

(* ================================================================== *)
(** ** Logging *)

Inductive level : Type := DEBUG | INFO | WARNING | ERROR.

(** A log line: its severity and the text with the names it mentions
  (exception texts and counts are left out). *)
Definition log_entry : Type := level * string.

(* ================================================================== *)
(** ** pycharm_project_backup.py: restore *)

Module ProjectRestore.

(** What [restore] finds: whether the backup file exists, the
    result of [namelist()] ([None] when the container cannot be
    opened) and, per entry, whether [zipf.extract] succeeds. *)
Record world : Type := mkWorld {
  backup_file_exists : bool;
  namelist : option (list string);
  extract_ok : string -> bool
}.

Record outcome : Type := mkOutcome {
  ret : bool;
  extracted : list string;
  log : list log_entry
}.

(** [parts[0]] of an entry name with at least one part. *)
Definition first_part (file_path : string) : option string :=
  match PurePath.parts file_path with
  | [] => None
  | x :: _ => Some x
  end.

(** The set of first parts of the entries. *)
Fixpoint projects_of (all_files : list string) : list string :=
  match all_files with
  | [] => []
  | file_path :: rest =>
      let ps := projects_of rest in
      match first_part file_path with
      | Some x => if PyStr.mem x ps then ps else x :: ps
      | None => ps
      end
  end.

Definition in_projects (projects : list string) (file_path : string) : bool :=
  match first_part file_path with
  | Some x => PyStr.mem x projects
  | None => false
  end.

(** The extraction loop: a failure is logged and the loop goes on. *)
Fixpoint extract_loop (w : world) (projects : list string)
         (project_files : list string) (done : list string)
         (lg : list log_entry) : list string * list log_entry :=
  match project_files with
  | [] => (done, lg)
  | file_path :: rest =>
      if negb (in_projects projects file_path)
      then extract_loop w projects rest done lg
      else if extract_ok w file_path
      then extract_loop w projects rest (done ++ [file_path])
             (lg ++ [(DEBUG, String.append "Restored: " file_path)])
      else extract_loop w projects rest done
             (lg ++ [(ERROR, String.append "Error extracting " file_path)])
  end.

Definition restore (w : world) (selected_projects : list string) : outcome :=
  if negb (backup_file_exists w)
  then mkOutcome false [] [(ERROR, "Backup file not found.")]
  else
    match namelist w with
    | None => mkOutcome false [] [(ERROR, "Error restoring backup")]
    | Some all_files =>
        let found := projects_of all_files in
        let selecting :=
          match selected_projects with [] => false | _ => true end in
        let projects :=
          if selecting
          then filter (fun p => PyStr.mem p selected_projects) found
          else found in
        if selecting && match projects with [] => true | _ => false end
        then mkOutcome false []
               [(ERROR,
                 "None of the selected projects were found in the backup.")]
        else
          let project_files := filter (in_projects projects) all_files in
          let r := extract_loop w projects project_files [] [] in
          mkOutcome true (fst r) (snd r)
    end.

End ProjectRestore.

(* ================================================================== *)
(** ** os.path on POSIX strings *)

Module OsPath.

(** [os.path.basename(p)]: what follows the last slash. *)
Definition basename (p : string) : string :=
  match PyStr.rfind "/"%char p with
  | Some i => PyStr.drop (S i) p
  | None => p
  end.

Definition ends_with_slash (p : string) : bool :=
  match PyStr.rfind "/"%char p with
  | Some i => Nat.eqb (S i) (String.length p)
  | None => false
  end.

(** [os.path.join(a, b)] *)
Definition join (a b : string) : string :=
  if PyStr.startswith b "/" then b
  else if String.eqb a "" || ends_with_slash a then String.append a b
  else String.append a (String.append "/" b).

End OsPath.

(* ================================================================== *)
(** ** Effects of the restore functions

  A computation returns a value or lets an exception escape
  ([None]), and leaves the files it has written, as
  [(entry name, target path)], and its log lines. *)

Module Eff.

Record eff (A : Type) : Type := mkEff {
  value : option A;
  writes : list (string * string);
  elog : list log_entry
}.
Arguments mkEff {A}.
Arguments value {A}.
Arguments writes {A}.
Arguments elog {A}.

Definition pure {A} (a : A) : eff A := mkEff (Some a) [] [].
Definition raise {A} : eff A := mkEff None [] [].
Definition tell (l : level) (msg : string) : eff unit :=
  mkEff (Some tt) [] [(l, msg)].
Definition wrote (zip_path target_path : string) : eff unit :=
  mkEff (Some tt) [(zip_path, target_path)] [].

Definition bind {A B} (m : eff A) (f : A -> eff B) : eff B :=
  match value m with
  | None => mkEff None (writes m) (elog m)
  | Some a =>
      let r := f a in
      mkEff (value r) (writes m ++ writes r) (elog m ++ elog r)
  end.

End Eff.

Declare Scope eff_scope.
Delimit Scope eff_scope with eff.
Notation "x <- m ;; k" := (Eff.bind m (fun x => k))
(at level 61, m at next level, right associativity) : eff_scope.
Notation "m ;;; k" := (Eff.bind m (fun _ => k))
(at level 61, right associativity) : eff_scope.

(* ================================================================== *)
(** ** pycharm_config_backup.py *)

Module ConfigBackup.
Import Eff.
Local Open Scope eff_scope.

Definition recent_prefix : string := "_pycharm_recent_projects/".
Definition global_prefix : string := "_pycharm_global_settings/".

(** *** Creating and verifying a backup *)

(** [verify_backup]: [backup_files] is what reopening the container
    and [namelist()] give, [None] when that raises. *)
Definition verify_backup (backup_files : option (list string))
           (original_files : list string) : bool * list log_entry :=
  match backup_files with
  | None => (false, [(INFO, "Verifying backup integrity...");
                     (ERROR, "Backup verification failed")])
  | Some names =>
      if (List.length names <? List.length original_files)%nat
      then (false, [(INFO, "Verifying backup integrity...");
                    (WARNING, "Backup contains fewer files than expected")])
      else (true, [(INFO, "Verifying backup integrity...");
                   (INFO, "Backup verification passed")])
  end.

(** What [create_backup] finds: the results of the scanning helpers
    (the [.idea] files, the recent-projects and global-settings
    files with their archive names), [os.path.relpath] from the
    parent of the projects directory, and the outcome of each I/O
    call: whether the container opens, whether [zipf.write] of a
    source file succeeds, and what reopening the finished container
    gives. *)
Record world : Type := mkWorld {
  projects_dir_is_dir : bool;
  output_dir_ready : bool;
  idea_files : list string;
  recent_found : list (string * string);
  global_found : list (string * string);
  arcname_of : string -> string;
  zip_open_ok : bool;
  write_ok : string -> bool;
  reopen : list string -> option (list string)
}.

(** The return value, the entry names of the container left at
    [output_file] ([None]: no file) and the log: of the log, the
    lines of the guards, of the dry run, of the handlers and of the
    verification are kept, the progress lines are left out. *)
Record outcome : Type := mkOutcome {
  ret : bool;
  disk : option (list string);
  log : list log_entry
}.

(** The three write loops, as one: the first write that raises
    ends them, and the entries written so far stay. *)
Fixpoint write_all (w : world) (todo : list (string * string))
         (written : list string) : bool * list string :=
  match todo with
  | [] => (true, written)
  | (file, arcname) :: rest =>
      if write_ok w file then write_all w rest (written ++ [arcname])
      else (false, written)
  end.

Definition create_backup (w : world)
           (backup_recent_projects backup_global_settings dry_run : bool)
  : outcome :=
  if negb (projects_dir_is_dir w)
  then mkOutcome false None [(ERROR, "Directory not found")]
  else if negb (output_dir_ready w)
  then mkOutcome false None [(ERROR, "Failed to create output directory")]
  else
    let recent_files :=
      if backup_recent_projects then recent_found w else [] in
    let global_settings_files :=
      if backup_global_settings then global_found w else [] in
    let all_files_count :=
      (List.length (idea_files w) + List.length recent_files
       + List.length global_settings_files)%nat in
    if Nat.eqb all_files_count 0
    then mkOutcome false None
           [(WARNING, "No PyCharm configuration files found to back up")]
    else if dry_run
    then mkOutcome true None
           [(INFO, "DRY RUN: Would back up configuration files")]
    else if negb (zip_open_ok w)
    then mkOutcome false None [(ERROR, "Failed to create backup")]
    else
      let todo :=
        map (fun file => (file, arcname_of w file)) (idea_files w)
        ++ recent_files ++ global_settings_files in
      let r := write_all w todo [] in
      if negb (fst r)
      then mkOutcome false (Some (snd r)) [(ERROR, "Failed to create backup")]
      else
        let original_files :=
          idea_files w ++ map fst recent_files
          ++ map fst global_settings_files in
        let v := verify_backup (reopen w (snd r)) original_files in
        let lg := snd v ++ [(INFO, "Backup created")] in
        if negb (fst v)
        then mkOutcome false (Some (snd r))
               (lg ++ [(WARNING,
                        "Backup verification failed. The backup may be incomplete or corrupted.")])
        else mkOutcome true (Some (snd r)) lg.

(** *** Backup file names *)

(** The regular expressions of the script: a sequence of literal
    texts and of [\d{n}]. *)
Inductive re_item : Type :=
| Lit (s : string)
| Digits (n : nat).

Fixpoint eat_digits (n : nat) (s : string) : option string :=
  match n with
  | O => Some s
  | S n' =>
      match s with
      | String c s' => if PyStr.is_digit c then eat_digits n' s' else None
      | EmptyString => None
      end
  end.

Definition eat_lit (l s : string) : option string :=
  if String.prefix l s then Some (PyStr.drop (String.length l) s) else None.

(** [pattern.match(s)]: the pattern matches at the start of [s];
    what follows the match is free. *)
Fixpoint re_match (pattern : list re_item) (s : string) : bool :=
  match pattern with
  | [] => true
  | Lit l :: rest =>
      match eat_lit l s with
      | Some s' => re_match rest s'
      | None => false
      end
  | Digits n :: rest =>
      match eat_digits n s with
      | Some s' => re_match rest s'
      | None => false
      end
  end.

(** [pycharm_idea_backup_\d{2}_\d{2}_\d{4}\.zip] *)
Definition clean_pattern : list re_item :=
  [Lit "pycharm_idea_backup_"; Digits 2; Lit "_"; Digits 2; Lit "_";
   Digits 4; Lit ".zip"].

(** [pycharm_idea_backup_\d{4}-\d{2}-\d{2}_\d{2}-\d{2}\.zip] *)
Definition list_pattern : list re_item :=
  [Lit "pycharm_idea_backup_"; Digits 4; Lit "-"; Digits 2; Lit "-";
   Digits 2; Lit "_"; Digits 2; Lit "-"; Digits 2; Lit ".zip"].

Definition digit_char (d : nat) : ascii := ascii_of_nat (48 + d mod 10).

(** A number in [width] decimal digits, zero-padded (its last
    [width] digits). *)
Fixpoint zero_pad (width n : nat) : string :=
  match width with
  | O => EmptyString
  | S w' => String.append (zero_pad w' (n / 10)) (String (digit_char n) EmptyString)
  end.

(** The moment [datetime.now()] returns. *)
Record datetime : Type := mkDatetime {
  year : nat; month : nat; day : nat; hour : nat; minute : nat
}.

(** [now.strftime("%Y-%m-%d_%H-%M")], for a four-digit year. *)
Definition strftime (t : datetime) : string :=
  String.append (zero_pad 4 (year t))
    (String.append "-" (String.append (zero_pad 2 (month t))
      (String.append "-" (String.append (zero_pad 2 (day t))
        (String.append "_" (String.append (zero_pad 2 (hour t))
          (String.append "-" (zero_pad 2 (minute t))))))))).

(** The file name [create_backup] gives a backup when no
    [output_file] is passed. *)
Definition default_backup_name (t : datetime) : string :=
  String.append "pycharm_idea_backup_" (String.append (strftime t) ".zip").

(** A directory entry of the current directory: name and
    modification time. *)
Definition dirent : Type := string * Z.

(** [backups.sort(key=getmtime, reverse=True)]: newest first, and
    stable. *)
Fixpoint insert_by_mtime (x : dirent) (l : list dirent) : list dirent :=
  match l with
  | [] => [x]
  | y :: l' =>
      if (snd y >? snd x)%Z then y :: insert_by_mtime x l'
      else x :: y :: l'
  end.

Definition sort_newest_first (l : list dirent) : list dirent :=
  fold_right insert_by_mtime [] l.

(** [clean_old_backups]: the names of the files it removes and its
    log; [remove_ok] tells whether [os.remove] succeeds. *)
Definition clean_old_backups (max_backups : Z) (listdir : list dirent)
           (remove_ok : string -> bool) : list string * list log_entry :=
  if (max_backups <=? 0)%Z then ([], [])
  else
    let backups :=
      filter (fun f => re_match clean_pattern (fst f)) listdir in
    if (Z.of_nat (List.length backups) <=? max_backups)%Z then ([], [])
    else
      let old := skipn (Z.to_nat max_backups) (sort_newest_first backups) in
      fold_left
        (fun acc old_backup =>
           let lg := snd acc ++
             [(INFO, String.append "Removing old backup: " (fst old_backup))] in
           if remove_ok (fst old_backup)
           then (fst acc ++ [fst old_backup], lg)
           else (fst acc,
                 lg ++ [(ERROR, String.append "Failed to remove old backup "
                                  (fst old_backup))]))
        old ([], []).

(** [list_backups]: the names it returns. *)
Definition list_backups (listdir : list dirent) : list string :=
  map fst (sort_newest_first
             (filter (fun f => re_match list_pattern (fst f)) listdir)).

End ConfigBackup.

(* ================================================================== *)
(** ** pycharm_config_backup.py: listing and restoring *)

Module ConfigRestore.
Import Eff.
Local Open Scope eff_scope.

Definition recent_prefix : string := ConfigBackup.recent_prefix.
Definition global_prefix : string := ConfigBackup.global_prefix.

(** What the restore functions find: [os.path.exists], the entry
    names of the backup file ([None] when it cannot be opened), the
    result of [get_pycharm_config_dirs()], [os.path.relpath], and
    whether copying an entry to a target succeeds. *)
Record world : Type := mkWorld {
  path_exists : string -> bool;
  archive : option (list string);
  config_dirs : list string;
  relpath : string -> string -> string;
  extract_ok : string -> string -> bool
}.

(** [projects.add(x)] on a set kept as a duplicate-free list. *)
Definition set_add (x : string) (l : list string) : list string :=
  if PyStr.mem x l then l else l ++ [x].

Fixpoint insert_sorted (x : string) (l : list string) : list string :=
  match l with
  | [] => [x]
  | y :: l' => if String.leb x y then x :: l else y :: insert_sorted x l'
  end.

(** [sorted(l)] on strings. *)
Definition sorted (l : list string) : list string :=
  fold_right insert_sorted [] l.

(** The project name an entry contributes to the listing, if any. *)
Definition project_of_entry (filename : string) : option string :=
  if PyStr.startswith filename recent_prefix then None
  else if PyStr.startswith filename global_prefix then None
  else
    match PyStr.split "/"%char filename with
    | _ :: name :: _ => Some name
    | _ => None
    end.

Definition collect_projects (names : list string) : list string :=
  fold_left
    (fun projects filename =>
       match project_of_entry filename with
       | Some name => set_add name projects
       | None => projects
       end)
    names [].

Definition has_prefix (prefix : string) (names : list string) : bool :=
  existsb (fun n => PyStr.startswith n prefix) names.

Definition list_projects_in_backup (w : world) (backup_file : string)
  : eff (list string) :=
  if negb (path_exists w backup_file)
  then tell ERROR "Backup file not found" ;;; pure []
  else
    match archive w with
    | None => tell ERROR "Failed to list projects in backup" ;;; pure []
    | Some names =>
        (if has_prefix recent_prefix names
         then tell INFO "Backup includes PyCharm recent projects list files"
         else pure tt) ;;;
        (if has_prefix global_prefix names
         then tell INFO "Backup includes PyCharm global settings files"
         else pure tt) ;;;
        pure (sorted (collect_projects names))
    end.

(** Copying the entries to their targets; no handler surrounds the
    loop of [restore_project], so a failure escapes. *)
Fixpoint extract_all (w : world) (files : list (string * string))
  : eff unit :=
  match files with
  | [] => pure tt
  | (zip_path, target_path) :: rest =>
      if extract_ok w zip_path target_path
      then wrote zip_path target_path ;;;
           tell DEBUG (String.append "Restored: " target_path) ;;;
           extract_all w rest
      else raise
  end.

(** [restore_project] (the [show_diff] display is left out). *)
Definition restore_project (w : world) (projects_dir project_name : string)
           (dry_run : bool) : eff bool :=
  let project_path := OsPath.join projects_dir project_name in
  if negb (path_exists w project_path)
  then tell ERROR (String.append "Project directory not found: " project_path)
       ;;; pure false
  else
    let idea_dir := OsPath.join project_path ".idea" in
    if negb (path_exists w idea_dir)
    then tell ERROR (String.append project_path
                       " does not appear to be a PyCharm project")
         ;;; pure false
    else
      let project_path_in_zip :=
        String.append (OsPath.basename projects_dir)
                      (String.append "/" project_name) in
      match archive w with
      | None => raise
      | Some names =>
          let files_to_restore :=
            map (fun filename =>
                   (filename,
                    OsPath.join idea_dir
                      (relpath w filename project_path_in_zip)))
                (filter (fun filename =>
                           PyStr.startswith filename project_path_in_zip)
                        names) in
          match files_to_restore with
          | [] =>
              tell WARNING (String.append "No configuration files found for "
                              project_name) ;;; pure false
          | _ =>
              tell INFO (String.append "Found configuration files to restore for "
                           project_name) ;;;
              (if negb dry_run
               then extract_all w files_to_restore ;;;
                    tell INFO (String.append
                                 "Successfully restored configuration files for "
                                 project_name)
               else tell INFO (String.append
                                 "DRY RUN: Would restore configuration files for "
                                 project_name)) ;;;
              pure true
          end
      end.

(** The inner loop of [restore_recent_projects] over the
    configuration directories: the number of files counted; the
    [else] branch of the loop warns when no [break] was reached. *)
Fixpoint recent_to_dirs (w : world) (dry_run : bool)
         (file_path file_name : string) (dirs : list string) : eff nat :=
  match dirs with
  | [] =>
      tell WARNING (String.append
                      "Could not find a suitable location to restore "
                      file_name) ;;; pure 0%nat
  | config_dir :: rest =>
      let options_dir := OsPath.join config_dir "options" in
      let target_path := OsPath.join options_dir file_name in
      if dry_run
      then tell INFO (String.append "DRY RUN: Would restore " file_name) ;;;
           n <- recent_to_dirs w dry_run file_path file_name rest ;;
           pure (S n)
      else if path_exists w options_dir
      then if extract_ok w file_path target_path
           then wrote file_path target_path ;;;
                tell INFO (String.append "Restored " file_name) ;;;
                pure 1%nat
           else raise
      else recent_to_dirs w dry_run file_path file_name rest
  end.

Fixpoint recent_loop (w : world) (dry_run : bool) (files : list string)
  : eff nat :=
  match files with
  | [] => pure 0%nat
  | file_path :: rest =>
      n <- recent_to_dirs w dry_run file_path (OsPath.basename file_path)
             (config_dirs w) ;;
      m <- recent_loop w dry_run rest ;;
      pure (n + m)%nat
  end.

Definition restore_recent_projects (w : world) (backup_file : string)
           (dry_run : bool) : eff bool :=
  if negb (path_exists w backup_file)
  then tell ERROR "Backup file not found" ;;; pure false
  else
    match archive w with
    | None => raise
    | Some names =>
        let recent_files_in_backup :=
          filter (fun n => PyStr.startswith n recent_prefix) names in
        match recent_files_in_backup with
        | [] => tell WARNING "No recent projects list files found in backup"
                ;;; pure false
        | _ =>
            tell INFO "Found recent projects list files in backup" ;;;
            match config_dirs w with
            | [] =>
                tell ERROR
                  "No PyCharm configuration directories found on this system"
                ;;; pure false
            | _ =>
                files_restored <- recent_loop w dry_run recent_files_in_backup ;;
                if (0 <? files_restored)%nat
                then tell INFO "Successfully restored recent projects list files"
                     ;;; pure true
                else tell WARNING "No recent projects list files were restored"
                     ;;; pure false
            end
        end
    end.

(** [parts[1]] of the global-settings entries with at least three
    parts. *)
Definition versions_of (files : list string) : list string :=
  fold_left
    (fun vs filename =>
       match PyStr.split "/"%char filename with
       | _ :: v :: _ :: _ => set_add v vs
       | _ => vs
       end)
    files [].

Fixpoint global_files_loop (w : world) (dry_run : bool) (config_dir : string)
         (files : list string) : eff nat :=
  match files with
  | [] => pure 0%nat
  | file_path :: rest =>
      let rel_path :=
        PyStr.join "/" (skipn 2 (PyStr.split "/"%char file_path)) in
      let target_path := OsPath.join config_dir rel_path in
      n <- (if dry_run
            then tell INFO (String.append "DRY RUN: Would restore " rel_path)
                 ;;; pure 1%nat
            else if extract_ok w file_path target_path
            then wrote file_path target_path ;;;
                 tell INFO (String.append "Restored " rel_path) ;;;
                 pure 1%nat
            else tell ERROR (String.append "Failed to restore " rel_path)
                 ;;; pure 0%nat) ;;
      m <- global_files_loop w dry_run config_dir rest ;;
      pure (n + m)%nat
  end.

(** The loop over the versions found in the backup (a set in the
    source; taken here in the order of first occurrence). *)
Fixpoint global_versions_loop (w : world) (dry_run : bool)
         (global_files : list string) (versions : list string) : eff nat :=
  match versions with
  | [] => pure 0%nat
  | version :: rest =>
      n <- match filter (fun d => String.eqb (OsPath.basename d) version)
                        (config_dirs w) with
           | [] =>
               tell WARNING (String.append
                 "No matching PyCharm installation found for version " version)
               ;;; pure 0%nat
           | config_dir :: _ =>
               tell INFO (String.append "Restoring global settings to "
                            config_dir) ;;;
               global_files_loop w dry_run config_dir
                 (filter (fun f =>
                            PyStr.startswith f
                              (String.append global_prefix
                                 (String.append version "/")))
                         global_files)
           end ;;
      m <- global_versions_loop w dry_run global_files rest ;;
      pure (n + m)%nat
  end.

Definition restore_global_settings (w : world) (backup_file : string)
           (dry_run : bool) : eff bool :=
  if negb (path_exists w backup_file)
  then tell ERROR "Backup file not found" ;;; pure false
  else
    match archive w with
    | None => raise
    | Some names =>
        let global_settings_in_backup :=
          filter (fun n => PyStr.startswith n global_prefix) names in
        match global_settings_in_backup with
        | [] => tell WARNING "No global settings files found in backup"
                ;;; pure false
        | _ =>
            tell INFO "Found global settings files in backup" ;;;
            match config_dirs w with
            | [] =>
                tell ERROR
                  "No PyCharm configuration directories found on this system"
                ;;; pure false
            | _ =>
                files_restored <-
                  global_versions_loop w dry_run global_settings_in_backup
                    (versions_of global_settings_in_backup) ;;
                if (0 <? files_restored)%nat
                then tell INFO "Successfully restored global settings files"
                     ;;; pure true
                else tell WARNING "No global settings files were restored"
                     ;;; pure false
            end
        end
    end.

(** The [projects] argument: one name or a list of names. *)
Inductive selection : Type :=
| Name (project : string)
| Names (projects : list string).

Fixpoint projects_loop (w : world) (projects_dir : string) (dry_run : bool)
         (projects : list string) : eff nat :=
  match projects with
  | [] => pure 0%nat
  | project_name :: rest =>
      ok <- restore_project w projects_dir project_name dry_run ;;
      m <- projects_loop w projects_dir dry_run rest ;;
      pure ((if ok then 1 else 0) + m)%nat
  end.

(** [restore_projects], for a given [backup_file]. *)
Definition restore_projects (w : world) (projects_dir : string)
           (projects : selection) (backup_file : string)
           (restore_recent_projects_files restore_global_settings_files
            dry_run : bool) : eff bool :=
  let projects :=
    match projects with
    | Name p => if String.eqb (PyStr.lower p) "all" then [] else [p]
    | Names l => l
    end in
  if negb (path_exists w backup_file)
  then tell ERROR "Backup file not found" ;;; pure false
  else
    projects <-
      match projects with
      | [] => ps <- list_projects_in_backup w backup_file ;;
              tell INFO "Found projects in backup" ;;; pure ps
      | _ => pure projects
      end ;;
    projects_restored <- projects_loop w projects_dir dry_run projects ;;
    (if restore_recent_projects_files
     then restore_recent_projects w backup_file dry_run ;;; pure tt
     else pure tt) ;;;
    (if restore_global_settings_files
     then restore_global_settings w backup_file dry_run ;;; pure tt
     else pure tt) ;;;
    tell INFO "Restored projects" ;;;
    pure (0 <? projects_restored)%nat.

End ConfigRestore.

(* ================================================================== *)
(** ** Notions used in the statements *)

Module Notions.
Import Os FilePatternMatcher ProjectBackup.

(** Whether a file that passed the exclusion patterns and the size
    check is selected: always under an included prefix, by the
    marker patterns in an environment directory when these are
    included, by the allowlists otherwise. *)
Definition selected (a : args) (w : world) (rel_path : path)
           (explicit venv : bool) (file : string) : bool :=
  if explicit then true
  else if venv && include_venv a
  then existsb
         (fun venv_file =>
            PurePath.path_match
              (PurePath.joinpath (pycharm_dir w ++ rel_path) file)
              (String.append "*"
                 (String.append (PurePath.to_str venv_file) "*")))
         venv_important_files
  else is_important_file (PurePath.parts file) (include_venv a).




(** [p] holds of every file of the tree. *)
Fixpoint all_files (p : file_entry -> bool) (t : fs_tree) : bool :=
  match t with
  | Dir files subdirs =>
      forallb p files &&
      (fix below (l : list (string * fs_tree)) : bool :=
         match l with
         | [] => true
         | (_, sub) :: l' => all_files p sub && below l'
         end) subdirs
  end.



(** [l] is [l'] with some elements left out. *)
Inductive subseq {A : Type} : list A -> list A -> Prop :=
| subseq_nil : subseq [] []
| subseq_skip x l l' : subseq l l' -> subseq l (x :: l')
| subseq_take x l l' : subseq l l' -> subseq (x :: l) (x :: l').

(** The archive names the files of one visited directory would
    get. *)
Definition zip_paths (e : path * list string * list file_entry)
  : list path :=
  map (fun f => PurePath.joinpath (fst (fst e)) (f_name f)) (snd e).

Definition scanned (l : list (path * list string * list file_entry))
  : list path :=
  flat_map zip_paths l.

Definition keep_all : path -> string -> bool := fun _ _ => true.

(** The archive names of all the files below the projects
    processed, pruned or not. *)
Definition full_scan (w : world) (a : args) : list path :=
  flat_map (fun p => scanned (walk keep_all [fst p] (snd p)))
           (get_project_dirs w a).

Fixpoint nodupb (l : list string) : bool :=
  match l with
  | [] => true
  | x :: l' => negb (PyStr.mem x l') && nodupb l'
  end.

Fixpoint has_slash (s : string) : bool :=
  match s with
  | EmptyString => false
  | String c s' => Ascii.eqb c "/"%char || has_slash s'
  end.

(** What a directory entry can be called: not empty, not [.] or
    [..], no slash. *)
Definition plain_name (n : string) : bool :=
  negb (String.eqb n "") && negb (String.eqb n ".")
  && negb (String.eqb n "..") && negb (has_slash n).

(** A directory lists each file and each sub-directory once, under
    a plain name. *)
Fixpoint wf_tree (t : fs_tree) : bool :=
  match t with
  | Dir files subdirs =>
      nodupb (map f_name files) && nodupb (map fst subdirs) &&
      forallb plain_name (map f_name files) &&
      forallb plain_name (map fst subdirs) &&
      (fix below (l : list (string * fs_tree)) : bool :=
         match l with
         | [] => true
         | (_, sub) :: l' => wf_tree sub && below l'
         end) subdirs
  end.

Definition wf_world (w : world) : bool :=
  nodupb (map fst (projects w)) &&
  forallb plain_name (map fst (projects w)) &&
  forallb (fun p => wf_tree (snd p)) (projects w).

(** The name an entry has in the container. *)
Definition arcname (e : zip_entry) : string := PurePath.to_str (snd e).

(** Whether [restore] is asked for an entry: its first part is a
    selected project, or nothing is selected. *)
Definition matched (selected_projects : list string) (file_path : string)
  : bool :=
  match ProjectRestore.first_part file_path with
  | Some x =>
      match selected_projects with
      | [] => true
      | _ => PyStr.mem x selected_projects
      end
  | None => false
  end.

(** The projects [restore] settles on. *)
Definition chosen (selected_projects all_files : list string) : list string :=
  if match selected_projects with [] => false | _ => true end
  then filter (fun p => PyStr.mem p selected_projects)
              (ProjectRestore.projects_of all_files)
  else ProjectRestore.projects_of all_files.

(** The log line [restore] writes for an entry. *)
Definition restore_line (w : ProjectRestore.world) (file_path : string)
  : log_entry :=
  if ProjectRestore.extract_ok w file_path
  then (DEBUG, String.append "Restored: " file_path)
  else (ERROR, String.append "Error extracting " file_path).

(** What [create_backup] sets out to write: source file and
    archive name, in writing order. *)
Definition backup_plan (w : ConfigBackup.world)
           (backup_recent_projects backup_global_settings : bool)
  : list (string * string) :=
  map (fun file => (file, ConfigBackup.arcname_of w file))
      (ConfigBackup.idea_files w)
  ++ (if backup_recent_projects then ConfigBackup.recent_found w else [])
  ++ (if backup_global_settings then ConfigBackup.global_found w else []).

Fixpoint all_digits (s : string) : bool :=
  match s with
  | EmptyString => true
  | String c s' => PyStr.is_digit c && all_digits s'
  end.

(** Every file a computation writes satisfies [P]. *)
Definition writes_ok {A} (P : string * string -> Prop) (m : Eff.eff A)
  : Prop :=
  forall x, In x (Eff.writes m) -> P x.

(** The entry lies under a reserved first segment. *)
Definition is_recent (zip_path : string) : bool :=
  PyStr.startswith zip_path ConfigRestore.recent_prefix.

Definition is_global (zip_path : string) : bool :=
  PyStr.startswith zip_path ConfigRestore.global_prefix.

End Notions.

(* ================================================================== *)
(** ** Sample inputs *)

Module Samples.
Import Os ProjectBackup.

Definition home_projects : path := ["/"; "home"; "dev"; "PycharmProjects"].

(** [backup] with its default arguments, except the flags given. *)
Definition default_args (include_venv dry_run : bool) : args :=
  mkArgs include_venv [] (20 * 1024 * 1024) [] [] [] dry_run true.

Definition one_project (t : fs_tree) : world :=
  mkWorld home_projects true [("proj", t)] true.

(** proj/<env>/site.py, 10 bytes. *)
Definition env_tree (env : string) : fs_tree :=
  Dir [] [(env, Dir [mkFile "site.py" (Some 10%Z) true] [])].




(** What [create_backup] finds when two [.idea] files are to be
    saved; [readable] tells which sources can be written and
    [reopen] what reading the container back gives. *)
Definition two_idea_files (readable : string -> bool)
           (reopen : list string -> option (list string))
  : ConfigBackup.world :=
  ConfigBackup.mkWorld true true
    ["/p/app/.idea/misc.xml"; "/p/app/.idea/vcs.xml"] [] []
    (fun f => PyStr.drop 1 f) true readable reopen.

(** A backup of the projects directory /home/dev/PycharmProjects
    with one project, recent-projects lists and global settings,
    restored on a machine that has the project and the
    configuration directory. *)
Definition full_archive : list string :=
  ["PycharmProjects/app/.idea/misc.xml";
   "PycharmProjects/app/.idea/vcs.xml";
   "_pycharm_recent_projects/PyCharm2024.1/recentProjects.xml";
   "_pycharm_global_settings/PyCharm2024.1/options/editor.xml"].

Definition restore_world (names : list string) : ConfigRestore.world :=
  ConfigRestore.mkWorld (fun _ => true) (Some names)
    ["/home/dev/.config/JetBrains/PyCharm2024.1"]
    (fun filename start =>
       PyStr.drop (S (String.length start)) filename)
    (fun _ _ => true).

End Samples.

(* ================================================================== *)
(** ** Further functions and notions *)

Module More.
Import Os ProjectBackup Notions.


(** An archive of two projects whose names begin alike, restored
    where both exist; [os.path.relpath] as it answers for these
    names. *)
Definition alike_archive : list string :=
  ["PycharmProjects/app/.idea/misc.xml";
   "PycharmProjects/app2/.idea/misc.xml";
   "PycharmProjects/web/.idea/misc.xml"].

Definition alike_world : ConfigRestore.world :=
  ConfigRestore.mkWorld (fun _ => true) (Some alike_archive) []
    (fun filename start =>
       if String.eqb filename "PycharmProjects/app2/.idea/misc.xml"
          && String.eqb start "PycharmProjects/app"
       then "../app2/.idea/misc.xml"
       else PyStr.drop (S (String.length start)) filename)
    (fun _ _ => true).

(** An archive with the recent-projects lists of two versions,
    restored on a machine that has two configuration directories,
    the first without an options directory. *)
Definition recent_archive : list string :=
  ["_pycharm_recent_projects/PyCharm2023.3/recentProjects.xml";
   "_pycharm_recent_projects/PyCharm2024.1/recentProjects.xml"].

Definition recent_world : ConfigRestore.world :=
  ConfigRestore.mkWorld
    (fun p => negb (String.eqb p "/cfg/PyCharm2023.3/options"))
    (Some recent_archive)
    ["/cfg/PyCharm2023.3"; "/cfg/PyCharm2024.1"]
    (fun filename start => PyStr.drop (S (String.length start)) filename)
    (fun _ _ => true).


(** [f] is a file of one of the projects processed and [zip_path]
    its path below the projects directory. *)
Definition on_disk (w : world) (a : args) (zip_path : path)
           (f : file_entry) : Prop :=
  exists p e,
    In p (get_project_dirs w a)
    /\ In e (walk keep_all [fst p] (snd p))
    /\ In f (snd e)
    /\ zip_path = PurePath.joinpath (fst (fst e)) (f_name f).


(** A pattern text with no character [fnmatch] reads as a wildcard. *)
Fixpoint no_wildcard (s : string) : bool :=
  match s with
  | EmptyString => true
  | String c s' =>
      negb (Ascii.eqb c "*"%char) && negb (Ascii.eqb c "?"%char)
      && negb (Ascii.eqb c "["%char) && no_wildcard s'
  end.

(** [x] is listed before [y] when sorted newest first. *)
Definition newer_first (x y : ConfigBackup.dirent) : Prop :=
  (snd y <= snd x)%Z.

(** [d[k] = v] on a dictionary kept as the list of its items: a key
    that is there keeps its place, a new one goes last. *)
Definition dict_set {V : Type} (d : list (string * V)) (k : string) (v : V)
  : list (string * V) :=
  if PyStr.mem k (map fst d)
  then map (fun kv => if String.eqb (fst kv) k then (k, v) else kv) d
  else d ++ [(k, v)].

(** [get_recent_projects_files], over the configuration directories
    found and [os.path.exists]. *)
Definition get_recent_projects_files (config_dirs : list string)
           (path_exists : string -> bool) : list (string * list string) :=
  fold_left
    (fun recent_files config_dir =>
       let pycharm_version := OsPath.basename config_dir in
       let options_dir := OsPath.join config_dir "options" in
       if negb (path_exists options_dir) then recent_files
       else
         let recent_projects := OsPath.join options_dir "recentProjects.xml" in
         let recent_solutions :=
           OsPath.join options_dir "recentSolutions.xml" in
         let version_files :=
           (if path_exists recent_projects then [recent_projects] else [])
           ++ (if path_exists recent_solutions then [recent_solutions]
               else []) in
         match version_files with
         | [] => recent_files
         | _ => dict_set recent_files pycharm_version version_files
         end)
    config_dirs [].

(** The [recent_files] list of [create_backup]: each file with its
    archive name. *)
Definition recent_files (recent_files_dict : list (string * list string))
  : list (string * string) :=
  flat_map
    (fun item =>
       map (fun file =>
              (file,
               OsPath.join (OsPath.join "_pycharm_recent_projects" (fst item))
                           (OsPath.basename file)))
           (snd item))
    recent_files_dict.

(** [l[i]] on a Python list: a negative index counts from the end,
    [None] for [IndexError]. *)
Definition py_index {A : Type} (l : list A) (i : Z) : option A :=
  let n := Z.of_nat (List.length l) in
  if (0 <=? i)%Z then nth_error l (Z.to_nat i)
  else if (0 <=? n + i)%Z then nth_error l (Z.to_nat (n + i))
  else None.

(** [backups[int(backup_choice) - 1]] under
    [except (ValueError, IndexError)]: [choice] is the result of
    [int], [None] when it raises; [None] stands for "Invalid
    selection". *)
Definition pick_backup (backups : list string) (choice : option Z)
  : option string :=
  match choice with
  | None => None
  | Some n => py_index backups (n - 1)
  end.

(** [should_process_file], over the matcher [fnmatch.fnmatch]; an
    absent pattern list and an empty one are both [[]]. *)
Definition should_process_file (fnmatch : string -> string -> bool)
           (file_path : string) (include_patterns exclude_patterns : list string)
  : bool :=
  let given := fun l : list string =>
                 match l with [] => false | _ => true end in
  if negb (given include_patterns) && negb (given exclude_patterns) then true
  else if given exclude_patterns
          && existsb (fun pattern => fnmatch file_path pattern)
                     exclude_patterns
  then false
  else if given include_patterns
  then existsb (fun pattern => fnmatch file_path pattern) include_patterns
  else true.

End More.

(* ================================================================== *)
(** * Properties *)

(** ** The file policy *)

Section FilePolicy.
Import Os FilePatternMatcher ProjectBackup Notions.

(** C10. [is_important_file] does not look at [include_venv]: for
    every path the result is the same for both values of the flag,
    and it is the membership of the lower-cased suffix in the
    extension allowlist or of the exact name in the filename
    allowlist. *)
Theorem is_important_file_include_venv_irrelevant :
  forall (filepath : path) (include_venv : bool),
    is_important_file filepath include_venv
    = is_important_file filepath (negb include_venv)
    /\ is_important_file filepath include_venv
       = (PyStr.mem (PyStr.lower (PurePath.suffix filepath))
                    important_extensions
          || PyStr.mem (PurePath.name filepath) important_filenames).
Proof.
  intros filepath include_venv. unfold is_important_file.
  split; [reflexivity|].
  destruct (PyStr.mem (PyStr.lower (PurePath.suffix filepath))
                      important_extensions); [reflexivity|].
  destruct (PyStr.mem (PurePath.name filepath) important_filenames);
    reflexivity.
Qed.


Lemma venv_loop_spec a st f file_path zip_path l :
  venv_loop a st f file_path zip_path l
  = if existsb
         (fun venv_file =>
            PurePath.path_match file_path
              (String.append "*"
                 (String.append (PurePath.to_str venv_file) "*"))) l
    then add_file a st f file_path zip_path add_included
    else st.
Proof.
  induction l as [|v l IH]; simpl; [reflexivity|].
  destruct (PurePath.path_match file_path _); simpl; [reflexivity|exact IH].
Qed.

(** A file that is not excluded by pattern and not above the size
    limit is added exactly when it is [selected]. *)
Lemma process_file_within_limit a w rel_path explicit venv st f file_size :
  should_exclude_file
    (PurePath.joinpath (pycharm_dir w ++ rel_path) (f_name f))
    (custom_excludes a) = false ->
  st_size f = Some file_size ->
  (file_size <= max_size_bytes a)%Z ->
  process_file a w rel_path explicit venv st f
  = if selected a w rel_path explicit venv (f_name f)
    then add_file a st f
           (PurePath.joinpath (pycharm_dir w ++ rel_path) (f_name f))
           (PurePath.joinpath rel_path (f_name f))
           (if explicit then add_custom else add_included)
    else st.
Proof.
  intros Hex Hsz Hle. unfold process_file, selected.
  rewrite Hex, Hsz.
  replace (file_size >? max_size_bytes a)%Z with false
    by (rewrite Z.gtb_ltb; symmetry; apply Z.ltb_ge; exact Hle).
  destruct explicit; [reflexivity|].
  destruct (venv && include_venv a).
  - apply venv_loop_spec.
  - destruct (is_important_file _ _); reflexivity.
Qed.

(** A file that is not excluded by pattern and is above the size
    limit is counted as rejected, whatever else holds of it. *)
Lemma process_file_over_limit a w rel_path explicit venv st f file_size :
  should_exclude_file
    (PurePath.joinpath (pycharm_dir w ++ rel_path) (f_name f))
    (custom_excludes a) = false ->
  st_size f = Some file_size ->
  (max_size_bytes a < file_size)%Z ->
  process_file a w rel_path explicit venv st f
  = with_stats st (add_excluded (sc_stats st) file_size).
Proof.
  intros Hex Hsz Hlt. unfold process_file.
  rewrite Hex, Hsz.
  replace (file_size >? max_size_bytes a)%Z with true
    by (rewrite Z.gtb_ltb; symmetry; apply Z.ltb_lt; exact Hlt).
  destruct explicit; reflexivity.
Qed.





(** C3. With environment directories included, a file below a
    directory called [virtualenv] is added when the allowlists
    select it although it matches none of the marker patterns:
    [virtualenv] is in the environment-directory set of
    [is_excluded_dir] and missing from the names [backup] tests.
    Below [venv] the same file is dropped. *)
Theorem venv_marker_filter_misses_virtualenv :
  let a := Samples.default_args true false in
  PyStr.mem "virtualenv" venv_dirs = true
  /\ PyStr.mem "virtualenv" in_venv_names = false
  /\ selected a (Samples.one_project (Samples.env_tree "virtualenv"))
       ["proj"; "virtualenv"] false true "site.py" = false
  /\ backup a (Samples.one_project (Samples.env_tree "virtualenv"))
     = mkOutcome true (Some (mkStats 1 0 0 0 0))
         (Some [(Samples.home_projects ++ ["proj"; "virtualenv"; "site.py"],
                 ["proj"; "virtualenv"; "site.py"])])
  /\ backup a (Samples.one_project (Samples.env_tree "venv"))
     = mkOutcome true (Some (mkStats 0 0 0 0 0)) (Some []).
Proof.
  repeat split; vm_compute; reflexivity.
Qed.

End FilePolicy.

(** ** Dry run against real run *)

Section DryRun.
Import Os FilePatternMatcher ProjectBackup Notions.












End DryRun.

(** ** Archive names *)

Section ArchiveNames.
Import Os FilePatternMatcher ProjectBackup Notions.

Lemma subseq_nil_l {A} (l : list A) : subseq [] l.
Proof. induction l; constructor; assumption. Qed.

Lemma subseq_refl {A} (l : list A) : subseq l l.
Proof. induction l; constructor; assumption. Qed.

Lemma subseq_app {A} (l1 l1' l2 l2' : list A) :
  subseq l1 l1' -> subseq l2 l2' -> subseq (l1 ++ l2) (l1' ++ l2').
Proof.
  intros H1 H2. induction H1; simpl; [exact H2 | |]; constructor; assumption.
Qed.

Lemma subseq_trans {A} (l1 l2 l3 : list A) :
  subseq l1 l2 -> subseq l2 l3 -> subseq l1 l3.
Proof.
  intros H12 H23. revert l1 H12.
  induction H23 as [|x l2 l3 H IH|x l2 l3 H IH]; intros l1 H12.
  - exact H12.
  - constructor. apply IH. exact H12.
  - inversion H12; subst; constructor; apply IH; assumption.
Qed.

Lemma subseq_In {A} (l l' : list A) x : subseq l l' -> In x l -> In x l'.
Proof.
  induction 1 as [|y l l' H IH|y l l' H IH]; simpl; intros Hin.
  - exact Hin.
  - right. apply IH. exact Hin.
  - destruct Hin as [Heq|Hin]; [left; exact Heq | right; apply IH; exact Hin].
Qed.




(** *** What a run writes *)

Lemma add_file_entries a st f file_path zip_path count z :
  zipf st = Some z ->
  exists d,
    zipf (add_file a st f file_path zip_path count) = Some (z ++ d)
    /\ subseq (map snd d) [zip_path].
Proof.
  intros Hz. unfold add_file, zip_write, with_stats.
  destruct (dry_run a); simpl.
  - exists []. rewrite app_nil_r. split; [exact Hz | apply subseq_nil_l].
  - rewrite Hz. destruct (zip_write_ok f); simpl.
    + exists [(file_path, zip_path)]. split; [reflexivity | apply subseq_refl].
    + exists []. rewrite app_nil_r. split; [exact Hz | apply subseq_nil_l].
Qed.

Lemma process_file_entries a w rel_path explicit venv st f z :
  zipf st = Some z ->
  exists d,
    zipf (process_file a w rel_path explicit venv st f) = Some (z ++ d)
    /\ subseq (map snd d) [PurePath.joinpath rel_path (f_name f)].
Proof.
  intros Hz.
  assert (Hsame : exists d, zipf st = Some (z ++ d)
                  /\ subseq (map snd d)
                            [PurePath.joinpath rel_path (f_name f)]).
  { exists []. rewrite app_nil_r. split; [exact Hz | apply subseq_nil_l]. }
  unfold process_file.
  destruct explicit.
  - destruct (should_exclude_file _ _); [exact Hsame|].
    destruct (st_size f) as [n|]; [|exact Hsame].
    destruct (n >? max_size_bytes a)%Z; [exact Hsame|].
    apply add_file_entries; exact Hz.
  - destruct (should_exclude_file _ _); [exact Hsame|].
    destruct (st_size f) as [n|]; [|exact Hsame].
    destruct (n >? max_size_bytes a)%Z; [exact Hsame|].
    destruct (venv && include_venv a).
    + rewrite venv_loop_spec.
      destruct (existsb _ _); [|exact Hsame].
      apply add_file_entries; exact Hz.
    + destruct (is_important_file _ _); [|exact Hsame].
      apply add_file_entries; exact Hz.
Qed.

Lemma fold_left_entries {A} (f : scan -> A -> scan) (c : A -> list path)
      (l : list A) :
  (forall st x z,
      zipf st = Some z ->
      exists d, zipf (f st x) = Some (z ++ d) /\ subseq (map snd d) (c x)) ->
  forall st z,
    zipf st = Some z ->
    exists d,
      zipf (fold_left f l st) = Some (z ++ d)
      /\ subseq (map snd d) (flat_map c l).
Proof.
  intros Hstep. induction l as [|x l IH]; simpl; intros st z Hz.
  - exists []. rewrite app_nil_r. split; [exact Hz | constructor].
  - destruct (Hstep st x z Hz) as (d1 & H1 & S1).
    destruct (IH (f st x) (z ++ d1) H1) as (d2 & H2 & S2).
    exists (d1 ++ d2). rewrite app_assoc. split; [exact H2|].
    rewrite map_app. apply subseq_app; assumption.
Qed.

Lemma flat_map_singleton {A B} (g : A -> B) (l : list A) :
  flat_map (fun x => [g x]) l = map g l.
Proof. induction l as [|x l IH]; simpl; [|rewrite IH]; reflexivity. Qed.

Lemma process_dir_entries a w st e z :
  zipf st = Some z ->
  exists d,
    zipf (process_dir a w st e) = Some (z ++ d)
    /\ subseq (map snd d) (zip_paths e).
Proof.
  intros Hz. unfold process_dir, zip_paths.
  rewrite <- flat_map_singleton.
  apply (fold_left_entries _
           (fun f => [PurePath.joinpath (fst (fst e)) (f_name f)]));
    [|exact Hz].
  intros st' f z' Hz'. apply process_file_entries. exact Hz'.
Qed.

Lemma detect_modules_zipf a st project_dir t :
  zipf (detect_modules a st project_dir t) = zipf st.
Proof.
  unfold detect_modules. destruct (auto_include_modules a); [|reflexivity].
  revert st. induction (find_all_modules project_dir t) as [|m l IH];
    simpl; intros st; [reflexivity|].
  rewrite IH. reflexivity.
Qed.

(** *** The walk of a well-formed tree *)

Lemma fs_tree_nested_ind (P : fs_tree -> Prop) :
  (forall files subdirs,
      Forall (fun ds => P (snd ds)) subdirs -> P (Dir files subdirs)) ->
  forall t, P t.
Proof.
  intros H. fix IH 1. intros [files subdirs]. apply H.
  induction subdirs as [|[d sub] l IHl]; constructor; [apply IH | exact IHl].
Qed.

Lemma walk_unfold keep root files subdirs :
  walk keep root (Dir files subdirs)
  = (root, map fst subdirs, files)
      :: flat_map (fun ds => if keep root (fst ds)
                             then walk keep (root ++ [fst ds]) (snd ds)
                             else [])
                  subdirs.
Proof.
  simpl. f_equal.
  induction subdirs as [|[d sub] l IH]; simpl; [|rewrite IH]; reflexivity.
Qed.

Lemma flat_map_flat_map {A B C} (f : B -> list C) (g : A -> list B)
      (l : list A) :
  flat_map f (flat_map g l) = flat_map (fun x => flat_map f (g x)) l.
Proof.
  induction l as [|x l IH]; simpl; [reflexivity|].
  rewrite flat_map_app, IH. reflexivity.
Qed.

Lemma scanned_walk keep root files subdirs :
  scanned (walk keep root (Dir files subdirs))
  = map (fun f => PurePath.joinpath root (f_name f)) files
      ++ flat_map (fun ds => if keep root (fst ds)
                             then scanned (walk keep (root ++ [fst ds]) (snd ds))
                             else [])
                  subdirs.
Proof.
  rewrite walk_unfold. unfold scanned at 1. simpl. f_equal.
  rewrite flat_map_flat_map. apply flat_map_ext.
  intros ds. destruct (keep root (fst ds)); reflexivity.
Qed.

(** Pruning only leaves names out. *)
Lemma walk_keep_subseq keep :
  forall t root,
    subseq (scanned (walk keep root t)) (scanned (walk keep_all root t)).
Proof.
  intros t. induction t as [files subdirs IH] using fs_tree_nested_ind.
  intros root. rewrite !scanned_walk.
  apply subseq_app; [apply subseq_refl|].
  induction IH as [|ds l Hds Hl IHl]; simpl; [constructor|].
  apply subseq_app; [|exact IHl].
  destruct (keep root (fst ds)); [apply Hds | apply subseq_nil_l].
Qed.

(** Every name found below [root] extends [root]. *)
Lemma scanned_walk_prefix keep :
  forall t root x,
    In x (scanned (walk keep root t)) ->
    exists q, x = root ++ q /\ q <> [].
Proof.
  intros t. induction t as [files subdirs IH] using fs_tree_nested_ind.
  intros root x. rewrite scanned_walk. rewrite in_app_iff.
  intros [Hin|Hin].
  - apply in_map_iff in Hin as (f & Hf & _).
    exists [f_name f]. split; [symmetry; exact Hf | discriminate].
  - apply in_flat_map in Hin as (ds & Hds & Hx).
    rewrite Forall_forall in IH.
    destruct (keep root (fst ds)); [|contradiction].
    destruct (IH ds Hds _ _ Hx) as (q & Hq & _).
    exists (fst ds :: q). split; [|discriminate].
    rewrite Hq, <- app_assoc. reflexivity.
Qed.

Lemma mem_In x l : PyStr.mem x l = true <-> In x l.
Proof.
  unfold PyStr.mem. rewrite existsb_exists. split.
  - intros (y & Hy & Heq). apply String.eqb_eq in Heq. subst. exact Hy.
  - intros H. exists x. split; [exact H | apply String.eqb_refl].
Qed.


Lemma wf_tree_unfold files subdirs :
  wf_tree (Dir files subdirs)
  = nodupb (map f_name files) && nodupb (map fst subdirs)
    && forallb plain_name (map f_name files)
    && forallb plain_name (map fst subdirs)
    && forallb (fun ds => wf_tree (snd ds)) subdirs.
Proof.
  simpl. f_equal.
  induction subdirs as [|[d sub] l IH]; simpl; [|rewrite IH]; reflexivity.
Qed.





Lemma process_project_entries a w st p z :
  zipf st = Some z ->
  exists d,
    zipf (process_project a w st p) = Some (z ++ d)
    /\ subseq (map snd d) (scanned (walk keep_all [fst p] (snd p))).
Proof.
  intros Hz. unfold process_project.
  set (st1 := detect_modules a st [fst p] (snd p)).
  assert (Hz1 : zipf st1 = Some z)
    by (unfold st1; rewrite detect_modules_zipf; exact Hz).
  destruct (fold_left_entries (process_dir a w) zip_paths
              (walk (keep_dir a (module_paths st1)) [fst p] (snd p))
              (fun st' e z' Hz' => process_dir_entries a w st' e z' Hz')
              st1 z Hz1) as (d & Hd & Hs).
  exists d. split; [exact Hd|].
  eapply subseq_trans; [exact Hs | apply walk_keep_subseq].
Qed.

(** *** From paths to names *)



Lemma plain_no_slash n : plain_name n = true -> has_slash n = false.
Proof.
  unfold plain_name. intros H. apply andb_prop in H as [_ H].
  apply negb_true_iff in H. exact H.
Qed.

Lemma plain_not_root n : plain_name n = true -> PurePath.is_root n = false.
Proof.
  intros H. apply plain_no_slash in H. unfold PurePath.is_root.
  destruct (String.eqb_spec n "/") as [->|_]; [discriminate|].
  destruct (String.eqb_spec n "//") as [->|_]; [discriminate|].
  reflexivity.
Qed.

Lemma concat_cons x y l :
  String.concat "/" (x :: y :: l)
  = String.append x (String "/"%char (String.concat "/" (y :: l))).
Proof. reflexivity. Qed.



(** Below a root of plain names, a well-formed tree holds paths of
    plain names only. *)
Lemma scanned_walk_plain :
  forall t, wf_tree t = true ->
  forall root x,
    forallb plain_name root = true ->
    In x (scanned (walk keep_all root t)) ->
    forallb plain_name x = true.
Proof.
  intros t. induction t as [files subdirs IH] using fs_tree_nested_ind.
  rewrite wf_tree_unfold. intros Hwf root x Hroot.
  apply andb_prop in Hwf as [Hwf Hsub]. apply andb_prop in Hwf as [Hwf Hpd].
  apply andb_prop in Hwf as [_ Hpf].
  rewrite scanned_walk, in_app_iff. intros [Hin|Hin].
  - apply in_map_iff in Hin as (f & Hf & Hin). subst x.
    unfold PurePath.joinpath. rewrite forallb_app, Hroot. simpl.
    rewrite forallb_forall in Hpf.
    rewrite (Hpf (f_name f)); [reflexivity | apply in_map; exact Hin].
  - apply in_flat_map in Hin as (ds & Hds & Hx).
    rewrite Forall_forall in IH. rewrite forallb_forall in Hsub, Hpd.
    unfold keep_all at 1 in Hx.
    apply (IH ds Hds (Hsub ds Hds) (root ++ [fst ds]) x); [|exact Hx].
    rewrite forallb_app, Hroot. simpl.
    rewrite (Hpd (fst ds)); [reflexivity | apply in_map; exact Hds].
Qed.

Lemma full_scan_plain a w x :
  wf_world w = true -> In x (full_scan w a) ->
  forallb plain_name x = true /\ x <> [].
Proof.
  unfold wf_world, full_scan. intros H Hin.
  apply andb_prop in H as [Hn Hw]. apply andb_prop in Hn as [_ Hp].
  rewrite forallb_forall in Hw, Hp.
  apply in_flat_map in Hin as (p & Hpin & Hx).
  assert (Hin' : In p (projects w)).
  { unfold get_project_dirs in Hpin.
    destruct (negb (pycharm_dir_exists w)); [contradiction|].
    apply filter_In in Hpin as [H _]. exact H. }
  split.
  - apply (scanned_walk_plain (snd p) (Hw p Hin') [fst p] x); [|exact Hx].
    simpl. rewrite (Hp (fst p)); [reflexivity | apply in_map; exact Hin'].
  - apply scanned_walk_prefix in Hx as (q & Hq & _).
    rewrite Hq. discriminate.
Qed.


(** What a real run leaves in the container was found by the scan,
    in scan order. *)
Lemma backup_entries a w entries :
  container (backup a w) = Some entries ->
  subseq (map snd entries) (full_scan w a).
Proof.
  unfold backup.
  destruct (negb (pycharm_dir_exists w)); [discriminate|].
  destruct (negb (dry_run a) && negb (zip_open_ok w)); [discriminate|].
  cbn [container].
  destruct (negb (dry_run a)) eqn:Hdry.
  - destruct (fold_left_entries (process_project a w)
                (fun p => scanned (walk keep_all [fst p] (snd p)))
                (get_project_dirs w a)
                (fun st p z Hz => process_project_entries a w st p z Hz)
                (mkScan stats0 [] (Some [])) [] eq_refl) as (d & Hd & Hs).
    rewrite Hd. simpl. intros Heq. injection Heq as <-. exact Hs.
  - assert (Hnone : forall l st, zipf st = None ->
               zipf (fold_left (process_project a w) l st) = None).
    { apply negb_false_iff in Hdry.
      assert (Hfile : forall rel e v st f, zipf st = None ->
                 zipf (process_file a w rel e v st f) = None).
      { intros rel e v st f Hz. unfold process_file.
        assert (Hadd : forall fp zp c, zipf (add_file a st f fp zp c) = None)
          by (intros; unfold add_file; rewrite Hdry; exact Hz).
        destruct e; destruct (should_exclude_file _ _); auto;
          destruct (st_size f); auto;
          destruct (_ >? _)%Z; auto.
        destruct (v && include_venv a).
        - rewrite venv_loop_spec. destruct (existsb _ _); auto.
        - destruct (is_important_file _ _); auto. }
      assert (Hfold : forall {A} (f : scan -> A -> scan) l,
                 (forall st x, zipf st = None -> zipf (f st x) = None) ->
                 forall st, zipf st = None -> zipf (fold_left f l st) = None).
      { intros A f l Hf. induction l as [|x l IHl]; simpl; auto. }
      intros l. apply Hfold. intros st p Hz. unfold process_project.
      apply Hfold.
      - intros st' e Hz'. unfold process_dir. apply Hfold; [|exact Hz'].
        intros st'' f Hz''. apply Hfile. exact Hz''.
      - rewrite detect_modules_zipf. exact Hz. }
    rewrite Hnone by reflexivity. discriminate.
Qed.




End ArchiveNames.

(** ** Restoring a project backup *)

Section Restore.
Import ProjectRestore Notions.

Lemma projects_of_In all_files x :
  In x (projects_of all_files)
  <-> exists f, In f all_files /\ first_part f = Some x.
Proof.
  induction all_files as [|f l IH]; simpl.
  - split; [contradiction | intros (f & [] & _)].
  - destruct (first_part f) as [y|] eqn:Hf.
    + destruct (PyStr.mem y (projects_of l)) eqn:Hm.
      * rewrite IH. split.
        -- intros (g & Hg & Hx). exists g. auto.
        -- intros (g & [Hg|Hg] & Hx).
           ++ subst g. rewrite Hf in Hx. injection Hx as <-.
              apply IH. apply mem_In. exact Hm.
           ++ exists g. auto.
      * simpl. rewrite IH. split.
        -- intros [Heq|(g & Hg & Hx)].
           ++ subst y. exists f. auto.
           ++ exists g. auto.
        -- intros (g & [Hg|Hg] & Hx).
           ++ subst g. rewrite Hf in Hx. injection Hx as <-. left. reflexivity.
           ++ right. exists g. auto.
    + rewrite IH. split.
      * intros (g & Hg & Hx). exists g. auto.
      * intros (g & [Hg|Hg] & Hx); [subst g; congruence | exists g; auto].
Qed.

Lemma in_projects_chosen selected_projects all_files f :
  In f all_files ->
  in_projects (chosen selected_projects all_files) f
  = matched selected_projects f.
Proof.
  intros Hin. unfold in_projects, matched, chosen.
  destruct (first_part f) as [x|] eqn:Hf; [|reflexivity].
  assert (Hx : In x (projects_of all_files))
    by (apply projects_of_In; exists f; auto).
  destruct selected_projects as [|s l].
  - apply mem_In. exact Hx.
  - destruct (PyStr.mem x (s :: l)) eqn:Hm.
    + apply mem_In. apply filter_In. split; [exact Hx | exact Hm].
    + destruct (PyStr.mem x (filter _ _)) eqn:Hm'; [|reflexivity].
      apply mem_In in Hm'. apply filter_In in Hm' as [_ Hm'].
      congruence.
Qed.

Lemma extract_loop_spec w projects files done lg :
  extract_loop w projects files done lg
  = (done ++ filter (fun f => in_projects projects f && extract_ok w f) files,
     lg ++ map (restore_line w) (filter (in_projects projects) files)).
Proof.
  revert done lg. induction files as [|f l IH]; simpl; intros done lg.
  - rewrite !app_nil_r. reflexivity.
  - unfold restore_line at 1.
    destruct (in_projects projects f); simpl; [|apply IH].
    destruct (extract_ok w f); simpl; rewrite IH, <- !app_assoc; reflexivity.
Qed.

Lemma filter_filter {A} (p q : A -> bool) (l : list A) :
  filter p (filter q l) = filter (fun x => q x && p x) l.
Proof.
  induction l as [|x l IH]; simpl; [reflexivity|].
  destruct (q x); simpl; [destruct (p x)|]; rewrite IH; reflexivity.
Qed.

Lemma filter_ext_in' {A} (p q : A -> bool) (l : list A) :
  (forall x, In x l -> p x = q x) -> filter p l = filter q l.
Proof.
  induction l as [|x l IH]; simpl; intros H; [reflexivity|].
  rewrite (H x) by (left; reflexivity).
  rewrite IH by (intros y Hy; apply H; right; exact Hy). reflexivity.
Qed.

Lemma chosen_empty selected_projects all_files :
  chosen selected_projects all_files = [] ->
  existsb (matched selected_projects) all_files = false.
Proof.
  intros Hc. destruct (existsb _ _) eqn:He; [|reflexivity].
  apply existsb_exists in He as (f & Hf & Hm).
  rewrite <- (in_projects_chosen _ _ _ Hf), Hc in Hm.
  unfold in_projects in Hm. destruct (first_part f); discriminate.
Qed.

Lemma chosen_nonempty selected_projects all_files :
  selected_projects <> [] ->
  chosen selected_projects all_files <> [] ->
  existsb (matched selected_projects) all_files = true.
Proof.
  intros Hsel Hc. unfold chosen in Hc.
  destruct selected_projects as [|s l]; [contradiction|].
  destruct (filter _ _) as [|x xs] eqn:Hf; [contradiction|].
  assert (Hx : In x (filter (fun p => PyStr.mem p (s :: l))
                            (projects_of all_files)))
    by (rewrite Hf; left; reflexivity).
  apply filter_In in Hx as [Hx Hm].
  apply projects_of_In in Hx as (f & Hin & Hfp).
  apply existsb_exists. exists f. split; [exact Hin|].
  unfold matched. rewrite Hfp. exact Hm.
Qed.

(** C7, as the code has it.  [restore] goes through all the
    entries it is asked for: the ones restored are exactly those
    whose extraction succeeds, in archive order, whatever failed
    before them, and each failure leaves an error line.  Success
    is returned as soon as the archive opens and the selection, if
    any, names a project of the archive; so it is returned
    whenever an entry was restored. *)
Theorem restore_continues_after_failure :
  forall (w : world) (selected_projects all_files : list string),
    backup_file_exists w = true ->
    namelist w = Some all_files ->
    let r := restore w selected_projects in
    extracted r
    = filter (fun f => matched selected_projects f && extract_ok w f)
             all_files
    /\ (forall f,
           In f all_files -> matched selected_projects f = true ->
           extract_ok w f = false ->
           In (ERROR, String.append "Error extracting " f) (log r))
    /\ ret r = match selected_projects with
               | [] => true
               | _ => existsb (matched selected_projects) all_files
               end
    /\ (extracted r <> [] -> ret r = true).
Proof.
  intros w sel all_files Hex Hnl r.
  assert (Hfilter : forall q : string -> bool,
             filter (fun f => in_projects (chosen sel all_files) f && q f)
                    all_files
             = filter (fun f => matched sel f && q f) all_files).
  { intros q. apply filter_ext_in'. intros f Hf.
    rewrite (in_projects_chosen _ _ _ Hf). reflexivity. }
  assert (Hr : r = if match sel with [] => false | _ => true end
                      && match chosen sel all_files with
                         | [] => true | _ => false end
                   then mkOutcome false []
                          [(ERROR,
                            "None of the selected projects were found in the backup.")]
                   else mkOutcome true
                          (filter (fun f => matched sel f && extract_ok w f)
                                  all_files)
                          (map (restore_line w)
                               (filter (matched sel) all_files))).
  { unfold r, restore. rewrite Hex, Hnl. cbn [negb].
    fold (chosen sel all_files).
    destruct (match sel with [] => false | _ => true end
              && match chosen sel all_files with [] => true | _ => false end);
      [reflexivity|].
    rewrite extract_loop_spec. cbn [fst snd app].
    rewrite !filter_filter.
    rewrite (filter_ext_in' (fun x => in_projects (chosen sel all_files) x
                                      && in_projects (chosen sel all_files) x)
               (matched sel) all_files).
    2:{ intros f Hf. rewrite (in_projects_chosen _ _ _ Hf).
        apply andb_diag. }
    rewrite (filter_ext_in'
               (fun x => in_projects (chosen sel all_files) x
                         && (in_projects (chosen sel all_files) x
                             && extract_ok w x))
               (fun f => matched sel f && extract_ok w f) all_files).
    2:{ intros f Hf. rewrite (in_projects_chosen _ _ _ Hf).
        destruct (matched sel f); reflexivity. }
    reflexivity. }
  assert (Hret : ret r = match sel with
                         | [] => true
                         | _ => existsb (matched sel) all_files
                         end).
  { rewrite Hr. destruct sel as [|s l]; [reflexivity|]. cbn [andb].
    destruct (chosen (s :: l) all_files) eqn:Hc; cbn [ret].
    - symmetry. apply chosen_empty. exact Hc.
    - symmetry. apply chosen_nonempty; [discriminate|].
      rewrite Hc. discriminate. }
  assert (Hext : extracted r
                 = filter (fun f => matched sel f && extract_ok w f) all_files).
  { rewrite Hr.
    destruct (match sel with [] => false | _ => true end
              && match chosen sel all_files with [] => true | _ => false end)
             eqn:Hb; [|reflexivity].
    cbn [extracted]. symmetry.
    apply andb_prop in Hb as [_ Hb].
    destruct (chosen sel all_files) eqn:Hc; [|discriminate].
    pose proof (chosen_empty _ _ Hc) as Hno.
    destruct (filter _ all_files) as [|f fs] eqn:Hf; [reflexivity|].
    assert (Hin : In f (filter (fun f => matched sel f && extract_ok w f)
                               all_files))
      by (rewrite Hf; left; reflexivity).
    apply filter_In in Hin as [Hin Hm]. apply andb_prop in Hm as [Hm _].
    assert (existsb (matched sel) all_files = true)
      by (apply existsb_exists; exists f; auto).
    congruence. }
  repeat split.
  - exact Hext.
  - intros f Hin Hm Hfail.
    assert (Hsome : existsb (matched sel) all_files = true)
      by (apply existsb_exists; exists f; auto).
    rewrite Hr.
    destruct (match sel with [] => false | _ => true end
              && match chosen sel all_files with [] => true | _ => false end)
             eqn:Hb.
    + apply andb_prop in Hb as [_ Hb].
      destruct (chosen sel all_files) eqn:Hc; [|discriminate].
      rewrite (chosen_empty _ _ Hc) in Hsome. discriminate.
    + cbn [log]. apply in_map_iff. exists f. split.
      * unfold restore_line. rewrite Hfail. reflexivity.
      * apply filter_In. auto.
  - exact Hret.
  - intros Hne. rewrite Hret. destruct sel as [|s l]; [reflexivity|].
    rewrite Hext in Hne.
    destruct (filter _ all_files) as [|f fs] eqn:Hf; [contradiction|].
    assert (Hin : In f (filter (fun f => matched (s :: l) f && extract_ok w f)
                               all_files))
      by (rewrite Hf; left; reflexivity).
    apply filter_In in Hin as [Hin Hm]. apply andb_prop in Hm as [Hm _].
    apply existsb_exists. exists f. auto.
Qed.

Lemma restore_continues_after_failure_witness :
  let w := mkWorld true
             (Some ["proj/a.py"; "proj/b.py"; "other/c.py"; "proj/d.py"])
             (fun f => negb (String.eqb f "proj/b.py")) in
  (backup_file_exists w = true
   /\ namelist w = Some ["proj/a.py"; "proj/b.py"; "other/c.py"; "proj/d.py"])
  /\ (extracted (restore w ["proj"]) = ["proj/a.py"; "proj/d.py"]
      /\ In (ERROR, "Error extracting proj/b.py") (log (restore w ["proj"]))
      /\ ret (restore w ["proj"]) = true).
Proof.
  intros w.
  split; [split; reflexivity|].
  destruct (restore_continues_after_failure w ["proj"]
              ["proj/a.py"; "proj/b.py"; "other/c.py"; "proj/d.py"]
              eq_refl eq_refl) as (H1 & H2 & H3 & _).
  split; [exact H1|]. split; [|exact H3].
  apply (H2 "proj/b.py"); [right; left; reflexivity | reflexivity | reflexivity].
Defined.

(** C7, as stated, fails: when every extraction fails, or the
    archive is empty, [restore] still returns success. *)
Lemma restore_succeeds_with_nothing_restored :
  restore (mkWorld true (Some ["proj/main.py"]) (fun _ => false)) []
  = mkOutcome true [] [(ERROR, "Error extracting proj/main.py")]
  /\ restore (mkWorld true (Some []) (fun _ => true)) []
     = mkOutcome true [] [].
Proof. split; reflexivity. Qed.

End Restore.

(** ** Verifying a configuration backup *)

Section Verification.
Import ConfigBackup Notions.

Lemma verify_backup_true backup_files original_files :
  fst (verify_backup backup_files original_files) = true
  <-> exists names,
      backup_files = Some names
      /\ (List.length original_files <= List.length names)%nat.
Proof.
  unfold verify_backup. destruct backup_files as [names|].
  - destruct (Nat.ltb_spec (List.length names) (List.length original_files))
      as [Hlt|Hge]; simpl.
    + split; [discriminate|]. intros (n & Hn & Hle).
      injection Hn as <-. lia.
    + split; [|reflexivity]. intros _. exists names. auto.
  - simpl. split; [discriminate|]. intros (n & Hn & _). discriminate.
Qed.

Lemma write_all_ok w todo written :
  forallb (fun p => write_ok w (fst p)) todo = true ->
  write_all w todo written = (true, written ++ map snd todo).
Proof.
  revert written. induction todo as [|[file arc] l IH]; simpl; intros written H.
  - rewrite app_nil_r. reflexivity.
  - apply andb_prop in H as [Hf Hl]. rewrite Hf, IH by exact Hl.
    rewrite <- app_assoc. reflexivity.
Qed.

Lemma backup_plan_sources w r g :
  map fst (backup_plan w r g)
  = idea_files w ++ map fst (if r then recent_found w else [])
    ++ map fst (if g then global_found w else []).
Proof.
  unfold backup_plan. rewrite !map_app, map_map. simpl.
  rewrite map_id. reflexivity.
Qed.

Lemma backup_plan_length w r g :
  List.length (backup_plan w r g)
  = (List.length (idea_files w)
     + List.length (if r then recent_found w else [])
     + List.length (if g then global_found w else []))%nat.
Proof.
  unfold backup_plan. rewrite !length_app, length_map. lia.
Qed.

(** C8, as the code has it.  [verify_backup] returns true exactly
    when the container can be reopened and holds at least as many
    entries as there are source files.  When the check fails after
    the writes of [create_backup] went through, the container is
    left as written, a warning is logged, and [create_backup]
    returns [False]. *)
Theorem verification_failure_keeps_archive :
  forall (w : world) (backup_recent_projects backup_global_settings : bool),
    let plan := backup_plan w backup_recent_projects backup_global_settings in
    let o := create_backup w backup_recent_projects backup_global_settings
               false in
    projects_dir_is_dir w = true ->
    output_dir_ready w = true ->
    zip_open_ok w = true ->
    plan <> [] ->
    forallb (fun p => write_ok w (fst p)) plan = true ->
    fst (verify_backup (reopen w (map snd plan)) (map fst plan)) = false ->
    (forall backup_files original_files,
        fst (verify_backup backup_files original_files) = true
        <-> exists names,
            backup_files = Some names
            /\ (List.length original_files <= List.length names)%nat)
    /\ disk o = Some (map snd plan)
    /\ In (WARNING,
           "Backup verification failed. The backup may be incomplete or corrupted.")
          (log o)
    /\ ret o = false.
Proof.
  intros w r g plan o Hdir Hout Hopen Hne Hw Hv.
  split; [intros; apply verify_backup_true|].
  assert (Ho : o = mkOutcome false (Some (map snd plan))
                 ((snd (verify_backup (reopen w (map snd plan)) (map fst plan))
                   ++ [(INFO, "Backup created")])
                  ++ [(WARNING,
                       "Backup verification failed. The backup may be incomplete or corrupted.")])).
  { unfold o, create_backup. rewrite Hdir, Hout, Hopen. cbn [negb].
    rewrite <- backup_plan_length. fold plan.
    destruct (Nat.eqb_spec (List.length plan) 0) as [H0|_];
      [destruct plan; [contradiction | discriminate]|].
    change (map (fun file => (file, arcname_of w file)) (idea_files w)
            ++ (if r then recent_found w else [])
            ++ (if g then global_found w else [])) with plan.
    rewrite (write_all_ok w plan [] Hw). cbn [fst snd negb app].
    rewrite <- backup_plan_sources. fold plan.
    rewrite Hv. cbn [negb]. reflexivity. }
  rewrite Ho. cbn [disk log ret]. repeat split.
  apply in_or_app. right. left. reflexivity.
Qed.

Lemma verification_failure_keeps_archive_witness :
  let w := mkWorld true true ["/p/app/.idea/misc.xml"; "/p/app/.idea/vcs.xml"]
             [] [] (fun f => PyStr.drop 1 f) true (fun _ => true)
             (fun _ => None) in
  (projects_dir_is_dir w = true /\ output_dir_ready w = true
   /\ zip_open_ok w = true /\ backup_plan w true false <> []
   /\ forallb (fun p => write_ok w (fst p)) (backup_plan w true false) = true
   /\ fst (verify_backup (reopen w (map snd (backup_plan w true false)))
                         (map fst (backup_plan w true false))) = false)
  /\ (disk (create_backup w true false false)
      = Some ["p/app/.idea/misc.xml"; "p/app/.idea/vcs.xml"]
      /\ ret (create_backup w true false false) = false).
Proof.
  intros w.
  assert (H4 : backup_plan w true false <> []) by discriminate.
  split; [repeat split; try reflexivity; exact H4|].
  destruct (verification_failure_keeps_archive w true false
              eq_refl eq_refl eq_refl H4 eq_refl eq_refl)
    as (_ & Hd & _ & Hr).
  split; [exact Hd | exact Hr].
Defined.

(** C8, as stated, fails in its last part: after a failed check
    [create_backup] returns [False], the value it also returns
    when a write failed and the container is incomplete. *)
Lemma failed_verification_is_reported_as_failure :
  create_backup (Samples.two_idea_files (fun _ => true) (fun _ => None))
                true false false
  = mkOutcome false
      (Some ["p/app/.idea/misc.xml"; "p/app/.idea/vcs.xml"])
      [(INFO, "Verifying backup integrity...");
       (ERROR, "Backup verification failed");
       (INFO, "Backup created");
       (WARNING,
        "Backup verification failed. The backup may be incomplete or corrupted.")]
  /\ create_backup
       (Samples.two_idea_files
          (fun f => negb (String.eqb f "/p/app/.idea/vcs.xml"))
          (fun names => Some names))
       true false false
     = mkOutcome false (Some ["p/app/.idea/misc.xml"])
         [(ERROR, "Failed to create backup")].
Proof. split; reflexivity. Qed.

End Verification.

(** ** Backup file names *)

Section BackupNames.
Import ConfigBackup Notions.

Lemma append_assoc (a b c : string) :
  String.append (String.append a b) c = String.append a (String.append b c).
Proof. induction a as [|x a IH]; simpl; [|rewrite IH]; reflexivity. Qed.

Lemma length_append (a b : string) :
  String.length (String.append a b) = (String.length a + String.length b)%nat.
Proof. induction a as [|x a IH]; simpl; [|rewrite IH]; reflexivity. Qed.

Lemma prefix_append l s : String.prefix l (String.append l s) = true.
Proof.
  induction l as [|c l IH]; simpl; [destruct s; reflexivity|].
  destruct (ascii_dec c c) as [_|Hne]; [exact IH | contradiction].
Qed.

Lemma drop_append l s : PyStr.drop (String.length l) (String.append l s) = s.
Proof.
  induction l as [|c l IH]; simpl; [destruct s; reflexivity | exact IH].
Qed.

Lemma eat_lit_append l s : eat_lit l (String.append l s) = Some s.
Proof. unfold eat_lit. rewrite prefix_append, drop_append. reflexivity. Qed.

Lemma eat_digits_append d s :
  all_digits d = true ->
  eat_digits (String.length d) (String.append d s) = Some s.
Proof.
  induction d as [|c d IH]; simpl; intros H; [reflexivity|].
  apply andb_prop in H as [Hc Hd]. rewrite Hc. apply IH. exact Hd.
Qed.

Lemma digit_char_cases d :
  In (digit_char d)
     ["0"; "1"; "2"; "3"; "4"; "5"; "6"; "7"; "8"; "9"]%char.
Proof.
  unfold digit_char.
  assert (H : (d mod 10 < 10)%nat) by (apply Nat.mod_upper_bound; discriminate).
  revert H. generalize (d mod 10) as m. intros m H.
  do 10 (destruct m as [|m]; [vm_compute; tauto|]).
  exfalso. lia.
Qed.

Lemma is_digit_digit_char d : PyStr.is_digit (digit_char d) = true.
Proof.
  pose proof (digit_char_cases d) as H. simpl in H.
  repeat (destruct H as [<-|H]; [reflexivity|]). contradiction.
Qed.

Lemma zero_pad_digits width n : all_digits (zero_pad width n) = true.
Proof.
  revert n. induction width as [|w IH]; intros n; cbn [zero_pad];
    [reflexivity|].
  assert (Happ : forall a b, all_digits a = true -> all_digits b = true ->
                             all_digits (String.append a b) = true).
  { induction a as [|c a IHa]; simpl; intros b Ha Hb; [exact Hb|].
    apply andb_prop in Ha as [Hc Ha]. rewrite Hc. apply IHa; assumption. }
  apply Happ; [apply IH|]. cbn [all_digits].
  rewrite is_digit_digit_char. reflexivity.
Qed.

Lemma zero_pad_length width n : String.length (zero_pad width n) = width.
Proof.
  revert n. induction width as [|w IH]; intros n; cbn [zero_pad];
    [reflexivity|].
  rewrite length_append, IH. cbn [String.length]. lia.
Qed.

Lemma eat_digits_zero_pad width n s :
  eat_digits width (String.append (zero_pad width n) s) = Some s.
Proof.
  rewrite <- (zero_pad_length width n) at 1.
  apply eat_digits_append. apply zero_pad_digits.
Qed.

Lemma default_backup_name_shape t :
  default_backup_name t
  = String.append "pycharm_idea_backup_"
      (String.append (zero_pad 4 (year t))
        (String.append "-" (String.append (zero_pad 2 (month t))
          (String.append "-" (String.append (zero_pad 2 (day t))
            (String.append "_" (String.append (zero_pad 2 (hour t))
              (String.append "-" (String.append (zero_pad 2 (minute t))
                ".zip"))))))))).
Proof.
  unfold default_backup_name, strftime.
  rewrite !append_assoc. reflexivity.
Qed.

Lemma list_pattern_matches_default t :
  re_match list_pattern (default_backup_name t) = true.
Proof.
  rewrite default_backup_name_shape. unfold list_pattern.
  cbn [re_match].
  repeat (rewrite eat_lit_append || rewrite eat_digits_zero_pad
          || cbn [re_match]).
  reflexivity.
Qed.

Lemma underscore_is_no_digit d s :
  eat_lit "_" (String (digit_char d) s) = None.
Proof.
  unfold eat_lit. pose proof (digit_char_cases d) as H. simpl in H.
  repeat (destruct H as [<-|H]; [reflexivity|]). contradiction.
Qed.

Lemma clean_pattern_misses_default t :
  re_match clean_pattern (default_backup_name t) = false.
Proof.
  rewrite default_backup_name_shape. unfold clean_pattern.
  cbn [re_match]. rewrite eat_lit_append.
  change (zero_pad 4 (year t))
    with (String.append
            (String.append (zero_pad 2 (year t / 10 / 10))
               (String (digit_char (year t / 10)) EmptyString))
            (String (digit_char (year t)) EmptyString)).
  rewrite !append_assoc. rewrite eat_digits_zero_pad.
  cbn [String.append]. rewrite underscore_is_no_digit. reflexivity.
Qed.

Lemma insert_by_mtime_In x y l :
  In y (insert_by_mtime x l) <-> y = x \/ In y l.
Proof.
  induction l as [|z l IH]; simpl.
  - intuition.
  - destruct (snd z >? snd x)%Z; simpl; rewrite ?IH; intuition.
Qed.

Lemma sort_newest_first_In y l : In y (sort_newest_first l) <-> In y l.
Proof.
  induction l as [|x l IH]; simpl; [tauto|].
  rewrite insert_by_mtime_In, IH. intuition.
Qed.

Lemma In_skipn {A} n (l : list A) x : In x (skipn n l) -> In x l.
Proof.
  intros H. rewrite <- (firstn_skipn n l). apply in_or_app. right. exact H.
Qed.

Lemma removed_were_listed (remove_ok : string -> bool) old :
  forall acc x,
    In x (fst (fold_left
                 (fun (acc : list string * list log_entry)
                      (old_backup : dirent) =>
                    let lg := snd acc ++
                      [(INFO, String.append "Removing old backup: "
                                (fst old_backup))] in
                    if remove_ok (fst old_backup)
                    then (fst acc ++ [fst old_backup], lg)
                    else (fst acc,
                          lg ++ [(ERROR,
                                  String.append "Failed to remove old backup "
                                    (fst old_backup))]))
                 old acc)) ->
    In x (fst acc) \/ In x (map fst old).
Proof.
  induction old as [|o old IH]; simpl; intros acc x H; [left; exact H|].
  apply IH in H as [H|H]; [|right; right; exact H].
  destruct (remove_ok (fst o)); simpl in H; [|left; exact H].
  apply in_app_or in H as [H|[H|[]]]; [left; exact H | right; left; exact H].
Qed.

(** What [clean_old_backups] removes matched its pattern. *)
Lemma clean_old_backups_removes_matching max_backups listdir remove_ok x :
  In x (fst (clean_old_backups max_backups listdir remove_ok)) ->
  re_match clean_pattern x = true.
Proof.
  unfold clean_old_backups.
  destruct (max_backups <=? 0)%Z; [contradiction|].
  destruct (Z.of_nat _ <=? max_backups)%Z; [contradiction|].
  intros H. apply removed_were_listed in H as [[]|H].
  apply in_map_iff in H as (o & <- & H).
  apply In_skipn, sort_newest_first_In, filter_In in H as [_ H]. exact H.
Qed.

(** C9, as the code has it.  A backup that [create_backup] named
    by default is never removed by [clean_old_backups], whose
    pattern matches no such name, and it is listed by
    [list_backups] when it is in the directory. *)
Theorem default_backups_survive_cleanup :
  forall (t : datetime) (mtime : Z) (listdir : list dirent)
         (max_backups : Z) (remove_ok : string -> bool),
    In (default_backup_name t, mtime) listdir ->
    re_match clean_pattern (default_backup_name t) = false
    /\ ~ In (default_backup_name t)
            (fst (clean_old_backups max_backups listdir remove_ok))
    /\ re_match list_pattern (default_backup_name t) = true
    /\ In (default_backup_name t) (list_backups listdir).
Proof.
  intros t mtime listdir max_backups remove_ok Hin.
  repeat split.
  - apply clean_pattern_misses_default.
  - intros H. apply clean_old_backups_removes_matching in H.
    rewrite clean_pattern_misses_default in H. discriminate.
  - apply list_pattern_matches_default.
  - unfold list_backups.
    apply (in_map fst _ (default_backup_name t, mtime)).
    apply sort_newest_first_In, filter_In. split; [exact Hin|].
    apply list_pattern_matches_default.
Qed.

Lemma default_backups_survive_cleanup_witness :
  let t := mkDatetime 2024 3 7 9 5 in
  let listdir :=
    [("pycharm_idea_backup_2024-03-07_09-05.zip", 30%Z);
     ("pycharm_idea_backup_2024-03-06_09-05.zip", 20%Z);
     ("pycharm_idea_backup_05_03_2024.zip", 10%Z);
     ("pycharm_idea_backup_04_03_2024.zip", 5%Z)] in
  In (default_backup_name t, 30%Z) listdir
  /\ fst (clean_old_backups 1 listdir (fun _ => true))
     = ["pycharm_idea_backup_04_03_2024.zip"]
  /\ ~ In (default_backup_name t)
          (fst (clean_old_backups 1 listdir (fun _ => true)))
  /\ In (default_backup_name t) (list_backups listdir).
Proof.
  intros t listdir.
  assert (H : In (default_backup_name t, 30%Z) listdir)
    by (left; reflexivity).
  destruct (default_backups_survive_cleanup t 30%Z listdir 1 (fun _ => true) H)
    as (_ & H2 & _ & H4).
  split; [exact H|]. split; [reflexivity|]. split; [exact H2 | exact H4].
Defined.

Lemma default_backup_name_length t :
  String.length (default_backup_name t) = 40%nat.
Proof.
  rewrite default_backup_name_shape.
  repeat (rewrite length_append || rewrite zero_pad_length). reflexivity.
Qed.

(** C9, as stated, fails in its last part: [list_backups] also
    lists names that only begin like a default name. *)
Lemma list_backups_lists_other_names :
  list_backups [("pycharm_idea_backup_2024-03-07_09-05.zip.bak", 0%Z)]
  = ["pycharm_idea_backup_2024-03-07_09-05.zip.bak"]
  /\ forall t,
      default_backup_name t <> "pycharm_idea_backup_2024-03-07_09-05.zip.bak".
Proof.
  split; [reflexivity|].
  intros t H. apply (f_equal String.length) in H.
  rewrite default_backup_name_length in H. discriminate.
Qed.

End BackupNames.

(** ** Namespaces of a configuration backup *)

Section Namespaces.
Import Eff ConfigRestore Notions.
Local Open Scope eff_scope.

(** *** The listing *)

Lemma set_add_In x y l : In y (set_add x l) <-> y = x \/ In y l.
Proof.
  unfold set_add. destruct (PyStr.mem x l) eqn:Hm.
  - apply mem_In in Hm. split; [auto|]. intros [->|H]; assumption.
  - rewrite in_app_iff. simpl. intuition.
Qed.

Lemma set_add_NoDup x l : NoDup l -> NoDup (set_add x l).
Proof.
  unfold set_add. intros H. destruct (PyStr.mem x l) eqn:Hm; [exact H|].
  apply NoDup_app; [exact H | constructor; [intros [] | constructor] |].
  intros a Ha [<-|[]]. apply mem_In in Ha. congruence.
Qed.

Lemma collect_projects_spec names :
  NoDup (collect_projects names)
  /\ forall p, In p (collect_projects names)
               <-> exists filename,
                   In filename names /\ project_of_entry filename = Some p.
Proof.
  unfold collect_projects.
  assert (H : forall acc,
             NoDup acc ->
             NoDup (fold_left
                      (fun projects filename =>
                         match project_of_entry filename with
                         | Some name => set_add name projects
                         | None => projects
                         end) names acc)
             /\ forall p,
                 In p (fold_left
                         (fun projects filename =>
                            match project_of_entry filename with
                            | Some name => set_add name projects
                            | None => projects
                            end) names acc)
                 <-> In p acc
                     \/ exists filename,
                        In filename names
                        /\ project_of_entry filename = Some p).
  { induction names as [|f l IH]; simpl; intros acc Hnd.
    - split; [exact Hnd|]. intros p. split; [auto|].
      intros [H|(f & [] & _)]. exact H.
    - destruct (project_of_entry f) as [name|] eqn:Hf.
      + destruct (IH (set_add name acc) (set_add_NoDup _ _ Hnd)) as [H1 H2].
        split; [exact H1|]. intros p. rewrite H2, set_add_In. split.
        * intros [[->|H]|(g & Hg & Hp)]; eauto.
        * intros [H|(g & [<-|Hg] & Hp)]; eauto.
          rewrite Hf in Hp. injection Hp as ->. auto.
      + destruct (IH acc Hnd) as [H1 H2].
        split; [exact H1|]. intros p. rewrite H2. split.
        * intros [H|(g & Hg & Hp)]; eauto.
        * intros [H|(g & [<-|Hg] & Hp)]; eauto. congruence. }
  destruct (H [] (NoDup_nil _)) as [H1 H2]. split; [exact H1|].
  intros p. rewrite H2. split; [intros [[]|H']; exact H' | auto].
Qed.

Lemma insert_sorted_In x y l : In y (insert_sorted x l) <-> y = x \/ In y l.
Proof.
  induction l as [|z l IH]; simpl; [intuition|].
  destruct (String.leb x z); simpl; rewrite ?IH; intuition.
Qed.

Lemma sorted_In y l : In y (sorted l) <-> In y l.
Proof.
  induction l as [|x l IH]; simpl; [tauto|].
  rewrite insert_sorted_In, IH. intuition.
Qed.

Lemma insert_sorted_NoDup x l :
  ~ In x l -> NoDup l -> NoDup (insert_sorted x l).
Proof.
  induction l as [|z l IH]; simpl; intros Hx Hnd.
  - constructor; [intros [] | constructor].
  - destruct (String.leb x z).
    + constructor; [exact Hx | exact Hnd].
    + inversion Hnd as [|? ? Hz Hl]; subst. constructor.
      * rewrite insert_sorted_In. intros [->|H]; [apply Hx; left; reflexivity|].
        contradiction.
      * apply IH; [intros H; apply Hx; right; exact H | exact Hl].
Qed.

Lemma sorted_NoDup l : NoDup l -> NoDup (sorted l).
Proof.
  induction 1 as [|x l Hx Hnd IH]; simpl; [constructor|].
  apply insert_sorted_NoDup; [rewrite sorted_In; exact Hx | exact IH].
Qed.

Lemma list_projects_value w backup_file names :
  path_exists w backup_file = true ->
  archive w = Some names ->
  value (list_projects_in_backup w backup_file)
  = Some (sorted (collect_projects names))
  /\ writes (list_projects_in_backup w backup_file) = [].
Proof.
  intros He Ha. unfold list_projects_in_backup. rewrite He, Ha. cbn [negb].
  destruct (has_prefix recent_prefix names);
    destruct (has_prefix global_prefix names); split; reflexivity.
Qed.

(** *** What the restore functions write *)

Lemma wo_pure {A} P (a : A) : writes_ok P (pure a).
Proof. intros x []. Qed.

Lemma wo_raise {A} P : writes_ok P (@raise A).
Proof. intros x []. Qed.

Lemma wo_tell P l msg : writes_ok P (tell l msg).
Proof. intros x []. Qed.

Lemma wo_wrote (P : string * string -> Prop) z t :
  P (z, t) -> writes_ok P (wrote z t).
Proof. intros H x [<-|[]]. exact H. Qed.

Lemma wo_bind {A B} P (m : eff A) (f : A -> eff B) :
  writes_ok P m -> (forall a, writes_ok P (f a)) -> writes_ok P (bind m f).
Proof.
  intros Hm Hf x. unfold bind. destruct (value m) as [a|]; simpl.
  - rewrite in_app_iff. intros [H|H]; [apply Hm | apply (Hf a)]; exact H.
  - apply Hm.
Qed.

Ltac wo_step :=
  first [ apply wo_pure | apply wo_raise | apply wo_tell
        | apply wo_bind; [|intros ?] ].

Lemma extract_all_writes w P files :
  (forall x, In x files -> P x) -> writes_ok P (extract_all w files).
Proof.
  induction files as [|[z t] l IH]; simpl; intros H; [apply wo_pure|].
  destruct (extract_ok w z t); [|apply wo_raise].
  apply wo_bind; [apply wo_wrote; apply H; left; reflexivity | intros _].
  apply wo_bind; [apply wo_tell | intros _].
  apply IH. intros x Hx. apply H. right. exact Hx.
Qed.

(** [restore_project] writes entries of the archive that begin
    with the project's path in the archive. *)
Lemma restore_project_writes w projects_dir project_name dry_run names :
  archive w = Some names ->
  writes_ok
    (fun x =>
       In (fst x) names
       /\ PyStr.startswith (fst x)
            (String.append (OsPath.basename projects_dir)
               (String.append "/" project_name)) = true)
    (restore_project w projects_dir project_name dry_run).
Proof.
  intros Ha. unfold restore_project.
  destruct (negb (path_exists w _)); [repeat wo_step|].
  destruct (negb (path_exists w _)); [repeat wo_step|].
  rewrite Ha.
  match goal with
  | |- writes_ok _ (match ?l with _ => _ end) =>
      assert (Hl : forall x, In x l ->
                 In (fst x) names
                 /\ PyStr.startswith (fst x)
                      (String.append (OsPath.basename projects_dir)
                         (String.append "/" project_name)) = true);
      [| destruct l; [repeat wo_step|] ]
  end.
  { intros x Hx. apply in_map_iff in Hx as (f & <- & Hf).
    apply filter_In in Hf. exact Hf. }
  apply wo_bind; [apply wo_tell | intros _].
  apply wo_bind; [|intros _; apply wo_pure].
  destruct (negb dry_run); [|apply wo_tell].
  apply wo_bind; [|intros _; apply wo_tell].
  apply extract_all_writes. exact Hl.
Qed.

Lemma projects_loop_writes w projects_dir dry_run names projects :
  archive w = Some names ->
  writes_ok
    (fun x =>
       In (fst x) names
       /\ exists project_name,
          PyStr.startswith (fst x)
            (String.append (OsPath.basename projects_dir)
               (String.append "/" project_name)) = true)
    (projects_loop w projects_dir dry_run projects).
Proof.
  intros Ha. induction projects as [|p l IH]; simpl; [apply wo_pure|].
  apply wo_bind.
  - intros x Hx.
    destruct (restore_project_writes w projects_dir p dry_run names Ha x Hx)
      as [H1 H2].
    split; [exact H1 | exists p; exact H2].
  - intros ok. apply wo_bind; [exact IH | intros m; apply wo_pure].
Qed.

Lemma recent_to_dirs_writes w dry_run file_path file_name dirs :
  writes_ok (fun x => fst x = file_path)
            (recent_to_dirs w dry_run file_path file_name dirs).
Proof.
  induction dirs as [|d l IH]; simpl; [repeat wo_step|].
  destruct dry_run.
  - apply wo_bind; [apply wo_tell | intros _].
    apply wo_bind; [exact IH | intros n; apply wo_pure].
  - destruct (path_exists w _); [|exact IH].
    destruct (extract_ok w _ _); [|apply wo_raise].
    apply wo_bind; [apply wo_wrote; reflexivity | intros _].
    repeat wo_step.
Qed.

Lemma recent_loop_writes w dry_run files :
  writes_ok (fun x => In (fst x) files) (recent_loop w dry_run files).
Proof.
  induction files as [|f l IH]; simpl; [apply wo_pure|].
  apply wo_bind.
  - intros x Hx. left. symmetry.
    exact (recent_to_dirs_writes w dry_run f _ _ x Hx).
  - intros n. apply wo_bind; [|intros m; apply wo_pure].
    intros x Hx. right. exact (IH x Hx).
Qed.

Lemma restore_recent_projects_writes w backup_file dry_run :
  writes_ok (fun x => is_recent (fst x) = true)
            (restore_recent_projects w backup_file dry_run).
Proof.
  unfold restore_recent_projects.
  destruct (negb (path_exists w backup_file)); [repeat wo_step|].
  destruct (archive w) as [names|]; [|apply wo_raise].
  set (l := filter (fun n => PyStr.startswith n recent_prefix) names).
  assert (Hl : forall f, In f l -> is_recent f = true)
    by (intros f Hf; apply filter_In in Hf as [_ Hf]; exact Hf).
  destruct l as [|f0 l0] eqn:El; [repeat wo_step|].
  apply wo_bind; [apply wo_tell | intros _].
  destruct (config_dirs w); [repeat wo_step|].
  apply wo_bind.
  - intros x Hx. apply Hl. exact (recent_loop_writes w dry_run _ x Hx).
  - intros n. destruct (0 <? n)%nat; repeat wo_step.
Qed.

Lemma global_files_loop_writes w dry_run config_dir files :
  writes_ok (fun x => In (fst x) files)
            (global_files_loop w dry_run config_dir files).
Proof.
  induction files as [|f l IH]; simpl; [apply wo_pure|].
  apply wo_bind.
  - destruct dry_run; [repeat wo_step|].
    destruct (extract_ok w _ _); [|repeat wo_step].
    apply wo_bind; [apply wo_wrote; left; reflexivity | intros _].
    repeat wo_step.
  - intros n. apply wo_bind; [|intros m; apply wo_pure].
    intros x Hx. right. exact (IH x Hx).
Qed.

Lemma global_versions_loop_writes w dry_run global_files versions :
  writes_ok (fun x => In (fst x) global_files)
            (global_versions_loop w dry_run global_files versions).
Proof.
  induction versions as [|v l IH]; simpl; [apply wo_pure|].
  apply wo_bind.
  - destruct (filter _ (config_dirs w)) as [|config_dir ?]; [repeat wo_step|].
    apply wo_bind; [apply wo_tell | intros _].
    intros x Hx. apply global_files_loop_writes in Hx.
    apply filter_In in Hx as [Hx _]. exact Hx.
  - intros n. apply wo_bind; [exact IH | intros m; apply wo_pure].
Qed.

Lemma restore_global_settings_writes w backup_file dry_run :
  writes_ok (fun x => is_global (fst x) = true)
            (restore_global_settings w backup_file dry_run).
Proof.
  unfold restore_global_settings.
  destruct (negb (path_exists w backup_file)); [repeat wo_step|].
  destruct (archive w) as [names|]; [|apply wo_raise].
  set (l := filter (fun n => PyStr.startswith n global_prefix) names).
  assert (Hl : forall f, In f l -> is_global f = true)
    by (intros f Hf; apply filter_In in Hf as [_ Hf]; exact Hf).
  destruct l as [|f0 l0] eqn:El; [repeat wo_step|].
  apply wo_bind; [apply wo_tell | intros _].
  destruct (config_dirs w); [repeat wo_step|].
  apply wo_bind.
  - intros x Hx. apply Hl.
    exact (global_versions_loop_writes w dry_run _ _ x Hx).
  - intros n. destruct (0 <? n)%nat; repeat wo_step.
Qed.

Lemma wo_weaken {A} (P Q : string * string -> Prop) (m : eff A) :
  writes_ok P m -> (forall x, P x -> Q x) -> writes_ok Q m.
Proof. intros H HPQ x Hx. apply HPQ, H, Hx. Qed.

(** *** Reserved prefixes *)

Lemma rfind_slash_none s :
  PyStr.rfind "/"%char s = None -> has_slash s = false.
Proof.
  induction s as [|c s IH]; simpl; [reflexivity|].
  destruct (PyStr.rfind "/"%char s); [discriminate|].
  destruct (Ascii.eqb c "/"%char); [discriminate|].
  intros _. apply IH. reflexivity.
Qed.

Lemma rfind_slash_some s i :
  PyStr.rfind "/"%char s = Some i -> has_slash (PyStr.drop (S i) s) = false.
Proof.
  revert i. induction s as [|c s IH]; simpl; intros i; [discriminate|].
  destruct (PyStr.rfind "/"%char s) as [j|] eqn:Hr.
  - intros H. injection H as <-. apply IH. reflexivity.
  - destruct (Ascii.eqb c "/"%char); [|discriminate].
    intros H. injection H as <-. simpl.
    apply rfind_slash_none. exact Hr.
Qed.

Lemma basename_no_slash p : has_slash (OsPath.basename p) = false.
Proof.
  unfold OsPath.basename. destruct (PyStr.rfind "/"%char p) as [i|] eqn:Hr.
  - apply rfind_slash_some. exact Hr.
  - apply rfind_slash_none. exact Hr.
Qed.

Lemma prefix_cons a s b t :
  String.prefix (String a s) (String b t) = true
  <-> a = b /\ String.prefix s t = true.
Proof.
  cbn [String.prefix]. destruct (ascii_dec a b) as [Heq|Hne].
  - split; [auto | intros [_ H]; exact H].
  - split; [discriminate | intros [H _]; contradiction].
Qed.

(** Two prefixes of one name that end their first segment with a
    slash have the same first segment. *)
Lemma first_segment_unique b r p q z :
  has_slash b = false -> has_slash r = false ->
  String.prefix (String.append b (String "/"%char p)) z = true ->
  String.prefix (String.append r (String "/"%char q)) z = true ->
  b = r.
Proof.
  revert b r. induction z as [|x z IH]; intros b r Hb Hr H1 H2.
  - destruct b; discriminate.
  - destruct b as [|c b]; destruct r as [|c' r];
      cbn [String.append] in H1, H2;
      apply prefix_cons in H1 as [E1 H1]; apply prefix_cons in H2 as [E2 H2].
    + reflexivity.
    + subst x c'. discriminate.
    + subst x c. discriminate.
    + subst c c'. cbn [has_slash] in Hb, Hr.
      apply orb_false_elim in Hb as [_ Hb]. apply orb_false_elim in Hr as [_ Hr].
      f_equal. apply (IH b r); assumption.
Qed.

Lemma project_entry_not_reserved projects_dir project_name z :
  OsPath.basename projects_dir <> "_pycharm_recent_projects" ->
  OsPath.basename projects_dir <> "_pycharm_global_settings" ->
  PyStr.startswith z
    (String.append (OsPath.basename projects_dir)
       (String.append "/" project_name)) = true ->
  is_recent z = false /\ is_global z = false.
Proof.
  intros Hr Hg Hz. unfold PyStr.startswith in Hz.
  change (String.append "/" project_name)
    with (String "/"%char project_name) in Hz.
  pose proof (basename_no_slash projects_dir) as Hb.
  split.
  - destruct (is_recent z) eqn:H; [|reflexivity]. exfalso. apply Hr.
    apply (first_segment_unique _ "_pycharm_recent_projects" project_name ""
                                z Hb eq_refl Hz H).
  - destruct (is_global z) eqn:H; [|reflexivity]. exfalso. apply Hg.
    apply (first_segment_unique _ "_pycharm_global_settings" project_name ""
                                z Hb eq_refl Hz H).
Qed.

Lemma recent_not_global z : is_recent z = true -> is_global z = false.
Proof.
  intros H. destruct (is_global z) eqn:Hg; [|reflexivity].
  pose proof (first_segment_unique "_pycharm_recent_projects"
                "_pycharm_global_settings" "" "" z eq_refl eq_refl H Hg).
  discriminate.
Qed.

(** C4, as the code has it.  The listing holds, each once, the
    second segments of the entries that do not lie under a
    reserved first segment (the first segment is the name of the
    projects directory).  Restoring "all" writes entries under a
    reserved segment only through the flag of that segment. *)
Theorem project_listing_and_restore_all :
  forall (w : world) (backup_file projects_dir : string)
         (names : list string)
         (restore_recent_projects_files restore_global_settings_files
          dry_run : bool),
    path_exists w backup_file = true ->
    archive w = Some names ->
    OsPath.basename projects_dir <> "_pycharm_recent_projects" ->
    OsPath.basename projects_dir <> "_pycharm_global_settings" ->
    (exists listing,
        value (list_projects_in_backup w backup_file) = Some listing
        /\ NoDup listing
        /\ forall p,
            In p listing
            <-> exists filename,
                In filename names /\ project_of_entry filename = Some p)
    /\ forall zip_path target_path,
        In (zip_path, target_path)
           (writes (restore_projects w projects_dir (Name "all") backup_file
                      restore_recent_projects_files
                      restore_global_settings_files dry_run)) ->
        (is_recent zip_path = true -> restore_recent_projects_files = true)
        /\ (is_global zip_path = true
            -> restore_global_settings_files = true).
Proof.
  intros w backup_file projects_dir names rr rg dry He Ha Hr Hg.
  destruct (list_projects_value w backup_file names He Ha) as [Hv Hw].
  destruct (collect_projects_spec names) as [Hnd Hin].
  split.
  - exists (sorted (collect_projects names)).
    split; [exact Hv|]. split; [apply sorted_NoDup; exact Hnd|].
    intros p. rewrite sorted_In. apply Hin.
  - intros zip_path target_path Hx.
    set (P := fun x : string * string =>
                (is_recent (fst x) = true -> rr = true)
                /\ (is_global (fst x) = true -> rg = true)).
    change (P (zip_path, target_path)).
    revert Hx. generalize (zip_path, target_path). 
    change (writes_ok P (restore_projects w projects_dir (Name "all")
                           backup_file rr rg dry)).
    unfold restore_projects. cbn [PyStr.lower PyStr.lower_char String.eqb].
    change (String.eqb (PyStr.lower "all") "all") with true. cbn iota.
    rewrite He. cbn [negb].
    apply wo_bind.
    { apply wo_bind; [intros x Hx; rewrite Hw in Hx; contradiction | intros ps].
      repeat wo_step. }
    intros projects. apply wo_bind.
    { apply (wo_weaken _ P _ (projects_loop_writes w projects_dir dry names
                                projects Ha)).
      intros x (_ & pn & Hp).
      destruct (project_entry_not_reserved _ _ _ Hr Hg Hp) as [H1 H2].
      split; intros H; congruence. }
    intros n. apply wo_bind.
    { destruct rr; [|apply wo_pure].
      apply wo_bind; [|intros ?; apply wo_pure].
      apply (wo_weaken _ P _ (restore_recent_projects_writes w backup_file dry)).
      intros x Hx. split; [reflexivity|].
      intros H. rewrite (recent_not_global _ Hx) in H. discriminate. }
    intros _. apply wo_bind.
    { destruct rg; [|apply wo_pure].
      apply wo_bind; [|intros ?; apply wo_pure].
      apply (wo_weaken _ P _ (restore_global_settings_writes w backup_file dry)).
      intros x Hx. split; [|reflexivity].
      intros H. rewrite (recent_not_global _ H) in Hx. discriminate. }
    intros _. repeat wo_step.
Qed.

Lemma project_listing_and_restore_all_witness :
  let w := Samples.restore_world Samples.full_archive in
  let projects_dir := "/home/dev/PycharmProjects" in
  (path_exists w "backup.zip" = true
   /\ archive w = Some Samples.full_archive
   /\ OsPath.basename projects_dir <> "_pycharm_recent_projects"
   /\ OsPath.basename projects_dir <> "_pycharm_global_settings")
  /\ (value (list_projects_in_backup w "backup.zip") = Some ["app"]
      /\ forall zip_path target_path,
          In (zip_path, target_path)
             (writes (restore_projects w projects_dir (Name "all")
                        "backup.zip" false false false)) ->
          is_recent zip_path = false /\ is_global zip_path = false).
Proof.
  intros w projects_dir.
  assert (H3 : OsPath.basename projects_dir <> "_pycharm_recent_projects")
    by (vm_compute; discriminate).
  assert (H4 : OsPath.basename projects_dir <> "_pycharm_global_settings")
    by (vm_compute; discriminate).
  split; [repeat split; assumption|].
  split; [reflexivity|].
  intros zip_path target_path Hin.
  destruct (project_listing_and_restore_all w "backup.zip" projects_dir
              Samples.full_archive false false false
              eq_refl eq_refl H3 H4) as [_ Hw].
  destruct (Hw zip_path target_path Hin) as [Hr Hg].
  split.
  - destruct (is_recent zip_path); [symmetry; apply Hr|]; reflexivity.
  - destruct (is_global zip_path); [symmetry; apply Hg|]; reflexivity.
Defined.

(** C4, as stated, fails in its first part: the listing does not
    hold the top-level segments of the project entries.  In a
    backup of /home/dev/PycharmProjects the top-level segment of
    every project entry is [PycharmProjects], and the listing is
    [app]. *)
Lemma listing_is_not_top_level_segments :
  value (list_projects_in_backup
           (Samples.restore_world Samples.full_archive) "backup.zip")
  = Some ["app"]
  /\ map (fun n => hd "" (PyStr.split "/"%char n))
         (filter (fun n => negb (is_recent n || is_global n))
                 Samples.full_archive)
     = ["PycharmProjects"; "PycharmProjects"].
Proof. split; reflexivity. Qed.

(** An extraction that fails inside [restore_project] is not
    handled there: the exception leaves [restore_projects]. *)
Example restore_project_failure_escapes :
  let w := mkWorld (fun _ => true) (Some Samples.full_archive) []
             (fun filename start =>
                PyStr.drop (S (String.length start)) filename)
             (fun zip_path _ =>
                negb (String.eqb zip_path "PycharmProjects/app/.idea/misc.xml")) in
  value (restore_project w "/home/dev/PycharmProjects" "app" false) = None
  /\ value (restore_projects w "/home/dev/PycharmProjects" (Name "all")
              "backup.zip" false false false) = None.
Proof. split; reflexivity. Qed.

(** A dry run of [restore_projects] reports success and writes
    nothing. *)
Example restore_projects_dry_run :
  let r := restore_projects (Samples.restore_world Samples.full_archive)
             "/home/dev/PycharmProjects" (Name "all") "backup.zip"
             false false true in
  value r = Some true /\ writes r = [].
Proof. split; reflexivity. Qed.

End Namespaces.

(** * Further properties *)

(** ** Creating a configuration backup *)

Section CreateBackup.
Import ConfigBackup Notions.

Lemma write_all_result w todo written :
  fst (write_all w todo written)
  = forallb (fun p => write_ok w (fst p)) todo.
Proof.
  revert written. induction todo as [|[file arc] l IH]; simpl; intros written.
  - reflexivity.
  - destruct (write_ok w file); [apply IH | reflexivity].
Qed.

Lemma write_all_stops w l1 file arc l2 written :
  forallb (fun p => write_ok w (fst p)) l1 = true ->
  write_ok w file = false ->
  write_all w (l1 ++ (file, arc) :: l2) written
  = (false, written ++ map snd l1).
Proof.
  revert written. induction l1 as [|[f a] l IH]; simpl; intros written Hl Hf.
  - rewrite Hf, app_nil_r. reflexivity.
  - apply andb_prop in Hl as [H1 H2]. rewrite H1, IH by assumption.
    rewrite <- app_assoc. reflexivity.
Qed.

Lemma create_backup_unfold w r g dry :
  create_backup w r g dry
  = if negb (projects_dir_is_dir w)
    then mkOutcome false None [(ERROR, "Directory not found")]
    else if negb (output_dir_ready w)
    then mkOutcome false None [(ERROR, "Failed to create output directory")]
    else if Nat.eqb (List.length (backup_plan w r g)) 0
    then mkOutcome false None
           [(WARNING, "No PyCharm configuration files found to back up")]
    else if dry
    then mkOutcome true None
           [(INFO, "DRY RUN: Would back up configuration files")]
    else if negb (zip_open_ok w)
    then mkOutcome false None [(ERROR, "Failed to create backup")]
    else
      let written := write_all w (backup_plan w r g) [] in
      if negb (fst written)
      then mkOutcome false (Some (snd written))
             [(ERROR, "Failed to create backup")]
      else
        let v := verify_backup (reopen w (snd written))
                   (map fst (backup_plan w r g)) in
        if negb (fst v)
        then mkOutcome false (Some (snd written))
               ((snd v ++ [(INFO, "Backup created")])
                ++ [(WARNING,
                     "Backup verification failed. The backup may be incomplete or corrupted.")])
        else mkOutcome true (Some (snd written))
               (snd v ++ [(INFO, "Backup created")]).
Proof.
  unfold create_backup. rewrite backup_plan_length, backup_plan_sources.
  reflexivity.
Qed.

(** X1. [create_backup] returns [True] in exactly two cases, the
    projects directory and the output directory being there and
    something being found to back up: in a dry run; or when the
    container opens, every write succeeds and the verification of
    what is read back passes. *)
Theorem create_backup_succeeds_iff :
  forall (w : world) (backup_recent_projects backup_global_settings
                      dry_run : bool),
    let plan := backup_plan w backup_recent_projects backup_global_settings in
    ret (create_backup w backup_recent_projects backup_global_settings dry_run)
    = true
    <-> projects_dir_is_dir w = true
        /\ output_dir_ready w = true
        /\ plan <> []
        /\ (dry_run = true
            \/ (zip_open_ok w = true
                /\ forallb (fun p => write_ok w (fst p)) plan = true
                /\ fst (verify_backup (reopen w (map snd plan)) (map fst plan))
                   = true)).
Proof.
  intros w r g dry plan. rewrite create_backup_unfold. fold plan.
  destruct (projects_dir_is_dir w); cbn [negb];
    [|split; [discriminate | intros (H & _); discriminate]].
  destruct (output_dir_ready w); cbn [negb];
    [|split; [discriminate | intros (_ & H & _); discriminate]].
  destruct plan as [|x plan'] eqn:Hplan; cbn [List.length Nat.eqb];
    [split; [discriminate | intros (_ & _ & H & _); contradiction]|].
  rewrite <- Hplan.
  destruct dry; [cbn [ret]; split; [intros _|reflexivity];
                 repeat split; auto; rewrite Hplan; discriminate|].
  destruct (zip_open_ok w); cbn [negb].
  2:{ split; [discriminate|]. intros (_ & _ & _ & [H|(H & _)]); discriminate. }
  cbv zeta. rewrite write_all_result.
  destruct (forallb (fun p => write_ok w (fst p)) plan) eqn:Hall; cbn [negb].
  2:{ split; [discriminate|].
      intros (_ & _ & _ & [H|(_ & H & _)]); discriminate. }
  assert (Hw : snd (write_all w plan []) = map snd plan)
    by (rewrite (write_all_ok w plan [] Hall); reflexivity).
  rewrite Hw.
  destruct (fst (verify_backup (reopen w (map snd plan)) (map fst plan)));
    cbn [negb ret].
  - split; [intros _|reflexivity].
    repeat split; auto; rewrite Hplan; discriminate.
  - split; [discriminate|].
    intros (_ & _ & _ & [H|(_ & _ & H)]); discriminate.
Qed.

(** X2. When a write fails, [create_backup] returns [False] and
    leaves the container with the entries written before the
    failure, in order: a partial archive stays on disk. *)
Theorem create_backup_keeps_partial_archive :
  forall (w : world) (backup_recent_projects backup_global_settings : bool)
         (done : list (string * string)) (file arc : string)
         (rest : list (string * string)),
    projects_dir_is_dir w = true ->
    output_dir_ready w = true ->
    zip_open_ok w = true ->
    backup_plan w backup_recent_projects backup_global_settings
    = done ++ (file, arc) :: rest ->
    forallb (fun p => write_ok w (fst p)) done = true ->
    write_ok w file = false ->
    create_backup w backup_recent_projects backup_global_settings false
    = mkOutcome false (Some (map snd done))
        [(ERROR, "Failed to create backup")].
Proof.
  intros w r g done file arc rest Hdir Hout Hopen Hplan Hdone Hfile.
  rewrite create_backup_unfold, Hdir, Hout, Hopen, Hplan. cbn [negb].
  rewrite length_app. cbn [List.length].
  replace (Nat.eqb (List.length done + S (List.length rest)) 0) with false
    by (symmetry; apply Nat.eqb_neq; lia).
  cbv zeta. rewrite (write_all_stops w done file arc rest [] Hdone Hfile).
  reflexivity.
Qed.

Lemma create_backup_keeps_partial_archive_witness :
  let w := Samples.two_idea_files
             (fun f => negb (String.eqb f "/p/app/.idea/vcs.xml"))
             (fun names => Some names) in
  (projects_dir_is_dir w = true /\ output_dir_ready w = true
   /\ zip_open_ok w = true
   /\ backup_plan w true true
      = [("/p/app/.idea/misc.xml", "p/app/.idea/misc.xml")]
        ++ ("/p/app/.idea/vcs.xml", "p/app/.idea/vcs.xml") :: []
   /\ write_ok w "/p/app/.idea/vcs.xml" = false)
  /\ create_backup w true true false
     = mkOutcome false (Some ["p/app/.idea/misc.xml"])
         [(ERROR, "Failed to create backup")].
Proof.
  intros w. split; [repeat split; reflexivity|].
  apply (create_backup_keeps_partial_archive w true true
           [("/p/app/.idea/misc.xml", "p/app/.idea/misc.xml")]
           "/p/app/.idea/vcs.xml" "p/app/.idea/vcs.xml" []);
    reflexivity.
Defined.

(** X3. When every write succeeds and the container reads back as
    it was written, [create_backup] returns [True] and the container
    holds one entry per planned file, in the order project files,
    recent-projects lists, global settings: the count check of the
    verification cannot fail then. *)
Theorem create_backup_writes_the_plan :
  forall (w : world) (backup_recent_projects backup_global_settings : bool),
    let plan := backup_plan w backup_recent_projects backup_global_settings in
    projects_dir_is_dir w = true ->
    output_dir_ready w = true ->
    zip_open_ok w = true ->
    plan <> [] ->
    forallb (fun p => write_ok w (fst p)) plan = true ->
    reopen w (map snd plan) = Some (map snd plan) ->
    create_backup w backup_recent_projects backup_global_settings false
    = mkOutcome true (Some (map snd plan))
        [(INFO, "Verifying backup integrity...");
         (INFO, "Backup verification passed");
         (INFO, "Backup created")].
Proof.
  intros w r g plan Hdir Hout Hopen Hne Hall Hre.
  rewrite create_backup_unfold, Hdir, Hout, Hopen. fold plan. cbn [negb].
  assert (Hlen : Nat.eqb (List.length plan) 0 = false)
    by (clearbody plan; destruct plan; [contradiction | reflexivity]).
  rewrite Hlen. cbv zeta.
  rewrite (write_all_ok w plan [] Hall). cbn [fst snd negb app].
  rewrite Hre. unfold verify_backup. rewrite !length_map.
  rewrite Nat.ltb_irrefl. reflexivity.
Qed.

Lemma create_backup_writes_the_plan_witness :
  let w := Samples.two_idea_files (fun _ => true) (fun names => Some names) in
  (projects_dir_is_dir w = true /\ output_dir_ready w = true
   /\ zip_open_ok w = true /\ backup_plan w true true <> []
   /\ forallb (fun p => write_ok w (fst p)) (backup_plan w true true) = true
   /\ reopen w (map snd (backup_plan w true true))
      = Some (map snd (backup_plan w true true)))
  /\ create_backup w true true false
     = mkOutcome true (Some ["p/app/.idea/misc.xml"; "p/app/.idea/vcs.xml"])
         [(INFO, "Verifying backup integrity...");
          (INFO, "Backup verification passed");
          (INFO, "Backup created")].
Proof.
  intros w.
  assert (H4 : backup_plan w true true <> []) by discriminate.
  split; [repeat split; try reflexivity; exact H4|].
  exact (create_backup_writes_the_plan w true true
           eq_refl eq_refl eq_refl H4 eq_refl eq_refl).
Defined.

End CreateBackup.

(** ** The backups of a directory *)

Section BackupDirectory.
Import ConfigBackup Notions More.

Lemma insert_by_mtime_perm x l : Permutation (insert_by_mtime x l) (x :: l).
Proof.
  induction l as [|y l IH]; simpl; [apply Permutation_refl|].
  destruct (snd y >? snd x)%Z; [|apply Permutation_refl].
  apply perm_trans with (y :: x :: l); [|apply perm_swap].
  apply perm_skip. exact IH.
Qed.

Lemma sort_newest_first_perm l : Permutation (sort_newest_first l) l.
Proof.
  induction l as [|x l IH]; simpl; [apply perm_nil|].
  apply perm_trans with (x :: sort_newest_first l);
    [apply insert_by_mtime_perm | apply perm_skip; exact IH].
Qed.

Lemma insert_by_mtime_sorted x l :
  StronglySorted newer_first l ->
  StronglySorted newer_first (insert_by_mtime x l).
Proof.
  induction 1 as [|y l Hl IH Hy]; simpl.
  - constructor; [constructor | constructor].
  - destruct (Z.gtb_spec (snd y) (snd x)) as [Hgt|Hle].
    + constructor; [exact IH|].
      rewrite Forall_forall in Hy |- *. intros z Hz.
      apply insert_by_mtime_In in Hz as [->|Hz];
        [unfold newer_first; lia | apply Hy; exact Hz].
    + constructor; [constructor; assumption|].
      constructor; [unfold newer_first; lia|].
      rewrite Forall_forall in Hy |- *. intros z Hz.
      specialize (Hy z Hz). unfold newer_first in *. lia.
Qed.

Lemma sort_newest_first_sorted l :
  StronglySorted newer_first (sort_newest_first l).
Proof.
  induction l as [|x l IH]; simpl; [constructor|].
  apply insert_by_mtime_sorted. exact IH.
Qed.

Lemma StronglySorted_split {A} (R : A -> A -> Prop) n l x y :
  StronglySorted R l -> In x (firstn n l) -> In y (skipn n l) -> R x y.
Proof.
  intros H. revert n. induction H as [|a l Hl IH Ha]; intros n Hx Hy.
  - destruct n; contradiction.
  - destruct n as [|n]; [contradiction|]. simpl in Hx, Hy.
    destruct Hx as [<-|Hx]; [|apply (IH n); assumption].
    rewrite Forall_forall in Ha. apply Ha. apply In_skipn in Hy. exact Hy.
Qed.

Lemma removal_fold (remove_ok : string -> bool) old :
  forall acc,
    fst (fold_left
           (fun (acc : list string * list log_entry) (old_backup : dirent) =>
              let lg := snd acc ++
                [(INFO, String.append "Removing old backup: "
                          (fst old_backup))] in
              if remove_ok (fst old_backup)
              then (fst acc ++ [fst old_backup], lg)
              else (fst acc,
                    lg ++ [(ERROR,
                            String.append "Failed to remove old backup "
                              (fst old_backup))]))
           old acc)
    = fst acc ++ filter remove_ok (map fst old).
Proof.
  induction old as [|o old IH]; simpl; intros acc.
  - rewrite app_nil_r. reflexivity.
  - rewrite IH. destruct (remove_ok (fst o)); simpl;
      [rewrite <- app_assoc|]; reflexivity.
Qed.

(** X4. With a positive [max_backups], [clean_old_backups] removes,
    of the files that match its pattern, those that come after the
    [max_backups] newest (and that [os.remove] can remove): the
    newest [max_backups] are never removed, and no file removed is
    newer than a file kept. *)
Theorem clean_old_backups_removes_oldest :
  forall (max_backups : Z) (listdir : list dirent)
         (remove_ok : string -> bool),
    (0 < max_backups)%Z ->
    let matching := filter (fun f => re_match clean_pattern (fst f)) listdir in
    let newest := sort_newest_first matching in
    let n := Z.to_nat max_backups in
    fst (clean_old_backups max_backups listdir remove_ok)
    = filter remove_ok (map fst (skipn n newest))
    /\ Permutation newest matching
    /\ forall kept old,
        In kept (firstn n newest) -> In old (skipn n newest) ->
        (snd old <= snd kept)%Z.
Proof.
  intros max_backups listdir remove_ok Hpos matching newest n.
  split; [|split].
  - unfold clean_old_backups. fold matching. fold newest. fold n.
    replace (max_backups <=? 0)%Z with false by (symmetry; apply Z.leb_gt; lia).
    destruct (Z.leb_spec (Z.of_nat (List.length matching)) max_backups)
      as [Hle|Hgt].
    + rewrite skipn_all2; [reflexivity|].
      unfold newest. rewrite (Permutation_length (sort_newest_first_perm _)).
      unfold n. apply Nat2Z.inj_le. rewrite Z2Nat.id by lia. exact Hle.
    + rewrite removal_fold. reflexivity.
  - apply sort_newest_first_perm.
  - intros kept old Hk Ho.
    apply (StronglySorted_split newer_first n newest kept old);
      [apply sort_newest_first_sorted | exact Hk | exact Ho].
Qed.

Lemma clean_old_backups_removes_oldest_witness :
  let listdir :=
    [("pycharm_idea_backup_05_03_2024.zip", 10%Z);
     ("notes.txt", 50%Z);
     ("pycharm_idea_backup_07_03_2024.zip", 30%Z);
     ("pycharm_idea_backup_04_03_2024.zip", 5%Z);
     ("pycharm_idea_backup_06_03_2024.zip", 20%Z)] in
  (0 < 2)%Z
  /\ fst (clean_old_backups 2 listdir (fun _ => true))
     = ["pycharm_idea_backup_05_03_2024.zip";
        "pycharm_idea_backup_04_03_2024.zip"].
Proof.
  intros listdir.
  assert (H : (0 < 2)%Z) by lia.
  split; [exact H|].
  destruct (clean_old_backups_removes_oldest 2 listdir (fun _ => true) H)
    as [Hr _].
  exact Hr.
Defined.

(** X5. [list_backups] returns the names that match its pattern,
    each as often as it is listed, ordered by modification time,
    newest first. *)
Theorem list_backups_newest_first :
  forall (listdir : list dirent),
    let matching := filter (fun f => re_match list_pattern (fst f)) listdir in
    exists l,
      list_backups listdir = map fst l
      /\ Permutation l matching
      /\ StronglySorted newer_first l.
Proof.
  intros listdir matching. exists (sort_newest_first matching).
  split; [reflexivity|].
  split; [apply sort_newest_first_perm | apply sort_newest_first_sorted].
Qed.

End BackupDirectory.

(** ** Restoring a configuration backup *)

Section ConfigRestoreMore.
Import Eff ConfigRestore Notions More.
Local Open Scope eff_scope.

Lemma insert_sorted_Sorted x l :
  Sorted (fun a b => String.leb a b = true) l ->
  Sorted (fun a b => String.leb a b = true) (insert_sorted x l).
Proof.
  induction l as [|y l IH]; simpl; intros Hs.
  - constructor; constructor.
  - destruct (String.leb x y) eqn:Hxy.
    + constructor; [exact Hs | constructor; exact Hxy].
    + assert (Hyx : String.leb y x = true)
        by (destruct (String.leb_total x y) as [H|H]; [congruence | exact H]).
      apply Sorted_inv in Hs as [Hl Hhd].
      constructor; [apply IH; exact Hl|].
      destruct l as [|z l']; simpl; [constructor; exact Hyx|].
      destruct (String.leb x z); constructor; [exact Hyx|].
      inversion Hhd; assumption.
Qed.

Lemma sorted_Sorted l : Sorted (fun a b => String.leb a b = true) (sorted l).
Proof.
  induction l as [|x l IH]; simpl; [constructor|].
  apply insert_sorted_Sorted. exact IH.
Qed.

(** X6. [list_projects_in_backup] always returns a list and never
    writes: the project names come in ascending order, each once,
    and a missing or unreadable backup file gives the empty list. *)
Theorem list_projects_in_backup_sorted :
  forall (w : world) (backup_file : string),
  exists listing,
    value (list_projects_in_backup w backup_file) = Some listing
    /\ writes (list_projects_in_backup w backup_file) = []
    /\ Sorted (fun a b => String.leb a b = true) listing
    /\ NoDup listing
    /\ (path_exists w backup_file && match archive w with
                                     | Some _ => true
                                     | None => false
                                     end = false ->
        listing = []).
Proof.
  intros w backup_file. unfold list_projects_in_backup.
  destruct (path_exists w backup_file); cbn [negb andb].
  - destruct (archive w) as [names|].
    + exists (sorted (collect_projects names)).
      split; [|split; [|split; [apply sorted_Sorted|split]]].
      * destruct (has_prefix recent_prefix names);
          destruct (has_prefix global_prefix names); reflexivity.
      * destruct (has_prefix recent_prefix names);
          destruct (has_prefix global_prefix names); reflexivity.
      * apply sorted_NoDup. apply collect_projects_spec.
      * discriminate.
    + exists []. repeat split; constructor.
  - exists []. repeat split; constructor.
Qed.

(** *** Dry runs *)

Ltac dry_step :=
  first [ apply wo_pure | apply wo_raise | apply wo_tell
        | apply wo_bind; [|intros ?] ].



Lemma recent_to_dirs_dry w file_path file_name dirs :
  writes_ok (fun _ => False) (recent_to_dirs w true file_path file_name dirs).
Proof.
  induction dirs as [|d l IH]; simpl; [repeat dry_step|].
  apply wo_bind; [apply wo_tell | intros _].
  apply wo_bind; [exact IH | intros n; apply wo_pure].
Qed.








End ConfigRestoreMore.

(** ** Where a restore writes *)

Section RestoreTargets.
Import Eff ConfigRestore Notions More.
Local Open Scope eff_scope.

Lemma value_bind {A B} (m : eff A) (f : A -> eff B) :
  value (bind m f)
  = match value m with Some a => value (f a) | None => None end.
Proof. unfold bind. destruct (value m); reflexivity. Qed.

Lemma writes_bind {A B} (m : eff A) (f : A -> eff B) :
  writes (bind m f)
  = writes m ++ match value m with Some a => writes (f a) | None => [] end.
Proof.
  unfold bind. destruct (value m); simpl; [|rewrite app_nil_r]; reflexivity.
Qed.

Lemma extract_all_ok w files :
  (forall x, In x files -> extract_ok w (fst x) (snd x) = true) ->
  value (extract_all w files) = Some tt /\ writes (extract_all w files) = files.
Proof.
  induction files as [|[z t] l IH]; simpl; intros H; [split; reflexivity|].
  assert (Hzt : extract_ok w z t = true) by (apply (H (z, t)); left; reflexivity).
  rewrite Hzt.
  destruct IH as [Hv Hw]; [intros x Hx; apply H; right; exact Hx|].
  rewrite !value_bind, !writes_bind. simpl. rewrite Hv, Hw. split; reflexivity.
Qed.

(** X8. Outside a dry run, when the project and its [.idea]
    directory exist and every copy succeeds, [restore_project]
    writes exactly the entries whose name begins with
    [<basename of the projects directory>/<project>], in archive
    order, each to [.idea] joined with its path relative to that
    prefix, and returns [True].  The test is on the beginning of the
    name only, so the entries of a project whose name extends the
    given one are written too. *)
Theorem restore_project_writes_prefix_matches :
  forall (w : world) (projects_dir project_name : string)
         (names : list string),
    let idea_dir :=
      OsPath.join (OsPath.join projects_dir project_name) ".idea" in
    let prefix :=
      String.append (OsPath.basename projects_dir)
                    (String.append "/" project_name) in
    let target := fun filename =>
      OsPath.join idea_dir (relpath w filename prefix) in
    let matches := filter (fun filename => PyStr.startswith filename prefix)
                          names in
    path_exists w (OsPath.join projects_dir project_name) = true ->
    path_exists w idea_dir = true ->
    archive w = Some names ->
    matches <> [] ->
    (forall filename, In filename matches ->
                      extract_ok w filename (target filename) = true) ->
    value (restore_project w projects_dir project_name false) = Some true
    /\ writes (restore_project w projects_dir project_name false)
       = map (fun filename => (filename, target filename)) matches.
Proof.
  intros w projects_dir project_name names idea_dir prefix target matches
         Hp Hi Ha Hne Hok.
  unfold restore_project. rewrite Hp. cbn [negb].
  fold idea_dir. rewrite Hi. cbn [negb]. rewrite Ha.
  fold prefix. fold matches.
  change (map (fun filename =>
                 (filename, OsPath.join idea_dir (relpath w filename prefix)))
              matches)
    with (map (fun filename => (filename, target filename)) matches).
  destruct (extract_all_ok w
              (map (fun filename => (filename, target filename)) matches))
    as [Hv Hw].
  { intros x Hx. apply in_map_iff in Hx as (f & <- & Hf). apply Hok. exact Hf. }
  destruct (map (fun filename => (filename, target filename)) matches)
    as [|x l] eqn:Hm.
  - clearbody matches. destruct matches; [contradiction | discriminate].
  - cbv iota. repeat (rewrite value_bind || rewrite writes_bind).
    rewrite Hv, Hw. cbn [tell pure value writes app].
    rewrite !app_nil_r. split; reflexivity.
Qed.

Lemma restore_project_writes_prefix_matches_witness :
  let w := alike_world in
  let projects_dir := "/home/dev/PycharmProjects" in
  (path_exists w (OsPath.join projects_dir "app") = true
   /\ path_exists w (OsPath.join (OsPath.join projects_dir "app") ".idea")
      = true
   /\ archive w = Some alike_archive)
  /\ (value (restore_project w projects_dir "app" false) = Some true
      /\ writes (restore_project w projects_dir "app" false)
         = [("PycharmProjects/app/.idea/misc.xml",
             "/home/dev/PycharmProjects/app/.idea/.idea/misc.xml");
            ("PycharmProjects/app2/.idea/misc.xml",
             "/home/dev/PycharmProjects/app/.idea/../app2/.idea/misc.xml")]).
Proof.
  intros w projects_dir.
  split; [repeat split; reflexivity|].
  apply (restore_project_writes_prefix_matches w projects_dir "app"
           alike_archive eq_refl eq_refl eq_refl).
  - discriminate.
  - intros filename _. reflexivity.
Defined.

Lemma recent_to_dirs_targets w dry_run file_path file_name dirs :
  writes_ok
    (fun x =>
       fst x = file_path
       /\ exists d rest,
           filter (fun d => path_exists w (OsPath.join d "options")) dirs
           = d :: rest
           /\ snd x = OsPath.join (OsPath.join d "options") file_name)
    (recent_to_dirs w dry_run file_path file_name dirs).
Proof.
  destruct dry_run.
  { eapply wo_weaken; [apply recent_to_dirs_dry | intros x []]. }
  induction dirs as [|d l IH]; simpl.
  - apply wo_bind; [apply wo_tell | intros _; apply wo_pure].
  - destruct (path_exists w (OsPath.join d "options")) eqn:Hd.
    + destruct (extract_ok w _ _); [|apply wo_raise].
      apply wo_bind.
      * apply wo_wrote. split; [reflexivity|].
        exists d, (filter (fun d => path_exists w (OsPath.join d "options")) l).
        split; reflexivity.
      * intros _. apply wo_bind; [apply wo_tell | intros _; apply wo_pure].
    + exact IH.
Qed.

Lemma recent_loop_targets w dry_run files :
  writes_ok
    (fun x =>
       In (fst x) files
       /\ exists d rest,
           filter (fun d => path_exists w (OsPath.join d "options"))
                  (config_dirs w) = d :: rest
           /\ snd x = OsPath.join (OsPath.join d "options")
                                  (OsPath.basename (fst x)))
    (recent_loop w dry_run files).
Proof.
  induction files as [|f l IH]; simpl; [apply wo_pure|].
  apply wo_bind.
  - eapply wo_weaken; [apply recent_to_dirs_targets|].
    intros x (Hf & d & rest & Hd & Ht). split; [left; symmetry; exact Hf|].
    exists d, rest. rewrite Hf. auto.
  - intros n. apply wo_bind; [|intros m; apply wo_pure].
    eapply wo_weaken; [exact IH|]. intros x (Hin & H). split; [right|]; assumption.
Qed.

Lemma restore_recent_projects_writes_targets w backup_file dry_run :
  writes_ok
    (fun x =>
       is_recent (fst x) = true
       /\ exists d rest,
           filter (fun d => path_exists w (OsPath.join d "options"))
                  (config_dirs w) = d :: rest
           /\ snd x = OsPath.join (OsPath.join d "options")
                                  (OsPath.basename (fst x)))
    (restore_recent_projects w backup_file dry_run).
Proof.
  unfold restore_recent_projects.
  destruct (negb (path_exists w backup_file));
    [apply wo_bind; [apply wo_tell | intros _; apply wo_pure]|].
  destruct (archive w) as [names|]; [|apply wo_raise].
  pose proof (recent_loop_targets w dry_run
                (filter (fun n => PyStr.startswith n recent_prefix) names))
    as Hloop.
  assert (Hl : forall f,
             In f (filter (fun n => PyStr.startswith n recent_prefix) names) ->
             is_recent f = true)
    by (intros f Hf; apply filter_In in Hf as [_ Hf]; exact Hf).
  destruct (filter (fun n => PyStr.startswith n recent_prefix) names)
    as [|f0 l0];
    [apply wo_bind; [apply wo_tell | intros _; apply wo_pure]|].
  apply wo_bind; [apply wo_tell | intros _].
  destruct (config_dirs w) as [|c cs];
    [apply wo_bind; [apply wo_tell | intros _; apply wo_pure]|].
  apply wo_bind.
  - eapply wo_weaken; [exact Hloop|].
    intros x (Hin & H). split; [apply Hl; exact Hin | exact H].
  - intros n. destruct (0 <? n)%nat;
      (apply wo_bind; [apply wo_tell | intros _; apply wo_pure]).
Qed.

(** X9. Whatever [restore_recent_projects] writes is an entry under
    the recent-projects prefix, and it goes to the options directory
    of the first configuration directory that has one, under its
    base name: the version in the entry name plays no part, so the
    lists of two versions land on the same file. *)
Theorem restore_recent_projects_targets :
  forall (w : world) (backup_file : string) (dry_run : bool)
         (zip_path target_path : string),
    In (zip_path, target_path)
       (writes (restore_recent_projects w backup_file dry_run)) ->
    is_recent zip_path = true
    /\ exists d rest,
        filter (fun d => path_exists w (OsPath.join d "options"))
               (config_dirs w) = d :: rest
        /\ target_path
           = OsPath.join (OsPath.join d "options") (OsPath.basename zip_path).
Proof.
  intros w backup_file dry_run zip_path target_path Hin.
  exact (restore_recent_projects_writes_targets w backup_file dry_run
           (zip_path, target_path) Hin).
Qed.

Lemma restore_recent_projects_targets_witness :
  let w := recent_world in
  writes (restore_recent_projects w "backup.zip" false)
  = [("_pycharm_recent_projects/PyCharm2023.3/recentProjects.xml",
      "/cfg/PyCharm2024.1/options/recentProjects.xml");
     ("_pycharm_recent_projects/PyCharm2024.1/recentProjects.xml",
      "/cfg/PyCharm2024.1/options/recentProjects.xml")]
  /\ exists d rest,
      filter (fun d => path_exists w (OsPath.join d "options")) (config_dirs w)
      = d :: rest
      /\ "/cfg/PyCharm2024.1/options/recentProjects.xml"
         = OsPath.join (OsPath.join d "options")
             (OsPath.basename
                "_pycharm_recent_projects/PyCharm2023.3/recentProjects.xml").
Proof.
  intros w. split; [reflexivity|].
  apply (restore_recent_projects_targets w "backup.zip" false
           "_pycharm_recent_projects/PyCharm2023.3/recentProjects.xml"
           "/cfg/PyCharm2024.1/options/recentProjects.xml").
  left. reflexivity.
Defined.






End RestoreTargets.


(** ** The statistics of a project backup *)

Section BackupStatistics.
Import Os FilePatternMatcher ProjectBackup Notions More.








End BackupStatistics.

(** ** The files decided on and the total counted beforehand *)

Section BackupTotals.
Import Os FilePatternMatcher ProjectBackup Notions More.











End BackupTotals.

(** ** What a container can hold *)

Section BackupPolicy.
Import Os FilePatternMatcher ProjectBackup Notions More.

Lemma fold_left_invariant_In {A} (I : scan -> Prop) (f : scan -> A -> scan)
      (l : list A) :
  (forall st x, In x l -> I st -> I (f st x)) ->
  forall st, I st -> I (fold_left f l st).
Proof.
  induction l as [|x l IH]; intros Hstep st H; [exact H|].
  cbn [fold_left]. apply IH.
  - intros st' y Hy. apply Hstep. right. exact Hy.
  - apply Hstep; [left; reflexivity | exact H].
Qed.

(** When [process_file] changes the container, it appends the entry
    of a file that passed every test. *)
Lemma process_file_zipf a w rel_path explicit venv st f z' :
  zipf (process_file a w rel_path explicit venv st f) = Some z' ->
  zipf st = Some z'
  \/ exists z n,
       zipf st = Some z
       /\ z' = z ++ [(PurePath.joinpath (pycharm_dir w ++ rel_path) (f_name f),
                      PurePath.joinpath rel_path (f_name f))]
       /\ should_exclude_file
            (PurePath.joinpath (pycharm_dir w ++ rel_path) (f_name f))
            (custom_excludes a) = false
       /\ st_size f = Some n
       /\ (n <= max_size_bytes a)%Z
       /\ zip_write_ok f = true
       /\ selected a w rel_path explicit venv (f_name f) = true.
Proof.
  destruct (should_exclude_file
              (PurePath.joinpath (pycharm_dir w ++ rel_path) (f_name f))
              (custom_excludes a)) eqn:Hex.
  { unfold process_file. rewrite Hex. destruct explicit; auto. }
  destruct (st_size f) as [n|] eqn:Hsz.
  2:{ unfold process_file. rewrite Hex, Hsz. destruct explicit; auto. }
  destruct (Z.le_gt_cases n (max_size_bytes a)) as [Hle|Hgt].
  2:{ rewrite (process_file_over_limit a w rel_path explicit venv st f n)
        by assumption. cbn. auto. }
  rewrite (process_file_within_limit a w rel_path explicit venv st f n)
    by assumption.
  destruct (selected a w rel_path explicit venv (f_name f)) eqn:Hsel; [|auto].
  unfold add_file, zip_write, with_stats.
  destruct (negb (dry_run a)); [|cbn; auto].
  destruct (zipf st) as [z|] eqn:Hz; [|rewrite Hz; auto].
  destruct (zip_write_ok f) eqn:Hok; [|rewrite Hz; auto].
  cbn [zipf]. intros Heq. injection Heq as <-. right.
  exists z, n. repeat split; auto.
Qed.

Lemma walk_keep_incl keep :
  forall t root e, In e (walk keep root t) -> In e (walk keep_all root t).
Proof.
  intros t. induction t as [files subdirs IH] using fs_tree_nested_ind.
  intros root e. rewrite !walk_unfold. intros [He|He]; [left; exact He|].
  right. apply in_flat_map in He as (ds & Hds & He).
  apply in_flat_map. exists ds. split; [exact Hds|].
  unfold keep_all at 1. rewrite Forall_forall in IH.
  destruct (keep root (fst ds)); [|contradiction].
  apply (IH ds Hds). exact He.
Qed.

(** Every directory visited lies below the root, through
    directories the pruning kept. *)
Lemma walk_keep_dirs keep (K : string -> Prop) :
  (forall r d, keep r d = true -> K d) ->
  forall t root e,
    In e (walk keep root t) ->
    exists q, fst (fst e) = root ++ q /\ Forall K q.
Proof.
  intros HK t. induction t as [files subdirs IH] using fs_tree_nested_ind.
  intros root e. rewrite walk_unfold. intros [He|He].
  - exists []. subst e. cbn. rewrite app_nil_r. auto.
  - apply in_flat_map in He as (ds & Hds & He).
    rewrite Forall_forall in IH.
    destruct (keep root (fst ds)) eqn:Hk; [|contradiction].
    destruct (IH ds Hds _ _ He) as (q & Hq & HKq).
    exists (fst ds :: q). rewrite Hq, <- app_assoc. split; [reflexivity|].
    constructor; [apply (HK root); exact Hk | exact HKq].
Qed.

Lemma process_file_module_paths a w rel_path explicit venv st f :
  module_paths (process_file a w rel_path explicit venv st f)
  = module_paths st.
Proof.
  assert (Hadd : forall fp zp c,
             module_paths (add_file a st f fp zp c) = module_paths st).
  { intros fp zp c. unfold add_file, with_stats.
    destruct (negb (dry_run a)); [|reflexivity].
    destruct (zip_write _ _ _ _); reflexivity. }
  unfold process_file.
  destruct explicit; destruct (should_exclude_file _ _); auto;
    destruct (st_size f); auto; destruct (_ >? _)%Z; auto.
  destruct (venv && include_venv a).
  - rewrite venv_loop_spec. destruct (existsb _ _); auto.
  - destruct (is_important_file _ _); auto.
Qed.

Lemma process_dir_module_paths a w st e :
  module_paths (process_dir a w st e) = module_paths st.
Proof.
  unfold process_dir.
  generalize (path_explicitly_included a (module_paths st) (fst (fst e))).
  intros b. revert st. induction (snd e) as [|f l IH]; intros st;
    [reflexivity|].
  cbn [fold_left]. rewrite IH. apply process_file_module_paths.
Qed.

(** X13. Every entry of the container a backup leaves is a file of
    one of the projects processed, stored under its path below the
    projects directory; the file is readable, no larger than the
    maximum size, and its path contains none of the custom exclusion
    patterns. *)
Theorem container_entries_within_policy :
  forall (a : args) (w : world) (entries : list zip_entry)
         (file_path zip_path : path),
    container (backup a w) = Some entries ->
    In (file_path, zip_path) entries ->
    file_path = pycharm_dir w ++ zip_path
    /\ should_exclude_file file_path (custom_excludes a) = false
    /\ exists f n,
         on_disk w a zip_path f
         /\ st_size f = Some n
         /\ (n <= max_size_bytes a)%Z
         /\ zip_write_ok f = true.
Proof.
  intros a w entries file_path zip_path Hc Hin.
  set (P := fun e : zip_entry =>
              fst e = pycharm_dir w ++ snd e
              /\ should_exclude_file (fst e) (custom_excludes a) = false
              /\ exists f n,
                   on_disk w a (snd e) f
                   /\ st_size f = Some n
                   /\ (n <= max_size_bytes a)%Z
                   /\ zip_write_ok f = true).
  set (I := fun st : scan => forall z, zipf st = Some z -> Forall P z).
  assert (H : I (fold_left (process_project a w) (get_project_dirs w a)
                   (mkScan stats0 []
                      (if negb (dry_run a) then Some [] else None)))).
  { apply fold_left_invariant_In.
    - intros st p Hp Hst. unfold process_project.
      set (st1 := detect_modules a st [fst p] (snd p)).
      apply fold_left_invariant_In.
      + intros st' e He Hst'. unfold process_dir.
        apply walk_keep_incl in He.
        generalize (path_explicitly_included a (module_paths st')
                      (fst (fst e))).
        intros b.
        apply fold_left_invariant_In; [|exact Hst'].
        intros st'' f Hf Hst'' z' Hz'.
        apply process_file_zipf in Hz'
          as [Hz' | (z & n & Hz & -> & Hex & Hsz & Hle & Hok & _)];
          [apply Hst''; exact Hz'|].
        apply Forall_app. split; [apply Hst''; exact Hz|].
        constructor; [|constructor].
        unfold P. cbn [fst snd]. split; [|split; [exact Hex|]].
        * unfold PurePath.joinpath. symmetry. apply app_assoc.
        * exists f, n. split; [|auto].
          exists p, e. auto.
      + intros z Hz. unfold st1 in Hz. rewrite detect_modules_zipf in Hz.
        apply Hst. exact Hz.
    - intros z Hz. cbn [zipf] in Hz.
      destruct (negb (dry_run a)); [|discriminate].
      injection Hz as <-. constructor. }
  unfold backup in Hc.
  destruct (negb (pycharm_dir_exists w)); [discriminate|].
  destruct (negb (dry_run a) && negb (zip_open_ok w)); [discriminate|].
  cbn [container] in Hc.
  pose proof (H entries Hc) as HF. rewrite Forall_forall in HF.
  exact (HF (file_path, zip_path) Hin).
Qed.

Lemma container_entries_within_policy_witness :
  let a := Samples.default_args false false in
  let w := Samples.one_project
             (Dir [mkFile "main.py" (Some 10%Z) true;
                   mkFile "big.py" (Some 30000000%Z) true;
                   mkFile "locked.py" (Some 10%Z) false] []) in
  let file_path := Samples.home_projects ++ ["proj"; "main.py"] in
  let zip_path := ["proj"; "main.py"] in
  (container (backup a w) = Some [(file_path, zip_path)]
   /\ In (file_path, zip_path) [(file_path, zip_path)])
  /\ (file_path = pycharm_dir w ++ zip_path
      /\ should_exclude_file file_path (custom_excludes a) = false
      /\ exists f n,
           on_disk w a zip_path f
           /\ st_size f = Some n
           /\ (n <= max_size_bytes a)%Z
           /\ zip_write_ok f = true).
Proof.
  intros a w file_path zip_path.
  assert (H1 : container (backup a w) = Some [(file_path, zip_path)])
    by (vm_compute; reflexivity).
  assert (H2 : In (file_path, zip_path) [(file_path, zip_path)])
    by (left; reflexivity).
  split; [split; assumption|].
  exact (container_entries_within_policy a w [(file_path, zip_path)]
           file_path zip_path H1 H2).
Defined.

(** X14. With no include paths and module detection off, every
    entry of the container lies in a project, below directories none
    of which [is_excluded_dir] rejects, and its file is selected by
    the allowlists (or, in an environment directory with environments
    included, by the marker patterns).  The name of the project
    directory itself is not tested. *)
Theorem default_selection_prunes_excluded_dirs :
  forall (a : args) (w : world) (entries : list zip_entry)
         (file_path zip_path : path),
    include_paths a = [] ->
    auto_include_modules a = false ->
    container (backup a w) = Some entries ->
    In (file_path, zip_path) entries ->
    exists project dirs file,
      zip_path = (project :: dirs) ++ [file]
      /\ In project (map fst (get_project_dirs w a))
      /\ Forall (fun d => is_excluded_dir d (include_venv a)
                            (custom_excludes a) = false) dirs
      /\ (if in_venv w (project :: dirs) && include_venv a
          then existsb
                 (fun venv_file =>
                    PurePath.path_match file_path
                      (String.append "*"
                         (String.append (PurePath.to_str venv_file) "*")))
                 venv_important_files
          else is_important_file (PurePath.parts file) (include_venv a))
         = true.
Proof.
  intros a w entries file_path zip_path Hinc Hmod Hc Hin.
  set (P := fun e : zip_entry =>
              exists project dirs file,
                snd e = (project :: dirs) ++ [file]
                /\ In project (map fst (get_project_dirs w a))
                /\ Forall (fun d => is_excluded_dir d (include_venv a)
                                      (custom_excludes a) = false) dirs
                /\ (if in_venv w (project :: dirs) && include_venv a
                    then existsb
                           (fun venv_file =>
                              PurePath.path_match (fst e)
                                (String.append "*"
                                   (String.append (PurePath.to_str venv_file)
                                      "*")))
                           venv_important_files
                    else is_important_file (PurePath.parts file)
                           (include_venv a))
                   = true).
  set (I := fun st : scan =>
              module_paths st = []
              /\ forall z, zipf st = Some z -> Forall P z).
  assert (Hexp : forall rel, path_explicitly_included a [] rel = false).
  { intros rel. unfold path_explicitly_included. rewrite Hinc. reflexivity. }
  assert (H : I (fold_left (process_project a w) (get_project_dirs w a)
                   (mkScan stats0 []
                      (if negb (dry_run a) then Some [] else None)))).
  { apply fold_left_invariant_In.
    - intros st p Hp [Hm Hst]. unfold process_project.
      assert (Hd : detect_modules a st [fst p] (snd p) = st)
        by (unfold detect_modules; rewrite Hmod; reflexivity).
      rewrite Hd, Hm.
      apply fold_left_invariant_In; [|split; assumption].
      intros st' e He [Hm' Hst'].
      split; [rewrite process_dir_module_paths; exact Hm'|].
      apply (walk_keep_dirs (keep_dir a [])
               (fun d => is_excluded_dir d (include_venv a)
                           (custom_excludes a) = false)) in He
        as (q & Hq & HK).
      2:{ intros r d. unfold keep_dir. rewrite Hexp, Hinc. cbn.
          rewrite !orb_false_r. apply negb_true_iff. }
      unfold process_dir. rewrite Hm', Hexp, Hq.
      assert (J : forall l st0,
                 (forall z, zipf st0 = Some z -> Forall P z) ->
                 forall z,
                   zipf (fold_left
                           (process_file a w ([fst p] ++ q) false
                              (in_venv w ([fst p] ++ q))) l st0) = Some z ->
                   Forall P z).
      { induction l as [|f l IHl]; intros st0 H0; [exact H0|].
        cbn [fold_left]. apply IHl. intros z' Hz'.
        apply process_file_zipf in Hz'
          as [Hz' | (z & n & Hz & -> & _ & _ & _ & _ & Hsel)];
          [apply H0; exact Hz'|].
        apply Forall_app. split; [apply H0; exact Hz|].
        constructor; [|constructor].
        exists (fst p), q, (f_name f). cbn [fst snd].
        split; [reflexivity|]. split; [apply in_map; exact Hp|].
        split; [exact HK|]. exact Hsel. }
      apply J. exact Hst'.
    - split; [reflexivity|]. intros z Hz. cbn [zipf] in Hz.
      destruct (negb (dry_run a)); [|discriminate].
      injection Hz as <-. constructor. }
  unfold backup in Hc.
  destruct (negb (pycharm_dir_exists w)); [discriminate|].
  destruct (negb (dry_run a) && negb (zip_open_ok w)); [discriminate|].
  cbn [container] in Hc.
  destruct H as [_ H].
  pose proof (H entries Hc) as HF. rewrite Forall_forall in HF.
  exact (HF (file_path, zip_path) Hin).
Qed.

Lemma default_selection_prunes_excluded_dirs_witness :
  let a := mkArgs false [] (20 * 1024 * 1024) [] [] [] false false in
  let w := Samples.one_project
             (Dir [mkFile "notes.bin" (Some 10%Z) true]
                  [("src", Dir [mkFile "main.py" (Some 10%Z) true] []);
                   ("build", Dir [mkFile "gen.py" (Some 10%Z) true] []);
                   ("pkg", Dir [mkFile "__init__.py" (Some 0%Z) true;
                                mkFile "table.bin" (Some 5%Z) true] [])]) in
  let entries :=
    [(Samples.home_projects ++ ["proj"; "src"; "main.py"],
      ["proj"; "src"; "main.py"]);
     (Samples.home_projects ++ ["proj"; "pkg"; "__init__.py"],
      ["proj"; "pkg"; "__init__.py"])] in
  (include_paths a = []
   /\ auto_include_modules a = false
   /\ container (backup a w) = Some entries
   /\ In (Samples.home_projects ++ ["proj"; "src"; "main.py"],
          ["proj"; "src"; "main.py"]) entries)
  /\ exists project dirs file,
       ["proj"; "src"; "main.py"] = (project :: dirs) ++ [file]
       /\ In project (map fst (get_project_dirs w a))
       /\ Forall (fun d => is_excluded_dir d (include_venv a)
                             (custom_excludes a) = false) dirs
       /\ (if in_venv w (project :: dirs) && include_venv a
           then existsb
                  (fun venv_file =>
                     PurePath.path_match
                       (Samples.home_projects ++ ["proj"; "src"; "main.py"])
                       (String.append "*"
                          (String.append (PurePath.to_str venv_file) "*")))
                  venv_important_files
           else is_important_file (PurePath.parts file) (include_venv a))
          = true.
Proof.
  intros a w entries.
  assert (H3 : container (backup a w) = Some entries)
    by (vm_compute; reflexivity).
  assert (H4 : In (Samples.home_projects ++ ["proj"; "src"; "main.py"],
                   ["proj"; "src"; "main.py"]) entries)
    by (left; reflexivity).
  split; [repeat split; assumption|].
  exact (default_selection_prunes_excluded_dirs a w entries
           (Samples.home_projects ++ ["proj"; "src"; "main.py"])
           ["proj"; "src"; "main.py"] eq_refl eq_refl H3 H4).
Defined.

End BackupPolicy.

(** ** From a backup to its restore *)

Section RoundTrip.
Import Os FilePatternMatcher ProjectBackup Notions More.

Lemma split_no_slash x :
  has_slash x = false -> PyStr.split PurePath.slash x = [x].
Proof.
  induction x as [|c x IH]; [reflexivity|].
  cbn [has_slash PyStr.split]. intros H.
  apply orb_false_elim in H as [Hc Hx].
  unfold PurePath.slash in *. rewrite Hc, (IH Hx). reflexivity.
Qed.

Lemma split_append x s :
  has_slash x = false ->
  PyStr.split PurePath.slash (String.append x (String "/"%char s))
  = x :: PyStr.split PurePath.slash s.
Proof.
  induction x as [|c x IH]; [reflexivity|].
  cbn [has_slash String.append PyStr.split]. intros H.
  apply orb_false_elim in H as [Hc Hx].
  unfold PurePath.slash in *. rewrite Hc, (IH Hx). reflexivity.
Qed.

Lemma split_concat p :
  forallb plain_name p = true -> p <> [] ->
  PyStr.split PurePath.slash (String.concat "/" p) = p.
Proof.
  induction p as [|x p IH]; intros Hp Hne; [contradiction|].
  cbn [forallb] in Hp. apply andb_prop in Hp as [Hx Hp].
  destruct p as [|y l].
  - change (String.concat "/" [x]) with x.
    apply split_no_slash, plain_no_slash, Hx.
  - rewrite concat_cons, split_append by (apply plain_no_slash, Hx).
    rewrite IH; [reflexivity | exact Hp | discriminate].
Qed.

Lemma plain_keep_part p :
  forallb plain_name p = true -> filter PurePath.keep_part p = p.
Proof.
  induction p as [|x p IH]; [reflexivity|].
  cbn [forallb filter]. intros H. apply andb_prop in H as [Hx Hp].
  rewrite (IH Hp).
  unfold plain_name in Hx.
  apply andb_prop in Hx as [Hx _]. apply andb_prop in Hx as [Hx _].
  unfold PurePath.keep_part. rewrite Hx. reflexivity.
Qed.

Lemma plain_root_of x s :
  plain_name x = true -> PurePath.root_of (String.append x s) = [].
Proof.
  intros Hx. pose proof (plain_no_slash _ Hx) as Hs.
  unfold plain_name in Hx.
  destruct x as [|c x]; [discriminate|].
  cbn [has_slash] in Hs. apply orb_false_elim in Hs as [Hc _].
  unfold PurePath.root_of, PyStr.startswith.
  cbn [String.append].
  destruct (String.prefix "/" (String c (String.append x s))) eqn:Hpre;
    [|reflexivity].
  apply prefix_cons in Hpre as [<- _]. discriminate Hc.
Qed.

(** [Path(str(p)).parts] is [p] again for a relative path of plain
    names. *)
Lemma parts_to_str p :
  forallb plain_name p = true -> p <> [] ->
  PurePath.parts (PurePath.to_str p) = p.
Proof.
  intros Hp Hne. destruct p as [|x l]; [contradiction|].
  assert (Hx : plain_name x = true)
    by (cbn [forallb] in Hp; apply andb_prop in Hp as [H _]; exact H).
  unfold PurePath.to_str, PyStr.join. rewrite (plain_not_root _ Hx).
  unfold PurePath.parts. rewrite split_concat by (auto; discriminate).
  rewrite plain_keep_part by exact Hp.
  destruct l as [|y l].
  - change (String.concat "/" [x]) with x.
    replace x with (String.append x "") at 1
      by (clear; induction x as [|c x IH]; cbn; [|rewrite IH]; reflexivity).
    rewrite plain_root_of by exact Hx. reflexivity.
  - rewrite concat_cons, plain_root_of by exact Hx. reflexivity.
Qed.

Lemma filter_map_swap {A B} (g : A -> B) (p : B -> bool) (l : list A) :
  filter p (map g l) = map g (filter (fun x => p (g x)) l).
Proof.
  induction l as [|x l IH]; cbn; [reflexivity|].
  destruct (p (g x)); cbn; rewrite IH; reflexivity.
Qed.

Lemma restore_extracts_matched (rw : ProjectRestore.world)
      (sel all_files : list string) :
  ProjectRestore.backup_file_exists rw = true ->
  ProjectRestore.namelist rw = Some all_files ->
  (forall n, ProjectRestore.extract_ok rw n = true) ->
  ProjectRestore.extracted (ProjectRestore.restore rw sel)
  = filter (matched sel) all_files.
Proof.
  intros Hex Hnl Hok. unfold ProjectRestore.restore.
  rewrite Hex, Hnl. cbn [negb]. fold (chosen sel all_files).
  destruct (match sel with [] => false | _ => true end
            && match chosen sel all_files with [] => true | _ => false end)
    eqn:Hnone.
  - cbn [ProjectRestore.extracted].
    apply andb_prop in Hnone as [_ Hc].
    destruct (chosen sel all_files) eqn:Hch; [|discriminate].
    apply chosen_empty in Hch.
    symmetry. clear - Hch. induction all_files as [|f l IH]; [reflexivity|].
    cbn [existsb] in Hch. apply orb_false_elim in Hch as [Hf Hl].
    cbn [filter]. rewrite Hf. apply IH. exact Hl.
  - cbn [ProjectRestore.extracted].
    rewrite extract_loop_spec. cbn [fst app]. rewrite filter_filter.
    apply filter_ext_in'. intros f Hf.
    rewrite (in_projects_chosen _ _ _ Hf), Hok, andb_true_r.
    apply andb_diag.
Qed.

(** X15. Restoring the container a backup has written, with every
    extraction succeeding, extracts exactly the entries of the
    selected projects, in the order the backup wrote them; with no
    selection it extracts every entry. *)
Theorem restore_extracts_what_backup_wrote :
  forall (a : args) (w : world) (entries : list zip_entry)
         (rw : ProjectRestore.world) (selected_projects : list string),
    wf_world w = true ->
    container (backup a w) = Some entries ->
    ProjectRestore.backup_file_exists rw = true ->
    ProjectRestore.namelist rw = Some (map arcname entries) ->
    (forall n, ProjectRestore.extract_ok rw n = true) ->
    ProjectRestore.extracted (ProjectRestore.restore rw selected_projects)
    = map arcname
        (filter (fun e =>
                   match selected_projects with
                   | [] => true
                   | _ => PyStr.mem (hd "" (snd e)) selected_projects
                   end)
                entries).
Proof.
  intros a w entries rw sel Hwf Hc Hex Hnl Hok.
  rewrite (restore_extracts_matched rw sel (map arcname entries) Hex Hnl Hok).
  rewrite filter_map_swap. f_equal.
  apply filter_ext_in'. intros [fp zp] He.
  assert (Hin : In zp (full_scan w a)).
  { apply (subseq_In _ _ _ (backup_entries a w entries Hc)).
    change zp with (snd (fp, zp)). apply in_map. exact He. }
  apply (full_scan_plain a w _ Hwf) in Hin as [Hp Hne].
  unfold matched, ProjectRestore.first_part, arcname. cbn [snd].
  rewrite (parts_to_str _ Hp Hne).
  destruct zp as [|x l]; [contradiction|]. reflexivity.
Qed.

Lemma restore_extracts_what_backup_wrote_witness :
  let a := Samples.default_args false false in
  let w := mkWorld Samples.home_projects true
             [("api", Dir [mkFile "main.py" (Some 10%Z) true] []);
              ("web", Dir [mkFile "app.js" (Some 10%Z) true;
                           mkFile "logo.png" (Some 10%Z) true] [])] true in
  let entries :=
    [(Samples.home_projects ++ ["api"; "main.py"], ["api"; "main.py"]);
     (Samples.home_projects ++ ["web"; "app.js"], ["web"; "app.js"])] in
  let rw := ProjectRestore.mkWorld true (Some ["api/main.py"; "web/app.js"])
              (fun _ => true) in
  (wf_world w = true
   /\ container (backup a w) = Some entries
   /\ ProjectRestore.backup_file_exists rw = true
   /\ ProjectRestore.namelist rw = Some (map arcname entries)
   /\ (forall n, ProjectRestore.extract_ok rw n = true))
  /\ ProjectRestore.extracted (ProjectRestore.restore rw ["web"])
     = ["web/app.js"].
Proof.
  intros a w entries rw.
  assert (H1 : wf_world w = true) by (vm_compute; reflexivity).
  assert (H2 : container (backup a w) = Some entries)
    by (vm_compute; reflexivity).
  assert (H4 : ProjectRestore.namelist rw = Some (map arcname entries))
    by (vm_compute; reflexivity).
  assert (H5 : forall n, ProjectRestore.extract_ok rw n = true)
    by (intros n; reflexivity).
  split; [repeat split; assumption|].
  exact (restore_extracts_what_backup_wrote a w entries rw ["web"]
           H1 H2 eq_refl H4 H5).
Defined.

End RoundTrip.

(** ** Included prefixes *)

Section IncludedPrefixes.
Import Os FilePatternMatcher ProjectBackup Notions More.

Lemma prefix_append_r p s t :
  String.prefix p s = true -> String.prefix p (String.append s t) = true.
Proof.
  revert s. induction p as [|c p IH]; intros s H;
    [destruct (String.append s t); reflexivity|].
  destruct s as [|d s]; [discriminate|].
  cbn [String.append]. apply prefix_cons in H as [-> H].
  apply prefix_cons. split; [reflexivity | apply IH; exact H].
Qed.

Lemma replace_char_append a b s t :
  PyStr.replace_char a b (String.append s t)
  = String.append (PyStr.replace_char a b s) (PyStr.replace_char a b t).
Proof.
  induction s as [|c s IH]; [reflexivity|].
  cbn [String.append PyStr.replace_char]. rewrite IH. reflexivity.
Qed.

Lemma append_nil_r s : String.append s "" = s.
Proof. induction s as [|c s IH]; cbn; [|rewrite IH]; reflexivity. Qed.

Lemma concat_app_prefix l q :
  exists t,
    String.concat "/" (l ++ q) = String.append (String.concat "/" l) t.
Proof.
  induction l as [|x l IH].
  - exists (String.concat "/" q). reflexivity.
  - destruct l as [|y l].
    + destruct q as [|z q].
      * exists "". symmetry. apply append_nil_r.
      * exists (String "/"%char (String.concat "/" (z :: q))). reflexivity.
    + destruct IH as (t & Ht). exists t.
      change ((x :: y :: l) ++ q) with (x :: y :: (l ++ q)).
      rewrite !concat_cons.
      change (y :: l ++ q) with ((y :: l) ++ q). rewrite Ht.
      rewrite append_assoc. reflexivity.
Qed.

Lemma to_str_app rel q :
  rel <> [] ->
  exists t,
    PurePath.to_str (rel ++ q) = String.append (PurePath.to_str rel) t.
Proof.
  destruct rel as [|r rest]; [contradiction|]. intros _.
  change ((r :: rest) ++ q) with (r :: (rest ++ q)).
  unfold PurePath.to_str, PyStr.join.
  destruct (PurePath.is_root r).
  - destruct (concat_app_prefix rest q) as (t & Ht). exists t.
    rewrite Ht, append_assoc. reflexivity.
  - apply (concat_app_prefix (r :: rest) q).
Qed.

(** What lies below an included path is included. *)
Lemma is_in_include_paths_below rel q ips :
  rel <> [] ->
  is_in_include_paths rel ips = true ->
  is_in_include_paths (rel ++ q) ips = true.
Proof.
  intros Hne. unfold is_in_include_paths.
  destruct ips as [|ip ips]; [auto|].
  rewrite !existsb_exists. intros (x & Hx & Hpre). exists x.
  split; [exact Hx|].
  destruct (to_str_app rel q Hne) as (t & ->).
  rewrite replace_char_append. unfold PyStr.startswith in *.
  apply prefix_append_r. exact Hpre.
Qed.

Lemma is_in_include_paths_more rel ips more :
  is_in_include_paths rel ips = true ->
  is_in_include_paths rel (ips ++ more) = true.
Proof.
  unfold is_in_include_paths.
  destruct ips as [|ip ips]; [discriminate|].
  change ((ip :: ips) ++ more) with (ip :: (ips ++ more)).
  rewrite !existsb_exists. intros (x & Hx & Hpre). exists x.
  split; [|exact Hpre].
  change (In x ((ip :: ips) ++ more)). apply in_or_app. left. exact Hx.
Qed.

Lemma path_explicitly_included_below a mods rel q :
  rel <> [] ->
  path_explicitly_included a mods rel = true ->
  path_explicitly_included a mods (rel ++ q) = true.
Proof.
  intros Hne. unfold path_explicitly_included. intros H.
  apply orb_true_iff in H as [H|H]; apply orb_true_iff; [left|right];
    apply is_in_include_paths_below; assumption.
Qed.

(** X16. Below a directory that an include path or a detected
    module covers nothing is pruned: the walk of the backup visits
    the whole sub-tree, excluded directory names included, and every
    directory it visits there is again covered. *)
Theorem included_subtree_is_not_pruned :
  forall (a : args) (mods : list string) (t : fs_tree) (rel : path),
    rel <> [] ->
    path_explicitly_included a mods rel = true ->
    walk (keep_dir a mods) rel t = walk keep_all rel t
    /\ forall e,
         In e (walk (keep_dir a mods) rel t) ->
         path_explicitly_included a mods (fst (fst e)) = true.
Proof.
  intros a mods t.
  induction t as [files subdirs IH] using fs_tree_nested_ind.
  intros rel Hne Hexp. rewrite !walk_unfold.
  assert (Hk : forall d, keep_dir a mods rel d = true)
    by (intros d; unfold keep_dir; rewrite Hexp; reflexivity).
  assert (Hsub : forall ds,
             In ds subdirs ->
             walk (keep_dir a mods) (rel ++ [fst ds]) (snd ds)
             = walk keep_all (rel ++ [fst ds]) (snd ds)
             /\ forall e,
                  In e (walk (keep_dir a mods) (rel ++ [fst ds]) (snd ds)) ->
                  path_explicitly_included a mods (fst (fst e)) = true).
  { rewrite Forall_forall in IH. intros ds Hds. apply (IH ds Hds).
    - destruct rel; discriminate.
    - apply path_explicitly_included_below; assumption. }
  split.
  - f_equal. clear IH.
    induction subdirs as [|ds l IHl]; [reflexivity|].
    cbn [flat_map]. rewrite Hk. unfold keep_all at 1.
    rewrite (proj1 (Hsub ds (or_introl eq_refl))).
    rewrite IHl by (intros ds' Hds'; apply Hsub; right; exact Hds').
    reflexivity.
  - intros e [He|He]; [subst e; exact Hexp|].
    apply in_flat_map in He as (ds & Hds & He). rewrite Hk in He.
    apply (Hsub ds Hds). exact He.
Qed.

Lemma included_subtree_is_not_pruned_witness :
  let a := mkArgs false [] (20 * 1024 * 1024) ["proj/assets"] [] [] false
             false in
  let t := Dir [mkFile "logo.png" (Some 10%Z) true]
               [("build", Dir [mkFile "out.bin" (Some 10%Z) true] []);
                ("venv", Dir [] [])] in
  (["proj"; "assets"] <> []
   /\ path_explicitly_included a [] ["proj"; "assets"] = true)
  /\ (walk (keep_dir a []) ["proj"; "assets"] t
      = walk keep_all ["proj"; "assets"] t
      /\ forall e,
           In e (walk (keep_dir a []) ["proj"; "assets"] t) ->
           path_explicitly_included a [] (fst (fst e)) = true).
Proof.
  intros a t.
  assert (H1 : ["proj"; "assets"] <> ([] : path)) by discriminate.
  assert (H2 : path_explicitly_included a [] ["proj"; "assets"] = true)
    by (vm_compute; reflexivity).
  split; [split; assumption|].
  exact (included_subtree_is_not_pruned a [] t ["proj"; "assets"] H1 H2).
Defined.

Lemma fold_left_module_paths {A} (f : scan -> A -> scan) (l : list A) :
  (forall st x, module_paths (f st x) = module_paths st) ->
  forall st, module_paths (fold_left f l st) = module_paths st.
Proof.
  intros H. induction l as [|x l IH]; intros st; [reflexivity|].
  cbn [fold_left]. rewrite IH. apply H.
Qed.

Lemma detect_modules_module_paths a st project_dir t :
  module_paths (detect_modules a st project_dir t)
  = module_paths st
    ++ (if auto_include_modules a
        then map PurePath.to_str (find_all_modules project_dir t)
        else []).
Proof.
  unfold detect_modules.
  destruct (auto_include_modules a); [|symmetry; apply app_nil_r].
  revert st. induction (find_all_modules project_dir t) as [|m l IH];
    intros st; [symmetry; apply app_nil_r|].
  cbn [fold_left map]. rewrite IH. cbn [module_paths].
  rewrite <- app_assoc. reflexivity.
Qed.

(** X17. The module prefixes are never reset between projects: a
    project adds the modules found in it to the prefixes of the
    projects before it, so a directory covered while one project is
    processed is still covered in every later one. *)
Theorem module_prefixes_accumulate :
  forall (a : args) (w : world) (st : scan) (p : string * fs_tree),
    module_paths (process_project a w st p)
    = module_paths st
      ++ (if auto_include_modules a
          then map PurePath.to_str (find_all_modules [fst p] (snd p))
          else [])
    /\ forall rel,
         path_explicitly_included a (module_paths st) rel = true ->
         path_explicitly_included a
           (module_paths (process_project a w st p)) rel = true.
Proof.
  intros a w st p.
  assert (H : module_paths (process_project a w st p)
              = module_paths st
                ++ (if auto_include_modules a
                    then map PurePath.to_str
                           (find_all_modules [fst p] (snd p))
                    else [])).
  { unfold process_project.
    rewrite (fold_left_module_paths (process_dir a w))
      by (intros; apply process_dir_module_paths).
    apply detect_modules_module_paths. }
  split; [exact H|].
  intros rel. rewrite H. unfold path_explicitly_included. intros Hexp.
  apply orb_true_iff in Hexp as [Hexp|Hexp]; apply orb_true_iff;
    [left; exact Hexp | right].
  apply is_in_include_paths_more. exact Hexp.
Qed.

End IncludedPrefixes.

(** ** The projects a backup takes *)

Section ProjectSelection.
Import Os FilePatternMatcher ProjectBackup Notions More.

Lemma get_project_dirs_In w a p :
  In p (get_project_dirs w a) ->
  In p (projects w)
  /\ PyStr.mem (fst p) (exclude_projects a) = false
  /\ (include_projects a = []
      \/ PyStr.mem (fst p) (include_projects a) = true).
Proof.
  unfold get_project_dirs.
  destruct (negb (pycharm_dir_exists w)); [contradiction|].
  intros H. apply filter_In in H as [Hin Hf]. cbv zeta in Hf.
  split; [exact Hin|].
  destruct (include_projects a) as [|i l] eqn:Hinc.
  - cbn [andb] in Hf.
    destruct (PyStr.mem (fst p) (exclude_projects a)); [discriminate|].
    auto.
  - destruct (PyStr.mem (fst p) (i :: l)); cbn [negb andb] in Hf;
      [|discriminate].
    destruct (PyStr.mem (fst p) (exclude_projects a)); [discriminate|].
    auto.
Qed.

(** X18. Every entry of a container lies below a directory of the
    projects directory whose name is not in the exclude list and,
    when an include list is given, is in it: a project named in both
    lists is left out. *)
Theorem container_holds_selected_projects_only :
  forall (a : args) (w : world) (entries : list zip_entry)
         (file_path zip_path : path),
    container (backup a w) = Some entries ->
    In (file_path, zip_path) entries ->
    exists project rest,
      zip_path = project :: rest
      /\ rest <> []
      /\ In project (map fst (projects w))
      /\ PyStr.mem project (exclude_projects a) = false
      /\ (include_projects a = []
          \/ PyStr.mem project (include_projects a) = true).
Proof.
  intros a w entries file_path zip_path Hc Hin.
  assert (Hs : In zip_path (full_scan w a)).
  { apply (subseq_In _ _ _ (backup_entries a w entries Hc)).
    change zip_path with (snd (file_path, zip_path)).
    apply in_map. exact Hin. }
  unfold full_scan in Hs. apply in_flat_map in Hs as (p & Hp & Hx).
  apply scanned_walk_prefix in Hx as (q & Hq & Hne).
  apply get_project_dirs_In in Hp as (Hpin & Hexc & Hinc).
  exists (fst p), q. repeat split; auto.
  apply in_map. exact Hpin.
Qed.

Lemma container_holds_selected_projects_only_witness :
  let a := mkArgs false [] (20 * 1024 * 1024) [] ["api"; "web"] ["web"]
             false false in
  let w := mkWorld Samples.home_projects true
             [("api", Dir [mkFile "main.py" (Some 10%Z) true] []);
              ("web", Dir [mkFile "app.js" (Some 10%Z) true] []);
              ("old", Dir [mkFile "run.py" (Some 10%Z) true] [])] true in
  let file_path := Samples.home_projects ++ ["api"; "main.py"] in
  let zip_path := ["api"; "main.py"] in
  (container (backup a w) = Some [(file_path, zip_path)]
   /\ In (file_path, zip_path) [(file_path, zip_path)])
  /\ exists project rest,
       zip_path = project :: rest
       /\ rest <> []
       /\ In project (map fst (projects w))
       /\ PyStr.mem project (exclude_projects a) = false
       /\ (include_projects a = []
           \/ PyStr.mem project (include_projects a) = true).
Proof.
  intros a w file_path zip_path.
  assert (H1 : container (backup a w) = Some [(file_path, zip_path)])
    by (vm_compute; reflexivity).
  assert (H2 : In (file_path, zip_path) [(file_path, zip_path)])
    by (left; reflexivity).
  split; [split; assumption|].
  exact (container_holds_selected_projects_only a w [(file_path, zip_path)]
           file_path zip_path H1 H2).
Defined.

End ProjectSelection.

(** ** The marker patterns of an environment directory *)

Section VenvMarkers.
Import Os FilePatternMatcher ProjectBackup Notions More.

Lemma fnmatchcase_star_any t : PurePath.fnmatchcase "*" t = true.
Proof.
  induction t as [|c t IH]; [reflexivity|].
  change (PurePath.fnmatchcase "*" (String c t))
    with (PurePath.fnmatchcase "" (String c t)
          || PurePath.fnmatchcase "*" t).
  rewrite IH. apply orb_true_r.
Qed.

Lemma fnmatchcase_lit_star lit :
  no_wildcard lit = true ->
  forall t,
    PurePath.fnmatchcase (String.append lit "*") t = String.prefix lit t.
Proof.
  induction lit as [|c lit IH]; intros Hlit t.
  - cbn [String.append]. rewrite (fnmatchcase_star_any t).
    destruct t; reflexivity.
  - cbn [no_wildcard] in Hlit.
    apply andb_prop in Hlit as [Hlit Hrest].
    apply andb_prop in Hlit as [Hlit _].
    apply andb_prop in Hlit as [Hstar Hq].
    apply negb_true_iff in Hstar, Hq.
    cbn [String.append PurePath.fnmatchcase]. rewrite Hstar.
    destruct t as [|d t]; [reflexivity|].
    rewrite Hq, (IH Hrest). cbn [orb String.prefix].
    destruct (ascii_dec c d) as [->|Hne].
    + rewrite Ascii.eqb_refl. reflexivity.
    + destruct (Ascii.eqb_spec c d) as [->|_]; [contradiction|reflexivity].
Qed.

Lemma fnmatchcase_star_lit_star lit :
  no_wildcard lit = true ->
  forall s,
    PurePath.fnmatchcase (String "*"%char (String.append lit "*")) s
    = PyStr.contains s lit.
Proof.
  intros Hlit. induction s as [|c s IH].
  - change (PurePath.fnmatchcase (String "*"%char (String.append lit "*")) "")
      with (PurePath.fnmatchcase (String.append lit "*") "" || false).
    rewrite (fnmatchcase_lit_star lit Hlit). reflexivity.
  - change (PurePath.fnmatchcase (String "*"%char (String.append lit "*"))
              (String c s))
      with (PurePath.fnmatchcase (String.append lit "*") (String c s)
            || PurePath.fnmatchcase (String "*"%char (String.append lit "*"))
                 s).
    rewrite IH, (fnmatchcase_lit_star lit Hlit). reflexivity.
Qed.

(** X19. For the markers of [venv_important_files] that are a
    single name, the pattern the backup builds around the marker
    matches a file exactly when the marker occurs somewhere in the
    file's name, whatever the directory: a name that merely contains
    the marker is kept as well. *)
Theorem single_name_marker_is_a_substring_test :
  forall (dir : path) (file marker : string),
    In [marker] venv_important_files ->
    PurePath.path_match (PurePath.joinpath dir file)
      (String.append "*" (String.append (PurePath.to_str [marker]) "*"))
    = PyStr.contains file marker.
Proof.
  intros dir file marker Hin.
  assert (Hm : marker = "pyvenv.cfg" \/ marker = "requirements.txt").
  { unfold venv_important_files in Hin. cbn [In] in Hin.
    destruct Hin as [H|[H|[H|[H|[H|[H|[]]]]]]];
      try discriminate H; injection H as <-; auto. }
  unfold PurePath.path_match, PurePath.joinpath.
  rewrite rev_app_distr. cbn [rev app].
  destruct Hm as [-> | ->].
  - replace (rev (PurePath.parts
                    (String.append "*"
                       (String.append (PurePath.to_str ["pyvenv.cfg"]) "*"))))
      with ["*pyvenv.cfg*"] by (vm_compute; reflexivity).
    cbn [PurePath.match_parts].
    replace (PurePath.match_parts (rev dir) []) with true
      by (destruct (rev dir); reflexivity).
    rewrite andb_true_r.
    apply (fnmatchcase_star_lit_star "pyvenv.cfg" eq_refl).
  - replace (rev (PurePath.parts
                    (String.append "*"
                       (String.append (PurePath.to_str ["requirements.txt"])
                          "*"))))
      with ["*requirements.txt*"] by (vm_compute; reflexivity).
    cbn [PurePath.match_parts].
    replace (PurePath.match_parts (rev dir) []) with true
      by (destruct (rev dir); reflexivity).
    rewrite andb_true_r.
    apply (fnmatchcase_star_lit_star "requirements.txt" eq_refl).
Qed.

Lemma single_name_marker_is_a_substring_test_witness :
  In ["requirements.txt"] venv_important_files
  /\ PurePath.path_match
       (PurePath.joinpath ["home"; "proj"; "venv"] "old-requirements.txt.bak")
       (String.append "*"
          (String.append (PurePath.to_str ["requirements.txt"]) "*"))
     = PyStr.contains "old-requirements.txt.bak" "requirements.txt".
Proof.
  assert (H : In ["requirements.txt"] venv_important_files)
    by (right; left; reflexivity).
  split; [exact H|].
  exact (single_name_marker_is_a_substring_test ["home"; "proj"; "venv"]
           "old-requirements.txt.bak" "requirements.txt" H).
Defined.

End VenvMarkers.

(** ** The recent-projects files of a configuration backup *)

Section RecentFiles.
Import Notions More.

Lemma no_slash_not_absolute v :
  has_slash v = false -> PyStr.startswith v "/" = false.
Proof.
  intros H. unfold PyStr.startswith.
  destruct v as [|c v]; [reflexivity|].
  cbn [has_slash] in H. apply orb_false_elim in H as [Hc _].
  destruct (String.prefix "/" (String c v)) eqn:Hp; [|reflexivity].
  apply prefix_cons in Hp as [<- _]. discriminate Hc.
Qed.

Lemma join_extends a b :
  PyStr.startswith b "/" = false ->
  exists t, OsPath.join a b = String.append a t.
Proof.
  intros H. unfold OsPath.join. rewrite H.
  destruct (String.eqb a "" || OsPath.ends_with_slash a).
  - exists b. reflexivity.
  - exists (String.append "/" b). reflexivity.
Qed.

Lemma recent_arcname_is_recent version file :
  has_slash version = false ->
  is_recent (OsPath.join (OsPath.join "_pycharm_recent_projects" version)
                         (OsPath.basename file)) = true.
Proof.
  intros Hv.
  assert (H1 : OsPath.join "_pycharm_recent_projects" version
               = String.append ConfigRestore.recent_prefix version).
  { unfold OsPath.join. rewrite (no_slash_not_absolute _ Hv). reflexivity. }
  destruct (join_extends (OsPath.join "_pycharm_recent_projects" version)
              (OsPath.basename file)
              (no_slash_not_absolute _ (basename_no_slash file))) as (t & ->).
  rewrite H1, append_assoc. unfold is_recent, PyStr.startswith.
  apply prefix_append.
Qed.

Lemma dict_set_In {V} (d : list (string * V)) k v kv :
  In kv (dict_set d k v) -> In kv d \/ kv = (k, v).
Proof.
  unfold dict_set. destruct (PyStr.mem k (map fst d)).
  - intros H. apply in_map_iff in H as (x & Hx & Hin).
    destruct (String.eqb (fst x) k); [right | left; subst kv]; auto.
  - intros H. apply in_app_or in H as [H|[H|[]]]; auto.
Qed.

(** X20. Every recent-projects file a configuration backup plans to
    write is [recentProjects.xml] or [recentSolutions.xml] in the
    options directory of a configuration directory, exists, and gets
    the archive name [_pycharm_recent_projects/<base name of the
    configuration directory>/<file name>]; that name is one
    [restore_recent_projects] takes as a recent-projects entry. *)
Theorem recent_files_are_named_for_restore :
  forall (config_dirs : list string) (path_exists : string -> bool)
         (file arcname : string),
    In (file, arcname)
       (recent_files (get_recent_projects_files config_dirs path_exists)) ->
    is_recent arcname = true
    /\ exists config_dir,
         In config_dir config_dirs
         /\ path_exists (OsPath.join config_dir "options") = true
         /\ path_exists file = true
         /\ (file = OsPath.join (OsPath.join config_dir "options")
                                "recentProjects.xml"
             \/ file = OsPath.join (OsPath.join config_dir "options")
                                   "recentSolutions.xml")
         /\ arcname
            = OsPath.join
                (OsPath.join "_pycharm_recent_projects"
                             (OsPath.basename config_dir))
                (OsPath.basename file).
Proof.
  intros config_dirs path_exists file arcname Hin.
  set (ok := fun item : string * list string =>
               forall f, In f (snd item) ->
                 exists config_dir,
                   In config_dir config_dirs
                   /\ fst item = OsPath.basename config_dir
                   /\ path_exists (OsPath.join config_dir "options") = true
                   /\ path_exists f = true
                   /\ (f = OsPath.join (OsPath.join config_dir "options")
                                       "recentProjects.xml"
                       \/ f = OsPath.join (OsPath.join config_dir "options")
                                          "recentSolutions.xml")).
  assert (Hall : forall item,
             In item (get_recent_projects_files config_dirs path_exists) ->
             ok item).
  { unfold get_recent_projects_files.
    assert (Hgen : forall l d,
               incl l config_dirs ->
               (forall item, In item d -> ok item) ->
               forall item,
                 In item
                    (fold_left
                       (fun recent_files config_dir =>
                          let pycharm_version :=
                            OsPath.basename config_dir in
                          let options_dir :=
                            OsPath.join config_dir "options" in
                          if negb (path_exists options_dir) then recent_files
                          else
                            let recent_projects :=
                              OsPath.join options_dir "recentProjects.xml" in
                            let recent_solutions :=
                              OsPath.join options_dir "recentSolutions.xml" in
                            let version_files :=
                              (if path_exists recent_projects
                               then [recent_projects] else [])
                              ++ (if path_exists recent_solutions
                                  then [recent_solutions] else []) in
                            match version_files with
                            | [] => recent_files
                            | _ => dict_set recent_files pycharm_version
                                     version_files
                            end) l d) ->
                 ok item).
    { induction l as [|c l IH]; intros d Hincl Hd; [exact Hd|].
      cbn [fold_left]. apply IH.
      - intros x Hx. apply Hincl. right. exact Hx.
      - cbv zeta.
        destruct (path_exists (OsPath.join c "options")) eqn:Hopt;
          cbn [negb]; [|exact Hd].
        assert (Hnew : ok (OsPath.basename c,
                           (if path_exists
                                 (OsPath.join (OsPath.join c "options")
                                    "recentProjects.xml")
                            then [OsPath.join (OsPath.join c "options")
                                    "recentProjects.xml"] else [])
                           ++ (if path_exists
                                    (OsPath.join (OsPath.join c "options")
                                       "recentSolutions.xml")
                               then [OsPath.join (OsPath.join c "options")
                                       "recentSolutions.xml"] else []))).
        { intros f Hf. cbn [snd] in Hf. exists c.
          split; [apply Hincl; left; reflexivity|].
          split; [reflexivity|]. split; [exact Hopt|].
          apply in_app_or in Hf as [Hf|Hf].
          - destruct (path_exists _) eqn:He in Hf; [|contradiction].
            destruct Hf as [<-|[]]. auto.
          - destruct (path_exists _) eqn:He in Hf; [|contradiction].
            destruct Hf as [<-|[]]. auto. }
        destruct (_ ++ _) as [|f0 fs] eqn:Hfiles in |- *; [exact Hd|].
        intros item Hitem. apply dict_set_In in Hitem as [Hitem | ->].
        + apply Hd. exact Hitem.
        + rewrite <- Hfiles. exact Hnew. }
    apply Hgen; [apply incl_refl | intros item []]. }
  unfold recent_files in Hin. apply in_flat_map in Hin as (item & Hitem & Hin).
  apply in_map_iff in Hin as (f & Heq & Hf). injection Heq as <- <-.
  destruct (Hall item Hitem f Hf) as (c & Hc & Hv & Hopt & Hex & Hfile).
  split.
  - apply recent_arcname_is_recent. rewrite Hv. apply basename_no_slash.
  - exists c. rewrite Hv. auto.
Qed.

Lemma recent_files_are_named_for_restore_witness :
  let config_dirs := ["/cfg/PyCharm2023.3"; "/cfg/PyCharm2024.1"] in
  let path_exists := fun p =>
    negb (String.eqb p "/cfg/PyCharm2023.3/options") in
  let file := "/cfg/PyCharm2024.1/options/recentProjects.xml" in
  let arcname := "_pycharm_recent_projects/PyCharm2024.1/recentProjects.xml" in
  In (file, arcname)
     (recent_files (get_recent_projects_files config_dirs path_exists))
  /\ is_recent arcname = true
  /\ exists config_dir,
       In config_dir config_dirs
       /\ path_exists (OsPath.join config_dir "options") = true
       /\ path_exists file = true
       /\ (file = OsPath.join (OsPath.join config_dir "options")
                              "recentProjects.xml"
           \/ file = OsPath.join (OsPath.join config_dir "options")
                                 "recentSolutions.xml")
       /\ arcname
          = OsPath.join
              (OsPath.join "_pycharm_recent_projects"
                           (OsPath.basename config_dir))
              (OsPath.basename file).
Proof.
  intros config_dirs path_exists file arcname.
  assert (H : In (file, arcname)
                 (recent_files
                    (get_recent_projects_files config_dirs path_exists)))
    by (vm_compute; left; reflexivity).
  split; [exact H|].
  exact (recent_files_are_named_for_restore config_dirs path_exists
           file arcname H).
Defined.

End RecentFiles.

(** ** Choosing a backup by its number *)

Section Choice.
Import Notions More.

Lemma nth_error_last {A} (l : list A) (d : A) :
  l <> [] -> nth_error l (List.length l - 1) = Some (last l d).
Proof.
  induction l as [|x l IH]; intros Hne; [contradiction|].
  destruct l as [|y l]; [reflexivity|].
  replace (List.length (x :: y :: l) - 1)%nat
    with (S (List.length (y :: l) - 1)) by (cbn [List.length]; lia).
  cbn [nth_error]. rewrite IH by discriminate. reflexivity.
Qed.

(** X21. The number typed at the prompt is accepted exactly when it
    lies between one minus the number of backups and the number of
    backups: 1 to that number select by position, and 0 is not
    rejected but selects the last backup listed. *)
Theorem backup_number_zero_selects_the_last :
  forall (backups : list string) (n : Z),
    let count := Z.of_nat (List.length backups) in
    (pick_backup backups (Some n) <> None <-> (- count < n <= count)%Z)
    /\ ((1 <= n <= count)%Z ->
        pick_backup backups (Some n) = nth_error backups (Z.to_nat (n - 1)))
    /\ (backups <> [] ->
        pick_backup backups (Some 0%Z) = Some (last backups "")).
Proof.
  intros backups n count. unfold pick_backup, py_index. fold count.
  split; [|split].
  - destruct (0 <=? n - 1)%Z eqn:H0.
    + apply Z.leb_le in H0. rewrite nth_error_Some. unfold count. lia.
    + apply Z.leb_gt in H0.
      destruct (0 <=? count + (n - 1))%Z eqn:H1.
      * apply Z.leb_le in H1. rewrite nth_error_Some. unfold count in *. lia.
      * apply Z.leb_gt in H1. split; [intros H; contradiction | lia].
  - intros Hn. replace (0 <=? n - 1)%Z with true
      by (symmetry; apply Z.leb_le; lia).
    reflexivity.
  - intros Hne. change (0 - 1)%Z with (-1)%Z. cbn [Z.leb Z.compare].
    assert (Hc : (1 <= count)%Z)
      by (unfold count; destruct backups; [contradiction | cbn; lia]).
    replace (0 <=? count + -1)%Z with true
      by (symmetry; apply Z.leb_le; lia).
    replace (Z.to_nat (count + -1)) with (List.length backups - 1)%nat
      by (unfold count; lia).
    apply nth_error_last. exact Hne.
Qed.

(** X22. [should_process_file] accepts a file exactly when no
    exclude pattern matches it and, if include patterns are given,
    one of them matches: a file that an include pattern and an
    exclude pattern both match is rejected. *)
Theorem should_process_file_exclude_wins :
  forall (fnmatch : string -> string -> bool) (file_path : string)
         (include_patterns exclude_patterns : list string),
    should_process_file fnmatch file_path include_patterns exclude_patterns
    = true
    <-> (forall pattern,
            In pattern exclude_patterns -> fnmatch file_path pattern = false)
        /\ (include_patterns = []
            \/ exists pattern,
                 In pattern include_patterns
                 /\ fnmatch file_path pattern = true).
Proof.
  intros fnmatch file_path inc exc. unfold should_process_file.
  assert (Hexc : existsb (fun pattern => fnmatch file_path pattern) exc = false
                 <-> forall pattern, In pattern exc ->
                                     fnmatch file_path pattern = false).
  { split.
    - intros H pattern Hin.
      destruct (fnmatch file_path pattern) eqn:Hm; [|reflexivity].
      rewrite <- H. symmetry. apply existsb_exists. exists pattern. auto.
    - intros H. destruct (existsb _ exc) eqn:He; [|reflexivity].
      apply existsb_exists in He as (pattern & Hin & Hm).
      rewrite (H pattern Hin) in Hm. discriminate. }
  destruct inc as [|i inc]; destruct exc as [|e exc]; cbn [negb andb].
  - split; [intros _; split; [intros ? []| left; reflexivity] | reflexivity].
  - destruct (existsb _ (e :: exc)) eqn:He.
    + split; [discriminate|]. intros [H _]. apply Hexc in H. discriminate.
    + split; [|reflexivity]. intros _.
      split; [apply Hexc; reflexivity | left; reflexivity].
  - rewrite existsb_exists. split.
    + intros H. split; [intros ? [] | right; exact H].
    + intros [_ [H|H]]; [discriminate | exact H].
  - destruct (existsb _ (e :: exc)) eqn:He.
    + split; [discriminate|]. intros [H _]. apply Hexc in H. discriminate.
    + rewrite existsb_exists. split.
      * intros H. split; [apply Hexc; reflexivity | right; exact H].
      * intros [_ [H|H]]; [discriminate | exact H].
Qed.

End Choice.

(** ** The container of a dry run *)

Section DryRunContainer.
Import Os FilePatternMatcher ProjectBackup Notions More.




End DryRunContainer.
